(** * Cart and checkout of the e-commerce backends

    The repository holds three backends for one shop:
    - the Go service (gin + GORM over SQLite): [handlers/orders.go],
      [handlers/carts.go], [models/models.go]; module [Go] below;
    - the Express/Mongoose service under [backend/src]: [models/Cart.js],
      [routes/cartRoutes.js], [controllers/cartController.js]; module [Src];
    - the Express/Mongoose service under [backend]: [models/Cart.js],
      [models/Product.js], [controllers/orders.js]; module [V1].

    Handlers are embedded as functions from the stored state to a response
    and a new stored state.  Storage errors, which a handler cannot tell
    apart from the outside, are given by an oracle [Faults]. *)

From Stdlib Require Import ZArith QArith Qround Lia Bool.
From stdpp Require Import prelude gmap strings sorting.

Local Open Scope Z_scope.

(** ** Numbers

    Prices and totals are [float64] in Go and [Number] in JavaScript, both
    IEEE doubles.  The handlers only add, multiply, compare and print them
    with two decimals, so the development is parametric in these operations:
    every theorem holds for any arithmetic, the doubles of the source
    included. *)

Class Number (num : Type) := {
  fromInt : Z -> num;            (* float64(n), an integer literal, an integer Number *)
  tenth : num;                   (* the literal 0.1 *)
  add : num -> num -> num;       (* a + b *)
  mul : num -> num -> num;       (* a * b *)
  gt : num -> num -> bool;       (* a > b *)
  toFixed2 : num -> num          (* parseFloat(a.toFixed(2)), Number(a.toFixed(2)) *)
}.

(** Exact decimals, used to evaluate the handlers on concrete inputs.  Values
    are kept reduced, so that equal numbers are equal terms.  [toFixed2]
    rounds half up.  They stand for doubles on the values of the examples
    below, which doubles hold exactly; no general statement depends on
    them. *)
Definition Qadd' (a b : Q) : Q := Qred (a + b).
Definition Qmul' (a b : Q) : Q := Qred (a * b).
Definition Qgt' (a b : Q) : bool := negb (Qle_bool a b).
Definition QtoFixed2 (a : Q) : Q := Qred (Qfloor (a * 100 + (1 # 2)) # 100).

#[export] Instance decimal : Number Q := {|
  fromInt z := (z # 1)%Q;
  tenth := (1 # 10)%Q;
  add := Qadd';
  mul := Qmul';
  gt := Qgt';
  toFixed2 := QtoFixed2
|}.

(** Storage errors: [f n = true] when the [n]-th database call of a handler
    fails. *)
Definition Faults := nat -> bool.
Definition no_faults : Faults := fun _ => false.

(** ** The Go service *)
Module Go.

(** Go's [int] on a 64-bit target. *)
Definition wrap64 (z : Z) : Z := (z + 2 ^ 63) mod 2 ^ 64 - 2 ^ 63.

Section Handlers.
Context {float64 : Type} `{Number float64}.

(** *** models/models.go

    Of [gorm.Model] the rows keep [ID] and, for orders, [CreatedAt]; nothing
    is ever deleted.  Primary keys are handed out by the database and the
    source does no arithmetic on them, so they are natural numbers.  The
    clock is read once for a request: the time GORM stamps on a new order is
    the handler's [now]. *)
Definition Time := nat.

Record Item := {
  Item_ID : nat;
  Name : string;
  Description : string;
  Price : float64
}.

Record Cart := {
  Cart_ID : nat;
  Cart_UserID : nat;
  IsCheckedOut : bool;
  CheckedOutAt : option Time
}.

Record CartItem := {
  CartItem_ID : nat;
  CartID : nat;
  ItemID : nat;
  Quantity : Z
}.

Record Order := {
  Order_ID : nat;
  Order_CreatedAt : Time;
  Order_UserID : nat;
  Order_CartID : nat;
  Total : float64;
  Status : string
}.

(** The tables, each in primary-key order, and the AUTOINCREMENT counters. *)
Record DB := {
  items : list Item;
  carts : list Cart;
  cart_items : list CartItem;
  orders : list Order;
  seq_carts : nat;
  seq_cart_items : nat;
  seq_orders : nat
}.

(** *** GORM calls used by the handlers

    A transaction works on a private copy of the database: [Begin] takes
    the copy, [Commit] installs it unless the commit fails, [Rollback]
    drops it. *)
Inductive DBError := ErrRecordNotFound | ErrOther.

Definition Begin (db : DB) : DB := db.
Definition Rollback (db tx : DB) : DB := db.
Definition Commit (fails : bool) (db tx : DB) : DBError + DB :=
  if fails then inl ErrOther else inr tx.

Definition zeroItem : Item :=
  {| Item_ID := 0%nat; Name := ""; Description := ""; Price := fromInt 0 |}.

(** [Preload("CartItems.Item")]: the lines of a cart, each joined with the
    current row of its item (the zero [Item] when the row is gone). *)
Definition find_item (tx : DB) (id : nat) : option Item :=
  snd <$> list_find (fun i => Item_ID i = id) (items tx).

Definition preload_CartItems (tx : DB) (cart_id : nat) : list (CartItem * Item) :=
  (fun ci => (ci, default zeroItem (find_item tx (ItemID ci)))) <$>
  filter (fun ci => CartID ci = cart_id) (cart_items tx).

(** [Where("user_id = ? AND is_checked_out = ?", u, false).First(&cart)] *)
Definition open_cart (tx : DB) (u : nat) : option Cart :=
  snd <$> list_find (fun c => Cart_UserID c = u ∧ IsCheckedOut c = false) (carts tx).

Definition First_open_cart (fails : bool) (tx : DB) (u : nat) : DBError + Cart :=
  if fails then inl ErrOther
  else match open_cart tx u with
       | Some c => inr c
       | None => inl ErrRecordNotFound
       end.

(** Writing a table back, with its counter. *)
Definition set_carts (cs : list Cart) (n : nat) (tx : DB) : DB :=
  {| items := items tx; carts := cs; cart_items := cart_items tx; orders := orders tx;
     seq_carts := n; seq_cart_items := seq_cart_items tx; seq_orders := seq_orders tx |}.

Definition set_cart_items (cis : list CartItem) (n : nat) (tx : DB) : DB :=
  {| items := items tx; carts := carts tx; cart_items := cis; orders := orders tx;
     seq_carts := seq_carts tx; seq_cart_items := n; seq_orders := seq_orders tx |}.

Definition set_orders (os : list Order) (n : nat) (tx : DB) : DB :=
  {| items := items tx; carts := carts tx; cart_items := cart_items tx; orders := os;
     seq_carts := seq_carts tx; seq_cart_items := seq_cart_items tx; seq_orders := n |}.

(** The catalog is written by its administration, outside these handlers. *)
Definition set_items (its : list Item) (tx : DB) : DB :=
  {| items := its; carts := carts tx; cart_items := cart_items tx; orders := orders tx;
     seq_carts := seq_carts tx; seq_cart_items := seq_cart_items tx;
     seq_orders := seq_orders tx |}.

(** [tx.Create(&order)]: the row gets the next id of its table. *)
Definition Create_order (fails : bool) (tx : DB) (o : Order) : DBError + (DB * Order) :=
  if fails then inl ErrOther
  else
    let o' := {| Order_ID := S (seq_orders tx); Order_CreatedAt := Order_CreatedAt o;
                 Order_UserID := Order_UserID o; Order_CartID := Order_CartID o;
                 Total := Total o; Status := Status o |} in
    inr (set_orders (orders tx ++ [o']) (S (seq_orders tx)) tx, o').

(** [tx.Save(&cart)]: the row with the cart's primary key is overwritten.
    The preloaded lines travel with the cart and are written back with the
    values they were read with. *)
Definition Save_cart (fails : bool) (tx : DB) (c : Cart) : DBError + DB :=
  if fails then inl ErrOther
  else inr (set_carts ((fun r => if decide (Cart_ID r = Cart_ID c) then c else r) <$> carts tx)
                      (seq_carts tx) tx).

(** [FirstOrCreate(&cart, models.Cart{UserID: u, IsCheckedOut: false})]
    under the same [Where]. *)
Definition FirstOrCreate_open_cart (fails : bool) (tx : DB) (u : nat)
  : DBError + (DB * Cart) :=
  if fails then inl ErrOther
  else match open_cart tx u with
       | Some c => inr (tx, c)
       | None =>
           let c := {| Cart_ID := S (seq_carts tx); Cart_UserID := u;
                       IsCheckedOut := false; CheckedOutAt := None |} in
           inr (set_carts (carts tx ++ [c]) (S (seq_carts tx)) tx, c)
       end.

(** [tx.First(&item, id)] *)
Definition First_item (fails : bool) (tx : DB) (id : nat) : DBError + Item :=
  if fails then inl ErrOther
  else match find_item tx id with
       | Some i => inr i
       | None => inl ErrRecordNotFound
       end.

(** [Where("cart_id = ? AND item_id = ?", c, i).First(&cartItem)] *)
Definition find_cart_item (tx : DB) (c i : nat) : option CartItem :=
  snd <$> list_find (fun ci => CartID ci = c ∧ ItemID ci = i) (cart_items tx).

Definition First_cart_item (fails : bool) (tx : DB) (c i : nat) : DBError + CartItem :=
  if fails then inl ErrOther
  else match find_cart_item tx c i with
       | Some ci => inr ci
       | None => inl ErrRecordNotFound
       end.

Definition Save_cart_item (fails : bool) (tx : DB) (ci : CartItem) : DBError + DB :=
  if fails then inl ErrOther
  else inr (set_cart_items
              ((fun r => if decide (CartItem_ID r = CartItem_ID ci) then ci else r)
                 <$> cart_items tx)
              (seq_cart_items tx) tx).

Definition Create_cart_item (fails : bool) (tx : DB) (ci : CartItem) : DBError + DB :=
  if fails then inl ErrOther
  else
    let ci' := {| CartItem_ID := S (seq_cart_items tx); CartID := CartID ci;
                  ItemID := ItemID ci; Quantity := Quantity ci |} in
    inr (set_cart_items (cart_items tx ++ [ci']) (S (seq_cart_items tx)) tx).

(** *** Responses *)
Record ItemData := {
  item_id : nat;
  item_name : string;
  item_description : string;
  item_price : float64;
  item_quantity : Z
}.

Record OrderData := {
  order_id : nat;
  order_total : float64;
  order_status : string;
  order_created_at : Time;
  order_items : list ItemData
}.

Inductive Body :=
| Error (msg : string)
| OrderCreated (order_id : nat)
| ItemAdded (cart_id : nat)
| Orders (os : list OrderData).

Inductive Response := JSON (code : nat) (body : Body).

Definition StatusOK := 200%nat.
Definition StatusCreated := 201%nat.
Definition StatusBadRequest := 400%nat.
Definition StatusNotFound := 404%nat.
Definition StatusInternalServerError := 500%nat.

(** *** handlers/orders.go *)

(** The loop [for _, item := range cart.CartItems { total += ... }]. *)
Definition cart_total (lines : list (CartItem * Item)) : float64 :=
  foldl (fun total l => add total (mul (Price l.2) (fromInt (Quantity l.1))))
        (fromInt 0) lines.

Definition CreateOrder (f : Faults) (now : Time) (currentUser : nat) (db : DB)
  : Response * DB :=
  let tx := Begin db in
  match First_open_cart (f 0%nat) tx currentUser with
  | inl ErrRecordNotFound =>
      (JSON StatusBadRequest (Error "no active cart found"), Rollback db tx)
  | inl ErrOther =>
      (JSON StatusInternalServerError (Error "failed to process order"), Rollback db tx)
  | inr cart =>
      let CartItems := preload_CartItems tx (Cart_ID cart) in
      if decide (length CartItems = 0%nat) then
        (JSON StatusBadRequest (Error "cart is empty"), Rollback db tx)
      else
        let total := cart_total CartItems in
        let order := {| Order_ID := 0%nat; Order_CreatedAt := now;
                        Order_UserID := currentUser; Order_CartID := Cart_ID cart;
                        Total := total; Status := "completed" |} in
        match Create_order (f 1%nat) tx order with
        | inl _ =>
            (JSON StatusInternalServerError (Error "failed to create order"), Rollback db tx)
        | inr (tx1, order) =>
            let cart := {| Cart_ID := Cart_ID cart; Cart_UserID := Cart_UserID cart;
                           IsCheckedOut := true; CheckedOutAt := Some now |} in
            match Save_cart (f 2%nat) tx1 cart with
            | inl _ =>
                (JSON StatusInternalServerError (Error "failed to update cart status"),
                 Rollback db tx1)
            | inr tx2 =>
                match Commit (f 3%nat) db tx2 with
                | inl _ =>
                    (JSON StatusInternalServerError (Error "failed to process order"),
                     Rollback db tx2)
                | inr db' => (JSON StatusCreated (OrderCreated (Order_ID order)), db')
                end
            end
        end
  end.

(** [GetUserOrders]: the user's orders, newest first; the lines of an
    order are the lines of its cart, joined with the current item rows. *)
Definition preload_Cart (db : DB) (cart_id : nat) : list (CartItem * Item) :=
  match list_find (fun c => Cart_ID c = cart_id) (carts db) with
  | Some (_, c) => preload_CartItems db (Cart_ID c)
  | None => []
  end.

Definition item_data (l : CartItem * Item) : ItemData :=
  {| item_id := ItemID l.1; item_name := Name l.2; item_description := Description l.2;
     item_price := Price l.2; item_quantity := Quantity l.1 |}.

Definition order_data (db : DB) (o : Order) : OrderData :=
  {| order_id := Order_ID o; order_total := Total o; order_status := Status o;
     order_created_at := Order_CreatedAt o;
     order_items := item_data <$> preload_Cart db (Order_CartID o) |}.

Definition created_at_desc (a b : Order) : Prop :=
  (Order_CreatedAt b <= Order_CreatedAt a)%nat.

#[global] Instance created_at_desc_dec a b : Decision (created_at_desc a b).
Proof. unfold created_at_desc. apply _. Defined.

Definition GetUserOrders (f : Faults) (currentUser : nat) (db : DB) : Response :=
  if f 0%nat then JSON StatusInternalServerError (Error "failed to fetch orders")
  else
    let orders :=
      merge_sort created_at_desc
        (filter (fun o => Order_UserID o = currentUser) (orders db)) in
    JSON StatusOK (Orders (order_data db <$> orders)).

(** *** handlers/carts.go *)
Record AddToCartRequest := {
  req_ItemID : nat;       (* binding:"required" *)
  req_Quantity : Z        (* binding:"required,min=1" *)
}.

(** [ShouldBindJSON]: the item id fits a [uint] and the quantity an [int],
    the required fields are not zero and the quantity is at least 1. *)
Definition ShouldBindJSON (req : AddToCartRequest) : bool :=
  negb (Nat.eqb (req_ItemID req) 0) && (Z.of_nat (req_ItemID req) <? 2 ^ 64) &&
  (1 <=? req_Quantity req) && (req_Quantity req <? 2 ^ 63).

Definition AddToCart (f : Faults) (currentUser : nat) (req : AddToCartRequest) (db : DB)
  : Response * DB :=
  if negb (ShouldBindJSON req) then
    (JSON StatusBadRequest (Error "binding error"), db)   (* err.Error() *)
  else
  let tx := Begin db in
  match FirstOrCreate_open_cart (f 0%nat) tx currentUser with
  | inl _ =>
      (JSON StatusInternalServerError (Error "failed to get or create cart"), Rollback db tx)
  | inr (tx1, cart) =>
      match First_item (f 1%nat) tx1 (req_ItemID req) with
      | inl _ => (JSON StatusNotFound (Error "item not found"), Rollback db tx1)
      | inr item =>
          let saved :=
            match First_cart_item (f 2%nat) tx1 (Cart_ID cart) (req_ItemID req) with
            | inr cartItem =>
                let cartItem :=
                  {| CartItem_ID := CartItem_ID cartItem; CartID := CartID cartItem;
                     ItemID := ItemID cartItem;
                     Quantity := wrap64 (Quantity cartItem + req_Quantity req) |} in
                match Save_cart_item (f 3%nat) tx1 cartItem with
                | inl _ => inl "failed to update cart"
                | inr tx2 => inr tx2
                end
            | inl ErrRecordNotFound =>
                let cartItem :=
                  {| CartItem_ID := 0%nat; CartID := Cart_ID cart;
                     ItemID := req_ItemID req; Quantity := req_Quantity req |} in
                match Create_cart_item (f 3%nat) tx1 cartItem with
                | inl _ => inl "failed to add item to cart"
                | inr tx2 => inr tx2
                end
            | inl ErrOther => inl "failed to process cart"
            end in
          match saved with
          | inl msg => (JSON StatusInternalServerError (Error msg), Rollback db tx1)
          | inr tx2 =>
              match Commit (f 4%nat) db tx2 with
              | inl _ =>
                  (JSON StatusInternalServerError (Error "failed to update cart"),
                   Rollback db tx2)
              | inr db' => (JSON StatusOK (ItemAdded (Cart_ID cart)), db')
              end
          end
      end
  end.

(** *** Histories

    What can happen to the database: the two writing handlers, called by
    any user, and the catalog administration replacing the item table. *)
Inductive Op :=
| OpAddToCart (f : Faults) (currentUser : nat) (req : AddToCartRequest)
| OpCreateOrder (f : Faults) (now : Time) (currentUser : nat)
| OpCatalog (its : list Item).

Definition step (db : DB) (op : Op) : DB :=
  match op with
  | OpAddToCart f u req => (AddToCart f u req db).2
  | OpCreateOrder f now u => (CreateOrder f now u db).2
  | OpCatalog its => set_items its db
  end.

Definition run (ops : list Op) (db : DB) : DB := foldl step db ops.

(** Primary keys are unique and were handed out by the counters. *)
Definition wf (db : DB) : Prop :=
  NoDup (Cart_ID <$> carts db) ∧
  Forall (fun c => (Cart_ID c <= seq_carts db)%nat) (carts db) ∧
  NoDup (CartItem_ID <$> cart_items db) ∧
  Forall (fun ci => (CartItem_ID ci <= seq_cart_items db)%nat) (cart_items db).

(** The lines of a cart as stored, and as an order view shows them with the
    item rows of [db]. *)
Definition lines_of (db : DB) (cart_id : nat) : list CartItem :=
  filter (fun ci => CartID ci = cart_id) (cart_items db).

Definition view_line (db : DB) (ci : CartItem) : ItemData :=
  item_data (ci, default zeroItem (find_item db (ItemID ci))).

(** The row of a cart after a checkout, and the row of a line after a
    repeated add. *)
Definition checked_out (now : Time) (cart : Cart) : Cart :=
  {| Cart_ID := Cart_ID cart; Cart_UserID := Cart_UserID cart;
     IsCheckedOut := true; CheckedOutAt := Some now |}.

Definition add_quantity (q : Z) (ci : CartItem) : CartItem :=
  {| CartItem_ID := CartItem_ID ci; CartID := CartID ci; ItemID := ItemID ci;
     Quantity := wrap64 (Quantity ci + q) |}.

(** An order [o] taken from the cart [cart_id], whose lines were [L], as
    the database keeps them. *)
Definition frozen (cart_id : nat) (L : list CartItem) (o : Order) (db : DB) : Prop :=
  wf db ∧
  (∃ c, c ∈ carts db ∧ Cart_ID c = cart_id ∧ IsCheckedOut c = true) ∧
  lines_of db cart_id = L ∧
  o ∈ orders db.

(** The keys (cart, item) of the stored lines, and the current price of an
    item. *)
Definition line_keys (db : DB) : list (nat * nat) :=
  (fun ci => (CartID ci, ItemID ci)) <$> cart_items db.

Definition current_price (db : DB) (id : nat) : float64 :=
  Price (default zeroItem (find_item db id)).

End Handlers.
End Go.

(** Mongo's [ObjectId]s, compared through their string form in the source. *)
Abbreviation ObjectId := nat (only parsing).

(** ** The Express service under backend/src *)
Module Src.
Section Handlers.
Context {Num : Type} `{Number Num}.

(** *** models/Item.js: the fields the cart reads *)
Record Item := {
  Item_name : string;
  Item_price : Num;
  Item_image : string;
  countInStock : Z
}.

(** *** models/Cart.js

    Stored quantities and stock counts are numbers with integer values:
    the schema casts what is assigned to a quantity. *)
Record CartItem := {
  item : ObjectId;
  name : string;
  image : string;
  price : Num;
  quantity : Z
}.

Record Cart := {
  items : list CartItem;
  totalPrice : Num;
  totalItems : Z
}.

(** The collections.  The [user] of a cart is a unique key of the carts, so
    a cart is kept under its user, and [Cart.findOne({ user })] is a
    lookup. *)
Record Store := {
  Items : gmap ObjectId Item;
  Carts : gmap ObjectId Cart
}.

Definition set_items (its : list CartItem) (this : Cart) : Cart :=
  {| items := its; totalPrice := totalPrice this; totalItems := totalItems this |}.

Definition set_quantity (q : Z) (ci : CartItem) : CartItem :=
  {| item := item ci; name := name ci; image := image ci; price := price ci;
     quantity := q |}.

(** [cartSchema.pre('save')] *)
Definition preSave (this : Cart) : Cart :=
  {| items := items this;
     totalItems := foldl (fun total i => total + quantity i) 0 (items this);
     totalPrice :=
       foldl (fun total i => add total (mul (price i) (fromInt (quantity i))))
             (fromInt 0) (items this) |}.

(** [cart.save()] for the cart of [user]: the middleware runs, then the
    document is written.  The save is rejected when [fails] says so, for a
    storage error and for a schema validation error alike. *)
Definition save (fails : bool) (user : ObjectId) (this : Cart) (s : Store)
  : option (Cart * Store) :=
  if fails then None
  else let this := preSave this in
       Some (this, {| Items := Items s; Carts := <[user := this]> (Carts s) |}).

(** *** Values of a request

    A request names an item by a string of 24 hex digits ([isMongoId]).
    [Item.findById] casts the string to an [ObjectId], taking the digits in
    either case.  A stored [ObjectId] prints in lower case, so
    [cartItem.item.toString() === itemId] holds for the lower-case spelling of
    that id and for no other string.  [cast] is the id the string is cast to,
    [lower_case] says whether the string is [cast.toString()]. *)
Record ItemId := {
  cast : ObjectId;
  lower_case : bool
}.

(** [id.toString()], and a spelling of [id] with a capital among its
    digits. *)
Definition toString (id : ObjectId) : ItemId := {| cast := id; lower_case := true |}.
Definition other_case (id : ObjectId) : ItemId := {| cast := id; lower_case := false |}.

(** [req.body.quantity] is a JSON value that [isInt] reads as an integer: a
    number, or a string of decimal digits after an optional sign.  [isInt]
    checks the value and does not convert it.  Numbers are integers in the
    range where the arithmetic of JS is exact. *)
Inductive Sign := Plus | Minus.

Inductive Quantity :=
| JNumber (n : Z)
| JString (sign : option Sign) (digits : Decimal.uint).

(** The number written by the decimal digits of [n] followed by [ds], for
    [n] at least 0; the number that [ds] writes is [append_digits 0 ds]. *)
Fixpoint append_digits (n : Z) (ds : Decimal.uint) : Z :=
  match ds with
  | Decimal.Nil => n
  | Decimal.D0 ds => append_digits (10 * n) ds
  | Decimal.D1 ds => append_digits (10 * n + 1) ds
  | Decimal.D2 ds => append_digits (10 * n + 2) ds
  | Decimal.D3 ds => append_digits (10 * n + 3) ds
  | Decimal.D4 ds => append_digits (10 * n + 4) ds
  | Decimal.D5 ds => append_digits (10 * n + 5) ds
  | Decimal.D6 ds => append_digits (10 * n + 6) ds
  | Decimal.D7 ds => append_digits (10 * n + 7) ds
  | Decimal.D8 ds => append_digits (10 * n + 8) ds
  | Decimal.D9 ds => append_digits (10 * n + 9) ds
  end.

(** The number a value is converted to where JS needs one ([<], [>],
    [<=]); [None] is NaN.  The empty string converts to 0, a sign without
    digits to NaN. *)
Definition ToNumber (q : Quantity) : option Z :=
  match q with
  | JNumber n => Some n
  | JString None ds => Some (append_digits 0 ds)
  | JString (Some _) Decimal.Nil => None
  | JString (Some Plus) ds => Some (append_digits 0 ds)
  | JString (Some Minus) ds => Some (- append_digits 0 ds)
  end.

(** [a < b] and [a <= b] on converted values: false when one is NaN;
    [a > b] is [b < a]. *)
Definition less (a b : option Z) : bool :=
  match a, b with
  | Some a, Some b => bool_decide (a < b)
  | _, _ => false
  end.

Definition less_eq (a b : option Z) : bool :=
  match a, b with
  | Some a, Some b => bool_decide (a <= b)
  | _, _ => false
  end.

(** [n + q] for a stored quantity [n], converted: the sum of two numbers;
    for a string [q], the string that the digits of [n] and [q] make
    together, which is a number when [q] has no sign. *)
Definition plus (n : Z) (q : Quantity) : option Z :=
  match q with
  | JNumber m => Some (n + m)
  | JString None ds =>
      Some (if bool_decide (n < 0) then - append_digits (- n) ds else append_digits n ds)
  | JString (Some _) _ => None
  end.

(** The cast of a value that is assigned to the [quantity] of a line, of
    type [Number]; [None] when the value cannot be stored: the empty string
    is cast to [null], which a required path refuses, and NaN is no
    number. *)
Definition castNumber (q : Quantity) : option Z :=
  match q with
  | JString None Decimal.Nil => None
  | _ => ToNumber q
  end.

(** [cartItem.item.toString() === itemId] *)
Definition same_id (itemId : ItemId) (ci : CartItem) : Prop :=
  lower_case itemId = true ∧ item ci = cast itemId.

#[global] Instance same_id_dec itemId ci : Decision (same_id itemId ci).
Proof. unfold same_id. apply _. Defined.

(** [items.findIndex(cartItem => cartItem.item.toString() === itemId)].  In
    the methods of the model the right-hand side is the [toString()] of an
    [ObjectId]. *)
Definition findIndex (itemId : ItemId) (its : list CartItem) : option (nat * CartItem) :=
  list_find (same_id itemId) its.

(** [cartSchema.methods.removeItemFromCart] *)
Definition Cart_removeItemFromCart (fails : bool) (user : ObjectId) (itemId : ObjectId)
    (this : Cart) (s : Store) : option (Cart * Store) :=
  save fails user (set_items (filter (fun i => item i ≠ itemId) (items this)) this) s.

(** [cartSchema.methods.updateItemQuantity]; [None] is a rejected promise. *)
Definition Cart_updateItemQuantity (fails : bool) (user : ObjectId) (itemId : ObjectId)
    (q : Z) (this : Cart) (s : Store) : option (Cart * Store) :=
  match findIndex (toString itemId) (items this) with
  | Some (itemIndex, ci) =>
      if bool_decide (q <= 0) then Cart_removeItemFromCart fails user itemId this s
      else save fails user
             (set_items (<[itemIndex := set_quantity q ci]> (items this)) this) s
  | None => Some (this, s)
  end.

(** [cartSchema.methods.addItemToCart] *)
Definition Cart_addItemToCart (fails : bool) (user : ObjectId) (item_id : ObjectId)
    (itemDoc : Item) (q : Z) (this : Cart) (s : Store) : option (Cart * Store) :=
  match findIndex (toString item_id) (items this) with
  | Some (itemIndex, ci) =>
      save fails user
        (set_items (<[itemIndex := set_quantity (quantity ci + q) ci]> (items this)) this) s
  | None =>
      save fails user
        (set_items (items this ++
                    [{| item := item_id; name := Item_name itemDoc;
                        image := Item_image itemDoc; price := Item_price itemDoc;
                        quantity := q |}]) this) s
  end.

(** [cartSchema.methods.clearCart] *)
Definition Cart_clearCart (fails : bool) (user : ObjectId) (this : Cart) (s : Store)
  : option (Cart * Store) :=
  save fails user (set_items [] this) s.

(** *** controllers/cartController.js *)
Inductive Body :=
| Message (msg : string)
| ValidationErrors (errors : list string)
| OnlyInStock (n : Z)          (* `Only ${n} items available in stock` *)
| CannotAddMoreThan (n : Z)    (* `Cannot add more than ${n} items to cart` *)
| CartBody (its : list (CartItem * option Item)) (totalItems : Z) (totalPrice : Num).

Inductive Response := Res (status : nat) (body : Body).

Definition ServerError : Response := Res 500 (Message "Server Error").

(** [populate('items.item', 'name price image countInStock')]: each line
    with the item document it refers to, [None] when there is none. *)
Definition populate (s : Store) (its : list CartItem) : list (CartItem * option Item) :=
  (fun ci => (ci, Items s !! item ci)) <$> its.

(** [cartItem.item && cartItem.item.countInStock > 0] *)
Definition inStock (l : CartItem * option Item) : Prop :=
  match l.2 with
  | Some i => 0 < countInStock i
  | None => False
  end.

#[global] Instance inStock_dec l : Decision (inStock l).
Proof. unfold inStock. destruct (l.2); apply _. Defined.

Definition getCart (f : Faults) (req_user : ObjectId) (s : Store) : Response * Store :=
  if f 0%nat then (ServerError, s)
  else
    match Carts s !! req_user with
    | None => (Res 200 (CartBody [] 0 (fromInt 0)), s)
    | Some cart =>
        let populated := populate s (items cart) in
        let validItems := filter inStock populated in
        if decide (length validItems ≠ length populated) then
          match save (f 1%nat) req_user (set_items validItems.*1 cart) s with
          | None => (ServerError, s)
          | Some (cart, s') =>
              (Res 200 (CartBody validItems (totalItems cart) (totalPrice cart)), s')
          end
        else
          (Res 200 (CartBody populated (totalItems cart) (totalPrice cart)), s)
    end.

(** [new Cart({ user: req.user._id, items: [] })] *)
Definition newCart : Cart := {| items := []; totalPrice := fromInt 0; totalItems := 0 |}.

(** [item.image || 'no-photo.jpg'] *)
Definition image_or_default (img : string) : string :=
  if decide (img = "") then "no-photo.jpg" else img.

(** [errors] is [validationResult(req)]; [q] is [req.body.quantity], which
    defaults to 1.  A new quantity that is no number is refused by
    [cart.save()]. *)
Definition addItemToCart (f : Faults) (errors : list string) (req_user : ObjectId)
    (itemId : ItemId) (q : option Quantity) (s : Store) : Response * Store :=
  if negb (bool_decide (errors = [])) then (Res 400 (ValidationErrors errors), s)
  else
    let q := default (JNumber 1) q in
    if f 0%nat then (ServerError, s)
    else
      match Items s !! cast itemId with
      | None => (Res 404 (Message "Item not found"), s)
      | Some itemDoc =>
          if less (Some (countInStock itemDoc)) (ToNumber q) then
            (Res 400 (OnlyInStock (countInStock itemDoc)), s)
          else if f 1%nat then (ServerError, s)
          else
            let cart := default newCart (Carts s !! req_user) in
            let updated : Response + option Cart :=
              match findIndex itemId (items cart) with
              | Some (existingItemIndex, existing) =>
                  let newQuantity := plus (quantity existing) q in
                  if less (Some (countInStock itemDoc)) newQuantity then
                    inl (Res 400 (CannotAddMoreThan (countInStock itemDoc)))
                  else
                    inr ((fun n =>
                            set_items
                              (<[existingItemIndex := set_quantity n existing]>
                                 (items cart)) cart) <$> newQuantity)
              | None =>
                  inr ((fun n =>
                          set_items
                            (items cart ++
                             [{| item := cast itemId; name := Item_name itemDoc;
                                 image := image_or_default (Item_image itemDoc);
                                 price := Item_price itemDoc; quantity := n |}]) cart)
                         <$> castNumber q)
              end in
            match updated with
            | inl r => (r, s)
            | inr None => (ServerError, s)
            | inr (Some cart) =>
                match save (f 2%nat) req_user cart s with
                | None => (ServerError, s)
                | Some (cart, s') =>
                    if f 3%nat then (ServerError, s')
                    else (Res 201 (CartBody (populate s' (items cart))
                                            (totalItems cart) (totalPrice cart)), s')
                end
            end
      end.

Definition updateCartItem (f : Faults) (errors : list string) (req_user : ObjectId)
    (itemId : ItemId) (q : Quantity) (s : Store) : Response * Store :=
  if negb (bool_decide (errors = [])) then (Res 400 (ValidationErrors errors), s)
  else if f 0%nat then (ServerError, s)
  else
    match Items s !! cast itemId with
    | None => (Res 404 (Message "Item not found"), s)
    | Some itemDoc =>
        if less (Some (countInStock itemDoc)) (ToNumber q) then
          (Res 400 (OnlyInStock (countInStock itemDoc)), s)
        else if f 1%nat then (ServerError, s)
        else
          match Carts s !! req_user with
          | None => (Res 404 (Message "Cart not found"), s)
          | Some cart =>
              match findIndex itemId (items cart) with
              | None => (Res 404 (Message "Item not found in cart"), s)
              | Some (itemIndex, ci) =>
                  let updated : option Cart :=
                    if less_eq (ToNumber q) (Some 0) then
                      Some (set_items (delete itemIndex (items cart)) cart)
                    else
                      (fun n => set_items (<[itemIndex := set_quantity n ci]> (items cart))
                                          cart) <$> castNumber q in
                  match updated with
                  | None => (ServerError, s)
                  | Some cart =>
                      match save (f 2%nat) req_user cart s with
                      | None => (ServerError, s)
                      | Some (cart, s') =>
                          if f 3%nat then (ServerError, s')
                          else (Res 200 (CartBody (populate s' (items cart))
                                                  (totalItems cart) (totalPrice cart)), s')
                      end
                  end
              end
          end
    end.

(** [req.params.itemId] is not checked here: a string that is no id is
    equal to no [toString()], as a string in another case is. *)
Definition removeItemFromCart (f : Faults) (req_user : ObjectId) (itemId : ItemId)
    (s : Store) : Response * Store :=
  if f 0%nat then (ServerError, s)
  else
    match Carts s !! req_user with
    | None => (Res 404 (Message "Cart not found"), s)
    | Some cart =>
        match findIndex itemId (items cart) with
        | None => (Res 404 (Message "Item not found in cart"), s)
        | Some (itemIndex, _) =>
            match save (f 1%nat) req_user
                       (set_items (delete itemIndex (items cart)) cart) s with
            | None => (ServerError, s)
            | Some (cart, s') =>
                if f 2%nat then (ServerError, s')
                else (Res 200 (CartBody (populate s' (items cart))
                                        (totalItems cart) (totalPrice cart)), s')
            end
        end
    end.

Definition clearCart (f : Faults) (req_user : ObjectId) (s : Store) : Response * Store :=
  if f 0%nat then (ServerError, s)
  else
    match Carts s !! req_user with
    | None => (Res 404 (Message "Cart not found"), s)
    | Some cart =>
        match save (f 1%nat) req_user (set_items [] cart) s with
        | None => (ServerError, s)
        | Some (_, s') => (Res 200 (Message "Cart cleared successfully"), s')
        end
    end.

(** The route's checks on the quantity ([routes/cartRoutes.js]), which fill
    [validationResult(req)]: optional and at least 1 on POST, at least 0 on
    PUT.  [isInt({ min })] takes a number with an integer value, or a string
    of one digit or more after an optional sign, that is at least [min]. *)
Definition isInt (min : Z) (q : Quantity) : bool :=
  match q with
  | JNumber n => bool_decide (min <= n)
  | JString _ Decimal.Nil => false
  | JString _ _ => less_eq (Some min) (ToNumber q)
  end.

Definition check_add (q : option Quantity) : list string :=
  match q with
  | Some q => if isInt 1 q then [] else ["Quantity must be a number"]
  | None => []
  end.

Definition check_update (q : Quantity) : list string :=
  if isInt 0 q then [] else ["Quantity is required"].

(** *** Histories of one store: the cart handlers, called by any user. *)
Inductive Op :=
| OpGetCart (f : Faults) (req_user : ObjectId)
| OpAddItem (f : Faults) (errors : list string) (req_user : ObjectId) (itemId : ItemId)
    (q : option Quantity)
| OpUpdateItem (f : Faults) (errors : list string) (req_user : ObjectId) (itemId : ItemId)
    (q : Quantity)
| OpRemoveItem (f : Faults) (req_user : ObjectId) (itemId : ItemId)
| OpClearCart (f : Faults) (req_user : ObjectId)
| OpCatalog (its : gmap ObjectId Item).

Definition step (s : Store) (op : Op) : Store :=
  match op with
  | OpGetCart f u => (getCart f u s).2
  | OpAddItem f errors u i q => (addItemToCart f errors u i q s).2
  | OpUpdateItem f errors u i q => (updateCartItem f errors u i q s).2
  | OpRemoveItem f u i => (removeItemFromCart f u i s).2
  | OpClearCart f u => (clearCart f u s).2
  | OpCatalog its => {| Items := its; Carts := Carts s |}
  end.

Definition run (ops : list Op) (s : Store) : Store := foldl step s ops.

(** The amounts of a cart, from its lines. *)
Definition subtotal (its : list CartItem) : Num :=
  foldl (fun total i => add total (mul (price i) (fromInt (quantity i)))) (fromInt 0) its.

Definition count (its : list CartItem) : Z :=
  foldl (fun total i => total + quantity i) 0 its.

Definition totals_ok (s : Store) : Prop :=
  ∀ u cart, Carts s !! u = Some cart →
    totalPrice cart = subtotal (items cart) ∧ totalItems cart = count (items cart).

(** Every handler leaves the store as it is or writes one cart with [save]. *)
Definition saved_or_same (s s' : Store) : Prop :=
  s' = s ∨ ∃ fails u this c', save fails u this s = Some (c', s').

(** A line whose item is in the catalog with a positive stock. *)
Definition available (s : Store) (ci : CartItem) : Prop :=
  inStock (ci, Items s !! item ci).

#[global] Instance available_dec s ci : Decision (available s ci).
Proof. unfold available. apply _. Defined.

End Handlers.
End Src.

(** ** The Express service under backend *)
Module V1.
Section Handlers.
Context {Num : Type} `{Number Num}.

(** *** models/Cart.js *)
Record CartItem := {
  ci_product : ObjectId;
  ci_quantity : Z;
  ci_price : Num
}.

Record Cart := {
  items : list CartItem;
  subTotal : Num;
  tax : Num;
  total : Num
}.

(** [CartSchema.methods.calculateTotals], the three assignments.  The
    lookup of missing names and images and the final [this.save()] do not
    touch the amounts. *)
Definition calculateTotals (this : Cart) : Cart :=
  let TAX_RATE := tenth in
  let subTotal :=
    foldl (fun sum i => add sum (mul (ci_price i) (fromInt (ci_quantity i))))
          (fromInt 0) (items this) in
  let tax := toFixed2 (mul subTotal TAX_RATE) in
  let total := toFixed2 (add subTotal tax) in
  {| items := items this; subTotal := subTotal; tax := tax; total := total |}.

(** *** models/Product.js: the fields an order reads *)
Record Product := {
  P_name : string;
  P_price : Num;
  P_image : string;
  inventory : Z
}.

(** *** controllers/orders.js *)
Record OrderItemFromClient := {
  product : ObjectId;
  quantity : Z
}.

Record OrderItem := {
  oi_name : string;
  oi_quantity : Z;
  oi_image : string;
  oi_price : Num;
  oi_product : ObjectId
}.

Record ReqBody := {
  orderItems : option (list OrderItemFromClient);   (* [None]: undefined *)
  shippingAddress : string;
  paymentMethod : string;
  itemsPrice : Num;
  taxPrice : Num;
  shippingPrice : Num;
  totalPrice : Num
}.

Record Order := {
  _id : ObjectId;
  o_user : ObjectId;
  o_orderItems : list OrderItem;
  o_shippingAddress : string;
  o_paymentMethod : string;
  o_itemsPrice : Num;
  o_taxPrice : Num;
  o_shippingPrice : Num;
  o_totalPrice : Num
}.

Record Store := {
  Products : gmap ObjectId Product;
  Orders : list Order
}.

(** The [Order] model of this backend is not among the sources.  Its save
    middleware is a parameter: it receives the document built by the handler
    and gives the document that is stored.  What it keeps of the document is
    a hypothesis where a statement needs it. *)
Variable orderPreSave : Order -> Order.

(** A handler answers with [res.status(..).json(..)] or hands an error to
    [next]: an [ErrorResponse] with its status code, or what was thrown. *)
Inductive Body :=
| OrderBody (o : Order)
| OrdersBody (os : list Order).

Inductive Error :=
| ErrorResponse (msg : string) (statusCode : nat)
| Thrown (msg : string).

Inductive Response :=
| Res (status : nat) (body : Body)
| Next (e : Error).

Definition set_inventory (n : Z) (p : Product) : Product :=
  {| P_name := P_name p; P_price := P_price p; P_image := P_image p; inventory := n |}.

Definition set_Products (ps : gmap ObjectId Product) (s : Store) : Store :=
  {| Products := ps; Orders := Orders s |}.

(** [Product.find({ _id: { $in: ids } })]: one document for each product
    named by the request. *)
Definition find_in (ids : list ObjectId) (s : Store) : gmap ObjectId Product :=
  filter (fun kv => kv.1 ∈ ids) (Products s).

(** [orderItems.map(itemFromClient => ...)].  [itemsFromDB] holds the
    documents read at the start; two lines for one product meet the same
    document.  [matchingItem.save()] is not awaited: its write is taken as
    applied, and the writes issued before a [throw] stay. *)
Fixpoint dbItems (itemsFromDB : gmap ObjectId Product) (s : Store)
    (orderItems : list OrderItemFromClient) : (string + list OrderItem) * Store :=
  match orderItems with
  | [] => (inr [], s)
  | itemFromClient :: rest =>
      match itemsFromDB !! product itemFromClient with
      | None => (inl "Product not found", s)
      | Some matchingItem =>
          if bool_decide (inventory matchingItem < quantity itemFromClient) then
            (inl "Not enough stock", s)
          else
            let matchingItem :=
              set_inventory (inventory matchingItem - quantity itemFromClient)
                            matchingItem in
            let s := set_Products (<[product itemFromClient := matchingItem]> (Products s)) s in
            let line :=
              {| oi_name := P_name matchingItem; oi_quantity := quantity itemFromClient;
                 oi_image := P_image matchingItem; oi_price := P_price matchingItem;
                 oi_product := product itemFromClient |} in
            match dbItems (<[product itemFromClient := matchingItem]> itemsFromDB) s rest with
            | (inl e, s) => (inl e, s)
            | (inr lines, s) => (inr (line :: lines), s)
            end
      end
  end.

Definition createOrder (f : Faults) (req_user : ObjectId) (body : ReqBody) (s : Store)
  : Response * Store :=
  match orderItems body with
  | Some [] => (Next (ErrorResponse "No order items" 400), s)
  | None => (Next (Thrown "TypeError"), s)
  | Some orderItems =>
      if f 0%nat then (Next (Thrown "storage error"), s)
      else
        let itemsFromDB := find_in (product <$> orderItems) s in
        match dbItems itemsFromDB s orderItems with
        | (inl e, s) => (Next (Thrown e), s)
        | (inr lines, s) =>
            let order :=
              {| _id := fresh (_id <$> Orders s); o_user := req_user;
                 o_orderItems := lines;
                 o_shippingAddress := shippingAddress body;
                 o_paymentMethod := paymentMethod body;
                 o_itemsPrice := itemsPrice body; o_taxPrice := taxPrice body;
                 o_shippingPrice := shippingPrice body;
                 o_totalPrice := totalPrice body |} in
            if f 1%nat then (Next (Thrown "storage error"), s)
            else
              let createdOrder := orderPreSave order in
              (Res 201 (OrderBody createdOrder),
               {| Products := Products s; Orders := Orders s ++ [createdOrder] |})
        end
  end.

Definition getOrderById (f : Faults) (req_user : ObjectId) (is_admin : bool)
    (id : ObjectId) (s : Store) : Response :=
  if f 0%nat then Next (Thrown "storage error")
  else
    match list_find (fun o => _id o = id) (Orders s) with
    | None => Next (ErrorResponse "Order not found" 404)
    | Some (_, order) =>
        if bool_decide (o_user order ≠ req_user) && negb is_admin then
          Next (ErrorResponse "Not authorized to view this order" 401)
        else Res 200 (OrderBody order)
    end.

Definition getMyOrders (f : Faults) (req_user : ObjectId) (s : Store) : Response :=
  if f 0%nat then Next (Thrown "storage error")
  else Res 200 (OrdersBody (filter (fun o => o_user o = req_user) (Orders s))).

(** *** Histories of one store: orders placed by any user, and the catalog
    administration replacing the products. *)
Inductive Op :=
| OpCreateOrder (f : Faults) (req_user : ObjectId) (body : ReqBody)
| OpCatalog (ps : gmap ObjectId Product).

Definition step (s : Store) (op : Op) : Store :=
  match op with
  | OpCreateOrder f u body => (createOrder f u body s).2
  | OpCatalog ps => set_Products ps s
  end.

Definition run (ops : list Op) (s : Store) : Store := foldl step s ops.



(** The order [o] is in the collection, and it is the first with its id. *)
Definition stored (o : Order) (s : Store) : Prop :=
  ∃ pre post, Orders s = pre ++ o :: post ∧ _id o ∉ _id <$> pre.

(** What a line of an order copies from a product. *)
Definition copies (p : Product) (line : OrderItem) : Prop :=
  oi_name line = P_name p ∧ oi_image line = P_image p ∧ oi_price line = P_price p.

End Handlers.
End V1.

(** ** The totals of the specification

    The formula of §4.2 of the specification, in its words: the subtotal is
    the sum of price snapshot times quantity, the tax is the subtotal times
    the tax rate 0.10, rounded to 2 decimals, the shipping is 0 when the
    subtotal exceeds the free-shipping threshold and the flat fee otherwise,
    and the total is their sum. *)
Module Spec.
Section Formula.
Context {Num : Type} `{Number Num}.

Definition subtotal (lines : list (Num * Z)) : Num :=
  foldl (fun acc l => add acc (mul l.1 (fromInt l.2))) (fromInt 0) lines.

Definition tax (lines : list (Num * Z)) : Num :=
  toFixed2 (mul (subtotal lines) tenth).

Definition shipping (FREE_SHIPPING_THRESHOLD FLAT_SHIPPING_FEE : Num)
    (lines : list (Num * Z)) : Num :=
  if gt (subtotal lines) FREE_SHIPPING_THRESHOLD then fromInt 0 else FLAT_SHIPPING_FEE.

Definition total (FREE_SHIPPING_THRESHOLD FLAT_SHIPPING_FEE : Num)
    (lines : list (Num * Z)) : Num :=
  add (add (subtotal lines) (tax lines))
      (shipping FREE_SHIPPING_THRESHOLD FLAT_SHIPPING_FEE lines).

End Formula.
End Spec.

(** ** Concrete stores, in exact decimals *)
Module Examples.

(** Go: item 42 costs 10.00; user 1 has an open cart with 2 of it. *)
Definition go_item (p : Q) : @Go.Item Q :=
  {| Go.Item_ID := 42; Go.Name := "Lamp"; Go.Description := "desk lamp"; Go.Price := p |}.

Definition go_empty : @Go.DB Q :=
  {| Go.items := [go_item 10]; Go.carts := []; Go.cart_items := []; Go.orders := [];
     Go.seq_carts := 0; Go.seq_cart_items := 0; Go.seq_orders := 0 |}.

Definition go_req (q : Z) : Go.AddToCartRequest :=
  {| Go.req_ItemID := 42; Go.req_Quantity := q |}.

Definition go_cart : Go.DB := (Go.AddToCart no_faults 1 (go_req 2) go_empty).2.

(** ... and a cart that lost its only line. *)
Definition go_cart_no_lines : Go.DB := Go.set_cart_items [] 1 go_cart.

(** After the checkout of [go_cart] at time 5. *)
Definition go_ordered : Go.DB := (Go.CreateOrder no_faults 5%nat 1 go_cart).2.

(** backend/src: item 42 costs [p] and has [n] in stock. *)
Definition src_item (p : Q) (n : Z) : @Src.Item Q :=
  {| Src.Item_name := "Lamp"; Src.Item_price := p; Src.Item_image := "lamp.jpg";
     Src.countInStock := n |}.

Definition src_empty : @Src.Store Q :=
  {| Src.Items := {[ 42%nat := src_item 10 10 ]}; Src.Carts := ∅ |}.

Definition src_line (itemId : nat) (p : Q) (q : Z) : Src.CartItem :=
  {| Src.item := itemId; Src.name := "Lamp"; Src.image := "lamp.jpg"; Src.price := p;
     Src.quantity := q |}.

(** User 1 holds 2 of item 42, added at 10.00. *)
Definition src_cart : Src.Store :=
  (Src.addItemToCart no_faults [] 1 (Src.toString 42) (Some (Src.JNumber 2)) src_empty).2.

(** The same cart once the catalog price went to 12.00. *)
Definition src_repriced : Src.Store :=
  {| Src.Items := {[ 42%nat := src_item 12 10 ]}; Src.Carts := Src.Carts src_cart |}.

(** The same cart once item 42 sold out, and item 43 exists. *)
Definition src_sold_out : Src.Store :=
  {| Src.Items := {[ 42%nat := src_item 10 0; 43%nat := src_item 5 3 ]};
     Src.Carts := Src.Carts src_cart |}.

(** backend: product 42 costs 10.00, 15 in the inventory. *)
Definition v1_product (p : Q) (n : Z) : @V1.Product Q :=
  {| V1.P_name := "Lamp"; V1.P_price := p; V1.P_image := "lamp.jpg"; V1.inventory := n |}.

Definition v1_store : @V1.Store Q :=
  {| V1.Products := {[ 42%nat := v1_product 10 15 ]}; V1.Orders := [] |}.

Definition v1_body (ois : list V1.OrderItemFromClient) : @V1.ReqBody Q :=
  {| V1.orderItems := Some ois; V1.shippingAddress := "1 Main St";
     V1.paymentMethod := "PayPal"; V1.itemsPrice := 20%Q; V1.taxPrice := 2%Q;
     V1.shippingPrice := 10%Q; V1.totalPrice := 32%Q |}.

Definition v1_repriced : @V1.Store Q :=
  V1.set_Products {[ 42%nat := v1_product 12 15 ]} v1_store.

Definition v1_two_lamps : list V1.OrderItemFromClient :=
  [{| V1.product := 42; V1.quantity := 2 |}].

(** Histories used below. *)
Definition go_repriced : Go.DB := Go.set_items [go_item 12] go_cart.

Definition go_later : list (@Go.Op Q) :=
  [Go.OpCatalog [go_item 12]; Go.OpAddToCart no_faults 1 (go_req 7);
   Go.OpAddToCart no_faults 2 (go_req 1)].

Definition commit_fails : Faults := fun n => Nat.eqb n 3.

Definition src_ops : list (@Src.Op Q) :=
  [Src.OpAddItem no_faults [] 1 (Src.toString 42) (Some (Src.JNumber 2));
   Src.OpAddItem no_faults [] 1 (Src.toString 42) (Some (Src.JNumber 3));
   Src.OpUpdateItem no_faults [] 1 (Src.toString 42) (Src.JNumber 4);
   Src.OpCatalog {[ 42%nat := src_item 12 10 ]};
   Src.OpAddItem no_faults [] 2 (Src.toString 42) None;
   Src.OpRemoveItem no_faults 2 (Src.toString 42)].

Definition v1_later : list (@V1.Op Q) :=
  [V1.OpCatalog {[ 42%nat := v1_product 12 13 ]};
   V1.OpCreateOrder no_faults 2 (v1_body v1_two_lamps)].

End Examples.

(** ** More of the Go service: the cart view *)
Module GoCart.
Section Handlers.
Context {float64 : Type} `{Number float64}.

(** The answers of [GetUserCart]: an error, [{"cart": nil, "items": []}],
    or the cart with its lines and total. *)
Inductive CartResponse :=
| CartError (code : nat) (msg : string)
| NoCart
| CartView (cart_id : nat) (its : list (@Go.ItemData float64)) (total : float64).

(** [GetUserCart] of handlers/carts.go: a read outside any transaction. *)
Definition GetUserCart (f : Faults) (currentUser : nat) (db : @Go.DB float64)
  : CartResponse :=
  match Go.First_open_cart (f 0%nat) db currentUser with
  | inl Go.ErrRecordNotFound => NoCart
  | inl Go.ErrOther => CartError Go.StatusInternalServerError "failed to fetch cart"
  | inr cart =>
      let CartItems := Go.preload_CartItems db (Go.Cart_ID cart) in
      CartView (Go.Cart_ID cart) (Go.item_data <$> CartItems) (Go.cart_total CartItems)
  end.

(** No user has two open carts. *)
Definition one_open_cart (db : @Go.DB float64) : Prop :=
  ∀ i j c1 c2,
    Go.carts db !! i = Some c1 → Go.carts db !! j = Some c2 →
    Go.IsCheckedOut c1 = false → Go.IsCheckedOut c2 = false →
    Go.Cart_UserID c1 = Go.Cart_UserID c2 → i = j.

(** The range of Go's [int]. *)
Definition is_int64 (z : Z) : Prop := - 2 ^ 63 <= z < 2 ^ 63.

End Handlers.
End GoCart.

(** ** More of backend/src: what the carts keep over histories *)
Module SrcInv.
Section Invariants.
Context {Num : Type} `{Number Num}.

(** A call that came through the router: the validation errors are those
    of the checks of its route. *)
Definition routed (op : @Src.Op Num) : Prop :=
  match op with
  | Src.OpAddItem _ errors _ _ q => errors = Src.check_add q
  | Src.OpUpdateItem _ errors _ _ q => errors = Src.check_update q
  | _ => True
  end.

(** Every stored line has a quantity of at least 1. *)
Definition quantities_ok (s : @Src.Store Num) : Prop :=
  ∀ u cart ci, Src.Carts s !! u = Some cart → ci ∈ Src.items cart → 1 <= Src.quantity ci.

(** No stored cart has two lines for one item. *)
Definition unique_lines (s : @Src.Store Num) : Prop :=
  ∀ u cart, Src.Carts s !! u = Some cart → NoDup (Src.item <$> Src.items cart).

(** An add that names its item by the lower-case spelling of the id. *)
Definition lower_case_add (op : @Src.Op Num) : Prop :=
  match op with
  | Src.OpAddItem _ _ _ itemId _ => Src.lower_case itemId = true
  | _ => True
  end.

(** The quantity that lines hold of an item, all its lines taken
    together. *)
Definition held (id : ObjectId) (its : list (@Src.CartItem Num)) : Z :=
  foldr (fun ci n => if decide (Src.item ci = id) then Src.quantity ci + n else n) 0 its.

(** The store after the cart of [u] was saved with the lines [its]. *)
Definition saved_with (u : ObjectId) (cart : Src.Cart) (its : list Src.CartItem)
    (s : @Src.Store Num) : Src.Store :=
  {| Src.Items := Src.Items s;
     Src.Carts := <[u := Src.preSave (Src.set_items its cart)]> (Src.Carts s) |}.

End Invariants.
End SrcInv.

(** ** Invariants of the Express order handler *)
Module V1Inv.
Section Invariants.
Context {Num : Type} `{Number Num}.

(** No product has a negative inventory. *)
Definition in_stock (ps : gmap ObjectId (@V1.Product Num)) : Prop :=
  ∀ id p, ps !! id = Some p → 0 <= V1.inventory p.

(** The catalog administration puts no negative inventory. *)
Definition restocks (op : @V1.Op Num) : Prop :=
  match op with
  | V1.OpCatalog ps => in_stock ps
  | _ => True
  end.

End Invariants.
End V1Inv.

(** ** Invariants of the Go orders *)
Module GoInv.
Section Invariants.
Context {float64 : Type} `{Number float64}.

(** The order ids were handed out by the counter, no cart gave two orders,
    and every order was taken from a cart of its user that is checked
    out. *)
Definition orders_ok (db : @Go.DB float64) : Prop :=
  NoDup (Go.Order_ID <$> Go.orders db) ∧
  Forall (fun o => (Go.Order_ID o <= Go.seq_orders db)%nat) (Go.orders db) ∧
  NoDup (Go.Order_CartID <$> Go.orders db) ∧
  ∀ o, o ∈ Go.orders db →
    ∃ c, c ∈ Go.carts db ∧ Go.Cart_ID c = Go.Order_CartID o ∧
         Go.Cart_UserID c = Go.Order_UserID o ∧ Go.IsCheckedOut c = true.

(** Newest first, as the entries of an order history show it. *)
Definition newest_first (a b : @Go.OrderData float64) : Prop :=
  (Go.order_created_at b <= Go.order_created_at a)%nat.

End Invariants.
End GoInv.

(** ** backend/src: the item list of the item controller *)
Module SrcItems.
Section Handlers.
Context {Doc : Type}.

Record Page := { page : Z; limit : Z }.

Record Pagination := { next : option Page; prev : option Page }.

Inductive Response :=
| Items (count : nat) (pagination : Pagination) (data : list Doc)
| ServerError.

(** [parseInt(x, 10) || d]; [None] is NaN. *)
Definition or_default (x : option Z) (d : Z) : Z :=
  match x with
  | Some 0 | None => d
  | Some n => n
  end.

(** [query.skip(startIndex).limit(limit)] run on the documents the filter
    selects, in the order of the sort; [None] when the database rejects the
    query.  What the database does with a negative skip or limit is left
    open. *)
Variable skip_limit : Z → Z → list Doc → option (list Doc).

(** [getItems]: [matching] are the documents that [req.query] selects, in
    the order it asks for; [req_page] and [req_limit] are what [parseInt]
    makes of [req.query.page] and [req.query.limit].  The numbers are
    integers, as long as they stay below 2^53. *)
Definition getItems (f : Faults) (matching : list Doc) (req_page req_limit : option Z)
  : Response :=
  let page := or_default req_page 1 in
  let limit := or_default req_limit 10 in
  let startIndex := (page - 1) * limit in
  let endIndex := page * limit in
  if f 0%nat then ServerError
  else
    let total := Z.of_nat (length matching) in
    if f 1%nat then ServerError
    else
      match skip_limit startIndex limit matching with
      | None => ServerError
      | Some items =>
          let next :=
            if bool_decide (endIndex < total)
            then Some {| page := page + 1; limit := limit |} else None in
          let prev :=
            if bool_decide (0 < startIndex)
            then Some {| page := page - 1; limit := limit |} else None in
          Items (length items) {| next := next; prev := prev |} items
      end.

(** A client that asks for a page and follows [pagination.next] while there
    is one, for at most [n] requests, and collects the data. *)
Fixpoint follow_next (n : nat) (f : Faults) (matching : list Doc)
    (req_page req_limit : option Z) : list Doc :=
  match n with
  | O => []
  | S n =>
      match getItems f matching req_page req_limit with
      | Items _ pagination data =>
          data ++
          match next pagination with
          | Some p => follow_next n f matching (Some (page p)) (Some (limit p))
          | None => []
          end
      | ServerError => []
      end
  end.

(** The database on a query in range. *)
Definition in_range : Prop :=
  ∀ skip limit docs, 0 <= skip → 0 < limit →
    skip_limit skip limit docs = Some (take (Z.to_nat limit) (drop (Z.to_nat skip) docs)).

(** The integers on which the arithmetic of JS numbers is exact. *)
Definition safe_integer (z : Z) : Prop := - 2 ^ 53 < z < 2 ^ 53.

End Handlers.
End SrcItems.

(** ** More concrete data *)
Module Scenarios.
Import Examples.

(** Go: a history with two checkouts of user 1 around a price change. *)
Definition go_ops : list (@Go.Op Q) :=
  [Go.OpAddToCart no_faults 1 (go_req 2); Go.OpCreateOrder no_faults 5%nat 1;
   Go.OpAddToCart no_faults 1 (go_req 1); Go.OpCatalog [go_item 12];
   Go.OpCreateOrder no_faults 6%nat 1; Go.OpAddToCart no_faults 2 (go_req 4)].

(** Go: the line of [go_cart] holding the largest [int]. *)
Definition go_full : @Go.DB Q :=
  Go.set_cart_items
    [{| Go.CartItem_ID := 1; Go.CartID := 1; Go.ItemID := 42; Go.Quantity := 2 ^ 63 - 1 |}]
    1 go_cart.

(** backend: an order for 2 lamps and 1 of a product that does not exist,
    and a history with a restock between two orders. *)
Definition v1_lamps_and_ghost : list V1.OrderItemFromClient :=
  [{| V1.product := 42; V1.quantity := 2 |}; {| V1.product := 99; V1.quantity := 1 |}].

Definition v1_ops : list (@V1.Op Q) :=
  [V1.OpCreateOrder no_faults 1 (v1_body v1_two_lamps);
   V1.OpCatalog {[ 42%nat := v1_product 12 1 ]};
   V1.OpCreateOrder no_faults 2 (v1_body v1_two_lamps);
   V1.OpCreateOrder no_faults 2 (v1_body v1_lamps_and_ghost)].

(** backend/src: the cart of [src_cart], with 30 of item 42 in stock. *)
Definition src_stocked : @Src.Store Q :=
  {| Src.Items := {[ 42%nat := src_item 10 30 ]}; Src.Carts := Src.Carts src_cart |}.

(** backend/src: 25 selected documents, and a database that takes the
    queries that are in range. *)
Definition docs25 : list nat := seq 0 25.

Definition database (skip limit : Z) (docs : list nat) : option (list nat) :=
  if bool_decide (0 <= skip ∧ 0 < limit)
  then Some (take (Z.to_nat limit) (drop (Z.to_nat skip) docs)) else None.

End Scenarios.

(** * Facts *)

(** ** The Go service *)
Section GoFacts.
Context {float64 : Type} `{Number float64}.
Import Go.

Implicit Types (db tx : @DB float64) (f : Faults).

Lemma open_cart_Some db u c :
  open_cart db u = Some c → c ∈ carts db ∧ Cart_UserID c = u ∧ IsCheckedOut c = false.
Proof.
  unfold open_cart. destruct (list_find _ _) as [[i c']|] eqn:E; [|done].
  intros [= ->]. apply list_find_Some in E as (Hi & [? ?] & _).
  split; [by eapply list_elem_of_lookup_2|done].
Qed.

Lemma CreateOrder_cases f now u db :
  (∃ code msg, CreateOrder f now u db = (JSON code (Error msg), db) ∧ (400 <= code)%nat) ∨
  (∃ cart o,
      open_cart db u = Some cart ∧ lines_of db (Cart_ID cart) ≠ [] ∧
      o = {| Order_ID := S (seq_orders db); Order_CreatedAt := now; Order_UserID := u;
             Order_CartID := Cart_ID cart;
             Total := cart_total (preload_CartItems db (Cart_ID cart));
             Status := "completed" |} ∧
      CreateOrder f now u db =
        (JSON StatusCreated (OrderCreated (Order_ID o)),
         set_carts ((fun r => if decide (Cart_ID r = Cart_ID cart)
                              then checked_out now cart else r) <$> carts db)
                   (seq_carts db)
                   (set_orders (orders db ++ [o]) (S (seq_orders db)) db))).
Proof.
  unfold CreateOrder, First_open_cart, Begin, Rollback.
  destruct (f 0%nat); [left; eexists _, _; split; [done|unfold StatusInternalServerError; lia]|].
  destruct (open_cart db u) as [cart|] eqn:Hc;
    [|left; eexists _, _; split; [done|unfold StatusBadRequest; lia]].
  destruct (decide (length (preload_CartItems db (Cart_ID cart)) = 0%nat)) as [He|He];
    [left; eexists _, _; split; [done|unfold StatusBadRequest; lia]|].
  unfold Create_order, Save_cart, Commit.
  destruct (f 1%nat); [left; eexists _, _; split; [done|unfold StatusInternalServerError; lia]|].
  destruct (f 2%nat); [left; eexists _, _; split; [done|unfold StatusInternalServerError; lia]|].
  destruct (f 3%nat); [left; eexists _, _; split; [done|unfold StatusInternalServerError; lia]|].
  right. eexists cart, _. split; [done|]. split; [|split; [reflexivity|done]].
  intros Hnil. apply He. unfold preload_CartItems. unfold lines_of in Hnil.
  by rewrite Hnil.
Qed.

Lemma AddToCart_cases f u req db :
  (∃ code msg, AddToCart f u req db = (JSON code (Error msg), db)) ∨
  (∃ tx1 cart,
      FirstOrCreate_open_cart false db u = inr (tx1, cart) ∧
      ((∃ ci, find_cart_item tx1 (Cart_ID cart) (req_ItemID req) = Some ci ∧
          AddToCart f u req db =
            (JSON StatusOK (ItemAdded (Cart_ID cart)),
             set_cart_items
               ((fun r => if decide (CartItem_ID r = CartItem_ID ci)
                          then add_quantity (req_Quantity req) ci else r)
                  <$> cart_items tx1)
               (seq_cart_items tx1) tx1)) ∨
       (find_cart_item tx1 (Cart_ID cart) (req_ItemID req) = None ∧
          AddToCart f u req db =
            (JSON StatusOK (ItemAdded (Cart_ID cart)),
             set_cart_items
               (cart_items tx1 ++
                [{| CartItem_ID := S (seq_cart_items tx1); CartID := Cart_ID cart;
                    ItemID := req_ItemID req; Quantity := req_Quantity req |}])
               (S (seq_cart_items tx1)) tx1)))).
Proof.
  unfold AddToCart, Begin, Rollback.
  destruct (ShouldBindJSON req); simpl; [|left; by eexists _, _].
  destruct (f 0%nat); [left; by eexists _, _|].
  destruct (FirstOrCreate_open_cart false db u) as [e|[tx1 cart]] eqn:Hfc;
    [left; by eexists _, _|].
  unfold First_item. destruct (f 1%nat); [left; by eexists _, _|].
  destruct (find_item tx1 (req_ItemID req)); [|left; by eexists _, _].
  unfold First_cart_item. destruct (f 2%nat); [left; by eexists _, _|].
  destruct (find_cart_item tx1 (Cart_ID cart) (req_ItemID req)) as [ci|] eqn:Hci.
  - unfold Save_cart_item, Commit. destruct (f 3%nat); [left; by eexists _, _|].
    destruct (f 4%nat); [left; by eexists _, _|].
    right. exists tx1, cart. split; [done|]. left. by exists ci.
  - unfold Create_cart_item, Commit. destruct (f 3%nat); [left; by eexists _, _|].
    destruct (f 4%nat); [left; by eexists _, _|].
    right. exists tx1, cart. split; [done|]. by right.
Qed.

Lemma overwrite_ids {A} (key : A → nat) (x : A) (l : list A) :
  key <$> ((fun r => if decide (key r = key x) then x else r) <$> l) = key <$> l.
Proof.
  rewrite <- list_fmap_compose. apply list_fmap_ext. intros i r _. simpl.
  by destruct (decide _).
Qed.

Lemma overwrite_other {A} (key : A → nat) (P : A → Prop) `{∀ a, Decision (P a)}
    (x x' : A) (l : list A) :
  NoDup (key <$> l) → x ∈ l → key x' = key x → (P x ↔ P x') →
  (P x → x' = x) →
  filter P ((fun r => if decide (key r = key x') then x' else r) <$> l) = filter P l.
Proof.
  intros Hnd Hx Hk HP Heq. induction l as [|a l IH]; [done|].
  rewrite fmap_cons in Hnd. apply NoDup_cons in Hnd as [Ha Hnd].
  rewrite fmap_cons. destruct (decide (key a = key x')) as [Hka|Hka].
  - assert (a = x) as ->.
    { apply elem_of_cons in Hx as [->|Hx]; [done|]. exfalso. apply Ha.
      rewrite Hka, Hk. by apply list_elem_of_fmap_2. }
    assert ((fun r => if decide (key r = key x') then x' else r) <$> l = l) as ->.
    { rewrite <- (list_fmap_id l) at 2. apply list_fmap_ext. intros i r Hr.
      simpl. destruct (decide _) as [Hkr|]; [|done]. exfalso. apply Ha.
      rewrite <- Hk, <- Hkr. apply list_elem_of_fmap_2. by eapply list_elem_of_lookup_2. }
    rewrite !filter_cons. destruct (decide (P x')) as [Hp|Hp].
    + rewrite decide_True by tauto. f_equal. apply Heq. tauto.
    + rewrite decide_False by tauto. done.
  - rewrite !filter_cons. apply elem_of_cons in Hx as [->|Hx]; [congruence|].
    rewrite IH by done. done.
Qed.

Lemma fresh_id_NoDup {A} (key : A → nat) (l : list A) (x : A) (n : nat) :
  NoDup (key <$> l) → Forall (fun a => (key a <= n)%nat) l → key x = S n →
  NoDup (key <$> (l ++ [x])) ∧ Forall (fun a => (key a <= S n)%nat) (l ++ [x]).
Proof.
  intros Hnd Hle Hx. split.
  - rewrite fmap_app. apply NoDup_app. split; [done|]. split; [|apply NoDup_singleton].
    intros k Hk Hk'. apply list_elem_of_fmap in Hk as (a & -> & Ha).
    apply list_elem_of_fmap in Hk' as (b & Hb & ->%list_elem_of_singleton).
    rewrite Forall_forall in Hle. specialize (Hle a Ha). lia.
  - apply Forall_app. split.
    + eapply Forall_impl; [done|]. simpl. intros. lia.
    + apply Forall_singleton. lia.
Qed.

Lemma FirstOrCreate_spec db u tx1 cart :
  wf db → FirstOrCreate_open_cart false db u = inr (tx1, cart) →
  wf tx1 ∧ items tx1 = items db ∧ cart_items tx1 = cart_items db ∧
  orders tx1 = orders db ∧ seq_cart_items tx1 = seq_cart_items db ∧
  cart ∈ carts tx1 ∧ IsCheckedOut cart = false ∧ Cart_UserID cart = u ∧
  (carts tx1 = carts db ∨
   carts tx1 = carts db ++ [cart] ∧ Cart_ID cart = S (seq_carts db)).
Proof.
  intros (Hnd & Hle & Hnd' & Hle'). unfold FirstOrCreate_open_cart. simpl.
  destruct (open_cart db u) as [c|] eqn:Hc.
  - intros [= <- <-]. apply open_cart_Some in Hc as (? & ? & ?).
    repeat split; try done. by left.
  - intros [= <- <-]. simpl.
    destruct (fresh_id_NoDup Cart_ID (carts db)
                {| Cart_ID := S (seq_carts db); Cart_UserID := u;
                   IsCheckedOut := false; CheckedOutAt := None |} (seq_carts db))
      as [? ?]; try done.
    repeat split; try done.
    + apply elem_of_app. right. by apply list_elem_of_singleton.
    + by right.
Qed.

Lemma closed_cart_other db cid c cart :
  wf db → c ∈ carts db → Cart_ID c = cid → IsCheckedOut c = true →
  cart ∈ carts db → IsCheckedOut cart = false → Cart_ID cart ≠ cid.
Proof.
  intros (Hnd & _) Hc Hid Hco Hcart Hopen Heq.
  assert (cart = c) as ->; [|congruence].
  apply list_elem_of_lookup in Hc as [i Hi]. apply list_elem_of_lookup in Hcart as [j Hj].
  assert (i = j) as ->; [|congruence].
  eapply NoDup_lookup; [exact Hnd| |]; rewrite list_lookup_fmap.
  - by rewrite Hi.
  - rewrite Hj. simpl. congruence.
Qed.

Lemma AddToCart_frozen f u req db cid L o :
  frozen cid L o db → frozen cid L o (AddToCart f u req db).2.
Proof.
  intros Hfr. pose proof Hfr as (Hwf & (c & Hc & Hid & Hco) & HL & Ho).
  destruct (AddToCart_cases f u req db) as [(code & msg & ->)|(tx1 & cart & Hfc & Hcase)];
    [exact Hfr|].
  destruct (FirstOrCreate_spec _ _ _ _ Hwf Hfc)
    as (Hwf1 & Hi & Hci & Hor & Hseq & Hcart & Hopen & Hu & Hcarts).
  assert (c ∈ carts tx1) as Hc1.
  { destruct Hcarts as [->|[-> _]]; [done|]. apply elem_of_app. by left. }
  assert (Cart_ID cart ≠ cid) as Hne by (by eapply closed_cart_other).
  destruct Hwf1 as (Hnd & Hle & Hnd' & Hle').
  destruct Hcase as [(ci & Hfind & ->)|(Hfind & ->)]; simpl.
  - unfold find_cart_item in Hfind.
    destruct (list_find _ _) as [[i ci']|] eqn:E; [|done]. injection Hfind as ->.
    apply list_find_Some in E as (Hi' & [Hcid Hiid] & _).
    repeat split; simpl; try done.
    + by rewrite (overwrite_ids CartItem_ID (add_quantity (req_Quantity req) ci)).
    + apply Forall_fmap. eapply Forall_impl; [exact Hle'|]. intros r Hr. simpl.
      destruct (decide _); [simpl|done]. rewrite Forall_forall in Hle'.
      apply Hle'. by eapply list_elem_of_lookup_2.
    + by exists c.
    + unfold lines_of. simpl. rewrite <- HL. unfold lines_of. rewrite <- Hci.
      apply (overwrite_other CartItem_ID _ ci (add_quantity (req_Quantity req) ci));
        [done | by eapply list_elem_of_lookup_2 | done | done | intros; congruence].
    + congruence.
  - destruct (fresh_id_NoDup CartItem_ID (cart_items tx1)
                {| CartItem_ID := S (seq_cart_items tx1); CartID := Cart_ID cart;
                   ItemID := req_ItemID req; Quantity := req_Quantity req |}
                (seq_cart_items tx1)) as [? ?]; try done.
    repeat split; simpl; try done.
    + by exists c.
    + unfold lines_of. simpl. rewrite filter_app, filter_cons, decide_False by done.
      rewrite filter_nil, app_nil_r. by rewrite Hci.
    + congruence.
Qed.

Lemma overwrite_elem {A} (key : A → nat) (x x' : A) (l : list A) :
  x ∈ l → key x = key x' →
  x' ∈ (fun r => if decide (key r = key x') then x' else r) <$> l.
Proof.
  intros Hx Hk. apply list_elem_of_fmap. exists x. by rewrite decide_True.
Qed.

Lemma overwrite_closed now (cart c : Cart) (l : list Cart) :
  c ∈ l → IsCheckedOut c = true →
  ∃ c', c' ∈ (fun r => if decide (Cart_ID r = Cart_ID cart)
                        then checked_out now cart else r) <$> l
        ∧ Cart_ID c' = Cart_ID c ∧ IsCheckedOut c' = true.
Proof.
  intros Hc Hco. destruct (decide (Cart_ID c = Cart_ID cart)) as [He|He].
  - exists (checked_out now cart). split; [|by simpl].
    apply list_elem_of_fmap. exists c. by rewrite decide_True.
  - exists c. split; [|done]. apply list_elem_of_fmap. exists c. by rewrite decide_False.
Qed.

Lemma CreateOrder_wf f now u db : wf db → wf (CreateOrder f now u db).2.
Proof.
  intros Hwf.
  destruct (CreateOrder_cases f now u db)
    as [(code & msg & -> & _)|(cart & o & Hc & _ & _ & ->)]; [done|].
  destruct Hwf as (Hnd & Hle & Hnd' & Hle'). repeat split; simpl; try done.
  - by rewrite (overwrite_ids Cart_ID (checked_out now cart)).
  - apply Forall_fmap. eapply Forall_impl; [exact Hle|]. intros r Hr. simpl.
    destruct (decide _) as [e|]; [simpl; rewrite <- e|]; done.
Qed.

Lemma CreateOrder_frozen f now u db cid L o :
  frozen cid L o db → frozen cid L o (CreateOrder f now u db).2.
Proof.
  intros Hfr. pose proof Hfr as (Hwf & (c & Hc & Hid & Hco) & HL & Ho).
  pose proof (CreateOrder_wf f now u db Hwf) as Hwf'.
  destruct (CreateOrder_cases f now u db)
    as [(code & msg & -> & _)|(cart & o' & Hcart & _ & _ & Heq)]; [exact Hfr|].
  rewrite Heq in Hwf' |- *. simpl in *. split; [done|]. split; [|split].
  - destruct (overwrite_closed now cart c (carts db) Hc Hco) as (c' & ? & ? & ?).
    exists c'. repeat split; try done. congruence.
  - done.
  - simpl. apply elem_of_app. by left.
Qed.

Lemma CreateOrder_freezes f now u db oid db' :
  wf db → CreateOrder f now u db = (JSON StatusCreated (OrderCreated oid), db') →
  ∃ cart o,
    open_cart db u = Some cart ∧ lines_of db (Cart_ID cart) ≠ [] ∧
    last (orders db') = Some o ∧ orders db' = orders db ++ [o] ∧
    Order_ID o = oid ∧ Order_UserID o = u ∧
    Order_CartID o = Cart_ID cart ∧ Order_CreatedAt o = now ∧
    Status o = "completed" ∧
    Total o = cart_total (preload_CartItems db (Cart_ID cart)) ∧
    frozen (Cart_ID cart) (lines_of db (Cart_ID cart)) o db'.
Proof.
  intros Hwf Hco. pose proof (CreateOrder_wf f now u db Hwf) as Hwf'.
  destruct (CreateOrder_cases f now u db)
    as [(code & msg & Heq & _)|(cart & o & Hcart & Hne & Ho & Heq)];
    rewrite Heq in Hco; [done|].
  injection Hco as Hoid <-. rewrite Heq in Hwf'. simpl in Hwf'.
  exists cart, o. split; [done|]. split; [done|]. simpl.
  split; [apply last_snoc|]. split; [done|].
  subst o; simpl in *. do 6 (split; [done|]).
  split; [exact Hwf'|]. split; [|split; [done|]].
  - exists (checked_out now cart). split; [|done].
    apply open_cart_Some in Hcart as (Hin & _).
    by apply (overwrite_elem Cart_ID cart (checked_out now cart)).
  - apply elem_of_app. right. by apply list_elem_of_singleton.
Qed.

Lemma step_frozen cid L o db op : frozen cid L o db → frozen cid L o (step db op).
Proof.
  destruct op as [f u req|f now u|its]; simpl.
  - apply AddToCart_frozen.
  - apply CreateOrder_frozen.
  - by intros (Hwf & Hc & HL & Ho).
Qed.

Lemma run_frozen cid L o ops db : frozen cid L o db → frozen cid L o (run ops db).
Proof.
  revert db. induction ops as [|op ops IH]; intros db Hfr; [done|].
  simpl. apply IH. by apply step_frozen.
Qed.

Lemma GetUserOrders_frozen f u db cid L o :
  frozen cid L o db → Order_CartID o = cid → Order_UserID o = u → f 0%nat = false →
  ∃ os, GetUserOrders f u db = JSON StatusOK (Orders os) ∧
        {| order_id := Order_ID o; order_total := Total o; order_status := Status o;
           order_created_at := Order_CreatedAt o;
           order_items := view_line db <$> L |} ∈ os.
Proof.
  intros (Hwf & (c & Hc & Hid & Hco) & HL & Ho) Hcid Hu Hf.
  unfold GetUserOrders. rewrite Hf. eexists. split; [done|].
  apply list_elem_of_fmap. exists o. split.
  - unfold order_data. f_equal. unfold preload_Cart.
    destruct (list_find _ _) as [[i c']|] eqn:E.
    + apply list_find_Some in E as (_ & Hc' & _). rewrite Hc', Hcid.
      unfold preload_CartItems. fold (lines_of db cid). rewrite HL.
      by rewrite <- list_fmap_compose.
    + apply list_find_None in E. rewrite Forall_forall in E.
      exfalso. apply (E c Hc). congruence.
  - rewrite merge_sort_Permutation. apply list_elem_of_filter. done.
Qed.

Lemma overwrite_insert {A} (key : A → nat) (x x' : A) (l : list A) (i : nat) :
  NoDup (key <$> l) → l !! i = Some x → key x' = key x →
  (fun r => if decide (key r = key x') then x' else r) <$> l = <[i := x']> l.
Proof.
  intros Hnd Hi Hk. apply list_eq. intros j. rewrite list_lookup_fmap.
  destruct (decide (i = j)) as [<-|Hij].
  - rewrite Hi, list_lookup_insert_eq by (by eapply lookup_lt_Some). simpl.
    by rewrite decide_True.
  - rewrite list_lookup_insert_ne by done. destruct (l !! j) as [r|] eqn:Hj; [|done].
    simpl. rewrite decide_False; [done|]. intros Hkr. apply Hij.
    eapply NoDup_lookup; [exact Hnd| |]; rewrite list_lookup_fmap.
    + by rewrite Hi.
    + rewrite Hj. simpl. congruence.
Qed.

Lemma cart_total_lines db cid :
  cart_total (preload_CartItems db cid) =
  foldl (fun total ci => add total (mul (current_price db (ItemID ci)) (fromInt (Quantity ci))))
        (fromInt 0) (lines_of db cid).
Proof.
  unfold cart_total, preload_CartItems. fold (lines_of db cid).
  generalize (fromInt 0). induction (lines_of db cid) as [|ci l IH]; intros z; [done|].
  simpl. by rewrite IH.
Qed.

Lemma AddToCart_line f u req db cid db' :
  wf db → AddToCart f u req db = (JSON StatusOK (ItemAdded cid), db') →
  ∃ tx1 cart,
    FirstOrCreate_open_cart false db u = inr (tx1, cart) ∧ Cart_ID cart = cid ∧
    items db' = items db ∧ carts db' = carts tx1 ∧
    match find_cart_item tx1 cid (req_ItemID req) with
    | Some ci =>
        ∃ i, cart_items db !! i = Some ci ∧
             cart_items db' = <[i := add_quantity (req_Quantity req) ci]> (cart_items db)
    | None =>
        cart_items db' =
        cart_items db ++ [{| CartItem_ID := S (seq_cart_items db); CartID := cid;
                             ItemID := req_ItemID req; Quantity := req_Quantity req |}]
    end.
Proof.
  intros Hwf Hadd.
  destruct (AddToCart_cases f u req db) as [(code & msg & Heq)|(tx1 & cart & Hfc & Hcase)];
    [by rewrite Heq in Hadd|].
  destruct (FirstOrCreate_spec _ _ _ _ Hwf Hfc)
    as ((_ & _ & Hnd & _) & Hi & Hci & Hor & Hseq & Hcart & Hopen & Hu & Hcarts).
  exists tx1, cart. split; [done|].
  destruct Hcase as [(ci & Hfind & Heq)|(Hfind & Heq)]; rewrite Heq in Hadd;
    injection Hadd as <- <-; (split; [done|]); (split; [done|]); (split; [done|]);
    rewrite Hfind; simpl.
  - unfold find_cart_item in Hfind.
    destruct (list_find _ _) as [[i ci']|] eqn:E; [|done]. injection Hfind as ->.
    apply list_find_Some in E as (Hi' & _). exists i. rewrite <- Hci. split; [done|].
    by apply (overwrite_insert CartItem_ID ci (add_quantity (req_Quantity req) ci)).
  - by rewrite Hci, Hseq.
Qed.

Lemma AddToCart_unique f u req db :
  wf db → NoDup (line_keys db) → NoDup (line_keys (AddToCart f u req db).2).
Proof.
  intros Hwf Hnd.
  destruct (AddToCart f u req db) as [[code body] db'] eqn:Hadd. simpl.
  destruct (AddToCart_cases f u req db) as [(code' & msg & Heq)|(tx1 & cart & Hfc & Hcase)].
  { rewrite Heq in Hadd. by injection Hadd as _ _ <-. }
  assert (code = StatusOK ∧ body = ItemAdded (Cart_ID cart)) as [-> ->].
  { destruct Hcase as [(ci & _ & Heq)|(_ & Heq)]; rewrite Heq in Hadd;
      by injection Hadd as <- <- _. }
  destruct (AddToCart_line f u req db _ db' Hwf Hadd) as (tx1' & cart' & Hfc' & _ & _ & _ & Hm).
  rewrite Hfc in Hfc'. injection Hfc' as <- <-.
  destruct (FirstOrCreate_spec _ _ _ _ Hwf Hfc) as (_ & _ & Hci & _).
  unfold line_keys in *. unfold find_cart_item in Hm.
  destruct (list_find _ _) as [[j ci]|] eqn:E; simpl in Hm.
  - destruct Hm as (i & Hi & ->). rewrite list_fmap_insert. simpl.
    rewrite list_insert_id; [done|]. rewrite list_lookup_fmap, Hi. done.
  - rewrite Hm, fmap_app. apply NoDup_app. split; [done|].
    split; [|apply NoDup_singleton]. intros k Hk ->%list_elem_of_singleton.
    apply list_elem_of_fmap in Hk as (ci & Hk & Hin). injection Hk as Hk1 Hk2.
    apply list_find_None in E. rewrite Forall_forall in E. rewrite Hci in E.
    apply (E ci Hin). done.
Qed.
End GoFacts.

(** ** The service under backend/src *)
Section SrcFacts.
Context {Num : Type} `{Number Num}.
Import Src.

Implicit Types (s : @Store Num) (f : Faults) (cart this : @Cart Num).

Lemma save_Some fails u this s c' s' :
  save fails u this s = Some (c', s') →
  c' = preSave this ∧ Items s' = Items s ∧ Carts s' = <[u := preSave this]> (Carts s).
Proof. unfold save. destruct fails; [done|]. by intros [= <- <-]. Qed.

Lemma save_totals_ok fails u this s c' s' :
  save fails u this s = Some (c', s') → totals_ok s → totals_ok s'.
Proof.
  intros (-> & _ & Hc)%save_Some Hok u' cart. rewrite Hc.
  destruct (decide (u = u')) as [<-|Hne].
  - rewrite lookup_insert_eq. by intros [= <-].
  - rewrite lookup_insert_ne by done. apply Hok.
Qed.

Ltac handler_cases :=
  repeat (simpl; match goal with
          | |- context [match ?x with _ => _ end] => destruct x eqn:?
          end);
  simpl; try (by left); try (right; by eauto 10).

Lemma getCart_saved f u s : saved_or_same s (getCart f u s).2.
Proof. unfold getCart. handler_cases. Qed.

Lemma addItemToCart_saved f errors u i q s :
  saved_or_same s (addItemToCart f errors u i q s).2.
Proof. unfold addItemToCart. handler_cases. Qed.

Lemma updateCartItem_saved f errors u i q s :
  saved_or_same s (updateCartItem f errors u i q s).2.
Proof. unfold updateCartItem. handler_cases. Qed.

Lemma removeItemFromCart_saved f u i s : saved_or_same s (removeItemFromCart f u i s).2.
Proof. unfold removeItemFromCart. handler_cases. Qed.

Lemma clearCart_saved f u s : saved_or_same s (clearCart f u s).2.
Proof. unfold clearCart. handler_cases. Qed.

Lemma step_totals_ok s op : totals_ok s → totals_ok (step s op).
Proof.
  intros Hok.
  assert (∀ s', saved_or_same s s' → totals_ok s') as Hs.
  { intros s' [->|(fails & u & this & c' & Hsave)]; [done|]. by eapply save_totals_ok. }
  destruct op; simpl.
  - apply Hs, getCart_saved.
  - apply Hs, addItemToCart_saved.
  - apply Hs, updateCartItem_saved.
  - apply Hs, removeItemFromCart_saved.
  - apply Hs, clearCart_saved.
  - done.
Qed.

Lemma run_totals_ok ops s : totals_ok s → totals_ok (run ops s).
Proof.
  revert s. induction ops as [|op ops IH]; intros s Hok; [done|].
  simpl. apply IH. by apply step_totals_ok.
Qed.



Lemma findIndex_Some itemId (its : list (@CartItem Num)) i ci :
  findIndex itemId its = Some (i, ci) →
  its !! i = Some ci ∧ item ci = cast itemId ∧ lower_case itemId = true.
Proof. intros (? & [? ?] & _)%list_find_Some. done. Qed.

Lemma findIndex_None itemId (its : list (@CartItem Num)) :
  findIndex itemId its = None → lower_case itemId = true → cast itemId ∉ item <$> its.
Proof.
  intros Hn%list_find_None Hl Hin. apply list_elem_of_fmap in Hin as (ci & Heq & Hin).
  rewrite Forall_forall in Hn. by apply (Hn ci).
Qed.

Lemma findIndex_other_case itemId (its : list (@CartItem Num)) :
  lower_case itemId = false → findIndex itemId its = None.
Proof.
  intros Hl. apply list_find_None, Forall_forall. intros ci _ [Ht _]. congruence.
Qed.

Lemma append_digits_le n ds : 0 <= n → n <= append_digits n ds.
Proof.
  revert n. induction ds as [|ds IH|ds IH|ds IH|ds IH|ds IH|ds IH|ds IH|ds IH|ds IH|ds IH];
    intros n Hn; simpl; [lia|..]; (etrans; [|apply IH; lia]); lia.
Qed.

Lemma castNumber_ToNumber q n : castNumber q = Some n → ToNumber q = Some n.
Proof. by destruct q as [m|[sg|] []]. Qed.

Lemma less_false a b : less (Some a) (Some b) = false → b <= a.
Proof. simpl. intros Hlt%bool_decide_eq_false. lia. Qed.

Lemma addItemToCart_cases f errors u itemId q s resp s' :
  addItemToCart f errors u itemId q s = (resp, s') →
  (s' = s ∧ ∀ body, resp ≠ Res 201 body) ∨
  ∃ itemDoc cart',
    Items s !! cast itemId = Some itemDoc ∧
    Items s' = Items s ∧ Carts s' = <[u := cart']> (Carts s) ∧
    cart' = preSave cart' ∧
    let its := items (default newCart (Carts s !! u)) in
    match findIndex itemId its with
    | Some (i, ci) =>
        ∃ n, plus (quantity ci) (default (JNumber 1) q) = Some n ∧
             n <= countInStock itemDoc ∧
             items cart' = <[i := set_quantity n ci]> its
    | None =>
        ∃ n, castNumber (default (JNumber 1) q) = Some n ∧
             n <= countInStock itemDoc ∧
             items cart' =
             its ++ [{| item := cast itemId; name := Item_name itemDoc;
                        image := image_or_default (Item_image itemDoc);
                        price := Item_price itemDoc; quantity := n |}]
    end.
Proof.
  unfold addItemToCart. destruct (negb _); [intros [= <- <-]; by left|].
  destruct (f 0%nat); [intros [= <- <-]; by left|].
  destruct (Items s !! cast itemId) as [itemDoc|]; [|intros [= <- <-]; by left].
  destruct (less _ (ToNumber _)) eqn:Hstock; [intros [= <- <-]; by left|].
  destruct (f 1%nat); [intros [= <- <-]; by left|]. cbv zeta.
  destruct (findIndex itemId _) as [[i ci]|] eqn:Hfind.
  - destruct (less _ (plus _ _)) eqn:Hq; [intros [= <- <-]; by left|].
    destruct (plus _ _) as [n|] eqn:Hplus; simpl; [|intros [= <- <-]; by left].
    apply less_false in Hq.
    destruct (save _ _ _ _) as [[c' s'']|] eqn:Hsave; [|intros [= <- <-]; by left].
    apply save_Some in Hsave as (-> & Hi & Hc).
    intros Hr. assert (s' = s'') as -> by (by destruct (f 3%nat); injection Hr as _ <-).
    right. eexists itemDoc, _. split; [done|]. split; [done|].
    split; [done|]. split; [done|]. exists n. done.
  - destruct (castNumber _) as [n|] eqn:Hcast; simpl; [|intros [= <- <-]; by left].
    rewrite (castNumber_ToNumber _ _ Hcast) in Hstock. apply less_false in Hstock.
    destruct (save _ _ _ _) as [[c' s'']|] eqn:Hsave; [|intros [= <- <-]; by left].
    apply save_Some in Hsave as (-> & Hi & Hc).
    intros Hr. assert (s' = s'') as -> by (by destruct (f 3%nat); injection Hr as _ <-).
    right. eexists itemDoc, _. split; [done|]. split; [done|].
    split; [done|]. split; [done|]. exists n. done.
Qed.

Lemma addItemToCart_unique f errors u itemId q s cart' :
  lower_case itemId = true →
  (∀ cart, Carts s !! u = Some cart → NoDup (item <$> items cart)) →
  Carts (addItemToCart f errors u itemId q s).2 !! u = Some cart' →
  NoDup (item <$> items cart').
Proof.
  intros Hl Hnd. destruct (addItemToCart f errors u itemId q s) as [resp s'] eqn:Hadd.
  simpl. apply addItemToCart_cases in Hadd
    as [[-> _]|(itemDoc & c' & _ & _ & Hc & _ & Hits)]; [apply Hnd|].
  rewrite Hc, lookup_insert_eq. intros [= <-]. simpl in Hits.
  assert (NoDup (item <$> items (default newCart (Carts s !! u)))) as Hnd0.
  { destruct (Carts s !! u) as [cart|]; simpl; [by apply Hnd|apply NoDup_nil_2]. }
  destruct (findIndex itemId _) as [[i ci]|] eqn:Hfind.
  - destruct Hits as (n & _ & _ & ->). apply findIndex_Some in Hfind as [Hi _].
    rewrite list_fmap_insert. simpl. rewrite list_insert_id; [done|].
    by rewrite list_lookup_fmap, Hi.
  - destruct Hits as (n & _ & _ & ->). rewrite fmap_app. apply NoDup_app. split; [done|].
    split; [|apply NoDup_singleton]. intros k Hk ->%list_elem_of_singleton.
    by apply findIndex_None in Hfind.
Qed.

Lemma filter_length_eq {A} (P : A → Prop) `{∀ a, Decision (P a)} (l : list A) :
  length (filter P l) = length l → filter P l = l.
Proof.
  induction l as [|a l IH]; [done|]. rewrite filter_cons.
  destruct (decide (P a)); simpl.
  - intros [= Hl]. by rewrite IH.
  - pose proof (length_filter P l). lia.
Qed.

Lemma validItems_available s (its : list (@CartItem Num)) :
  (filter inStock (populate s its)).*1 = filter (available s) its.
Proof.
  unfold populate. induction its as [|ci its IH]; [done|].
  rewrite fmap_cons, !filter_cons. unfold available at 1.
  destruct (decide (inStock (ci, Items s !! item ci))); [rewrite fmap_cons|];
    simpl; by f_equal.
Qed.

Lemma getCart_store f u s cart :
  f 0%nat = false → f 1%nat = false → Carts s !! u = Some cart →
  let kept := filter (available s) (items cart) in
  (kept = items cart →
    getCart f u s = (Res 200 (CartBody (populate s (items cart))
                                        (totalItems cart) (totalPrice cart)), s)) ∧
  (kept ≠ items cart →
    ∃ body, getCart f u s =
      (Res 200 body,
       {| Items := Items s; Carts := <[u := preSave (set_items kept cart)]> (Carts s) |})).
Proof.
  intros Hf0 Hf1 Hc kept. subst kept. unfold getCart. rewrite Hf0, Hc, Hf1.
  pose proof (validItems_available s (items cart)) as Hv.
  split; intros Hk.
  - rewrite decide_False; [done|]. intros Hl. apply Hl.
    rewrite <- (length_fmap fst), Hv, Hk. unfold populate. by rewrite length_fmap.
  - rewrite decide_True.
    + unfold save. rewrite Hv. by eexists.
    + intros Hl. apply Hk. apply filter_length_eq.
      rewrite <- Hv, length_fmap, Hl. unfold populate. by rewrite length_fmap.
Qed.

Lemma updateCartItem_store f errors u itemId q s itemDoc cart :
  errors = [] → (∀ n, f n = false) →
  Items s !! cast itemId = Some itemDoc → q <= countInStock itemDoc →
  Carts s !! u = Some cart →
  match findIndex itemId (items cart) with
  | None =>
      updateCartItem f errors u itemId (JNumber q) s
      = (Res 404 (Message "Item not found in cart"), s)
  | Some (i, ci) =>
      ∃ body,
        updateCartItem f errors u itemId (JNumber q) s =
        (Res 200 body,
         {| Items := Items s;
            Carts := <[u := preSave (set_items
                                       (if bool_decide (q <= 0) then delete i (items cart)
                                        else <[i := set_quantity q ci]> (items cart)) cart)]>
                       (Carts s) |})
  end.
Proof.
  intros -> Hf Hi Hq Hc. unfold updateCartItem. simpl. rewrite !Hf, Hi, Hc.
  rewrite bool_decide_eq_false_2 by lia.
  destruct (findIndex itemId (items cart)) as [[i ci]|]; [|done].
  unfold save. destruct (bool_decide (q <= 0)); by eexists.
Qed.

Lemma Cart_updateItemQuantity_store u itemId q this s :
  match findIndex (toString itemId) (items this) with
  | None => Cart_updateItemQuantity false u itemId q this s = Some (this, s)
  | Some (i, ci) =>
      let this' :=
        preSave (set_items
                   (if bool_decide (q <= 0) then filter (fun l => item l ≠ itemId) (items this)
                    else <[i := set_quantity q ci]> (items this)) this) in
      Cart_updateItemQuantity false u itemId q this s =
      Some (this', {| Items := Items s; Carts := <[u := this']> (Carts s) |})
  end.
Proof.
  unfold Cart_updateItemQuantity, Cart_removeItemFromCart, save.
  destruct (findIndex (toString itemId) (items this)) as [[i ci]|]; [|done].
  by destruct (bool_decide (q <= 0)).
Qed.
End SrcFacts.

(** ** The service under backend *)
Section V1Facts.
Context {Num : Type} `{Number Num}.
Import V1.

Variable orderPreSave : @Order Num → @Order Num.

Implicit Types (s : @Store Num) (f : Faults) (docs : gmap nat (@Product Num)).

Lemma dbItems_Orders docs s ois r s' :
  dbItems docs s ois = (r, s') → Orders s' = Orders s.
Proof.
  revert docs s r s'. induction ois as [|req rest IH]; intros docs s r s'; simpl.
  - by intros [= _ <-].
  - destruct (docs !! product req) as [p|]; [|by intros [= _ <-]].
    destruct (bool_decide _); [by intros [= _ <-]|].
    destruct (dbItems _ _ rest) as [[e|lines] s''] eqn:Hrest;
      intros [= _ <-]; by apply IH in Hrest.
Qed.

Lemma dbItems_lines docs s ois lines s' :
  dbItems docs s ois = (inr lines, s') →
  Forall2 (fun req line =>
             oi_product line = product req ∧ oi_quantity line = quantity req ∧
             ∃ p, docs !! product req = Some p ∧ copies p line) ois lines.
Proof.
  revert docs s lines s'. induction ois as [|req rest IH]; intros docs s lines s'; simpl.
  - intros [= <- _]. constructor.
  - destruct (docs !! product req) as [p|] eqn:Hp; [|done].
    destruct (bool_decide _); [done|].
    destruct (dbItems _ _ rest) as [[e|lines'] s''] eqn:Hrest; [done|].
    intros [= <- _]. constructor.
    + repeat split; try done. by exists p.
    + apply IH in Hrest. eapply Forall2_impl; [exact Hrest|].
      intros req' line (? & ? & p' & Hp' & Hcp). repeat split; try done.
      destruct (decide (product req = product req')) as [He|Hne].
      * rewrite He, lookup_insert_eq in Hp'. injection Hp' as <-. exists p.
        split; [by rewrite <- He|]. done.
      * rewrite lookup_insert_ne in Hp' by done. by exists p'.
Qed.





Lemma createOrder_cases f u body s resp s' :
  createOrder orderPreSave f u body s = (resp, s') →
  (Orders s' = Orders s ∧ ∀ o, resp ≠ Res 201 (OrderBody o)) ∨
  ∃ ois lines,
    orderItems body = Some ois ∧ ois ≠ [] ∧
    dbItems (find_in (product <$> ois) s) s ois = (inr lines, set_Products (Products s') s) ∧
    let o := orderPreSave
               {| _id := fresh (_id <$> Orders s); o_user := u; o_orderItems := lines;
                  o_shippingAddress := shippingAddress body;
                  o_paymentMethod := paymentMethod body;
                  o_itemsPrice := itemsPrice body; o_taxPrice := taxPrice body;
                  o_shippingPrice := shippingPrice body;
                  o_totalPrice := totalPrice body |} in
    resp = Res 201 (OrderBody o) ∧ Orders s' = Orders s ++ [o].
Proof.
  unfold createOrder. destruct (orderItems body) as [[|req rest]|] eqn:Hb;
    [intros [= <- <-]; by left| |intros [= <- <-]; by left].
  destruct (f 0%nat); [intros [= <- <-]; by left|].
  destruct (dbItems _ s (req :: rest)) as [[e|lines] s''] eqn:Hdb.
  - intros [= <- <-]. left. split; [by eapply dbItems_Orders|done].
  - pose proof (dbItems_Orders _ _ _ _ _ Hdb) as Ho.
    destruct (f 1%nat); [intros [= <- <-]; by left|].
    assert (s'' = set_Products (Products s'') s) as Hs''.
    { destruct s''. unfold set_Products. simpl in *. by rewrite Ho. }
    intros [= <- <-]. right. exists (req :: rest), lines. split; [done|]. split; [done|].
    split; [cbn [Products]; by rewrite <- Hs''|]. cbn [Orders]. by rewrite Ho.
Qed.

Lemma step_stored o s op : stored o s → stored o (step orderPreSave s op).
Proof.
  intros (pre & post & Ho & Hid). destruct op as [f u body|ps]; simpl.
  - destruct (createOrder orderPreSave f u body s) as [resp s'] eqn:Hc. simpl.
    apply createOrder_cases in Hc as [[Hs _]|(ois & lines & _ & _ & _ & _ & Hs)].
    + exists pre, post. by rewrite Hs.
    + exists pre, (post ++ [orderPreSave
               {| _id := fresh (_id <$> Orders s); o_user := u; o_orderItems := lines;
                  o_shippingAddress := shippingAddress body;
                  o_paymentMethod := paymentMethod body;
                  o_itemsPrice := itemsPrice body; o_taxPrice := taxPrice body;
                  o_shippingPrice := shippingPrice body;
                  o_totalPrice := totalPrice body |}]).
      split; [|done]. rewrite Hs, Ho. by rewrite <- app_assoc.
  - by exists pre, post.
Qed.

Lemma run_stored o ops s : stored o s → stored o (run orderPreSave ops s).
Proof.
  revert s. induction ops as [|op ops IH]; intros s Hs; [done|].
  simpl. apply IH. by apply step_stored.
Qed.

Lemma createOrder_stored f u body s o s' :
  (∀ o, _id (orderPreSave o) = _id o) →
  createOrder orderPreSave f u body s = (Res 201 (OrderBody o), s') →
  stored o s'.
Proof.
  intros Hid Hc. apply createOrder_cases in Hc
    as [[_ Hne]|(ois & lines & _ & _ & _ & Ho & Hs)]; [by destruct (Hne o)|].
  injection Ho as Ho. exists (Orders s), []. split; [by rewrite Hs, Ho|].
  rewrite Ho, Hid. simpl. apply infinite_is_fresh.
Qed.

Lemma stored_find o s :
  stored o s → ∃ i, list_find (fun o' => _id o' = _id o) (Orders s) = Some (i, o).
Proof.
  intros (pre & post & Ho & Hid). exists (length pre). rewrite Ho.
  apply list_find_Some. split; [|split; [done|]].
  - by rewrite lookup_app_r, Nat.sub_diag.
  - intros j o' Hj Hlt Heq. apply Hid. rewrite lookup_app_l in Hj by done.
    rewrite <- Heq. apply list_elem_of_fmap_2. by eapply list_elem_of_lookup_2.
Qed.

Lemma getOrderById_stored f req_user is_admin o s :
  stored o s → f 0%nat = false → o_user o = req_user ∨ is_admin = true →
  getOrderById f req_user is_admin (_id o) s = Res 200 (OrderBody o).
Proof.
  intros [i Hfind]%stored_find Hf Hauth. unfold getOrderById. rewrite Hf, Hfind.
  destruct Hauth as [<-| ->].
  - by rewrite bool_decide_eq_false_2 by (by intros []).
  - by rewrite andb_false_r.
Qed.

Lemma getMyOrders_stored f o s :
  stored o s → f 0%nat = false →
  ∃ os, getMyOrders f (o_user o) s = Res 200 (OrdersBody os) ∧ o ∈ os.
Proof.
  intros (pre & post & Ho & _) Hf. unfold getMyOrders. rewrite Hf. eexists. split; [done|].
  apply list_elem_of_filter. split; [done|]. rewrite Ho. apply elem_of_app. right.
  apply list_elem_of_here.
Qed.
End V1Facts.

(** * The claims *)
Section Claims.
Context {Num : Type} `{Number Num}.

(** C1.  A checkout either commits the new order together with the closing
    of the cart, or commits nothing: the response is an error exactly when
    the database is left as it was (no order, the cart still open), whichever
    database call failed, the commit included; and it is [OrderCreated]
    exactly when the order row is appended and the row of the user's open
    cart is overwritten by its checked-out version. *)
Theorem CreateOrder_atomic (f : Faults) (now : Go.Time) (u : nat) (db : @Go.DB Num) :
  match Go.CreateOrder f now u db with
  | (Go.JSON code (Go.Error _), db') =>
      (400 <= code)%nat ∧ db' = db ∧ Go.open_cart db' u = Go.open_cart db u
  | (Go.JSON code (Go.OrderCreated oid), db') =>
      code = Go.StatusCreated ∧
      ∃ cart o,
        Go.open_cart db u = Some cart ∧
        Go.orders db' = Go.orders db ++ [o] ∧
        Go.Order_ID o = oid ∧ Go.Order_UserID o = u ∧
        Go.Order_CartID o = Go.Cart_ID cart ∧
        Go.carts db' =
          (fun r => if decide (Go.Cart_ID r = Go.Cart_ID cart)
                    then Go.checked_out now cart else r) <$> Go.carts db ∧
        Go.checked_out now cart ∈ Go.carts db' ∧
        Go.cart_items db' = Go.cart_items db ∧ Go.items db' = Go.items db
  | _ => False
  end.
Proof.
  destruct (CreateOrder_cases f now u db)
    as [(code & msg & -> & Hcode)|(cart & o & Hcart & _ & Ho & ->)].
  - done.
  - split; [done|]. exists cart, o. subst o. simpl. repeat split; try done.
    apply open_cart_Some in Hcart as (Hin & _).
    by apply (overwrite_elem Go.Cart_ID cart (Go.checked_out now cart)).
Qed.

(** C5.  When the load of the cart does not hit a storage error, a checkout
    of a user without an open cart fails with "no active cart found", and a
    checkout of an open cart without lines fails with "cart is empty"; in
    both cases the database is left as it was, so no order is created.  The
    order handler of the Express backend rejects an empty list of order
    items with the error "No order items" (400) and leaves its store as it
    was. *)
Theorem checkout_rejects_missing_and_empty_cart (f : Faults) (now : Go.Time) (u : nat)
    (db : @Go.DB Num) (Hload : f 0%nat = false) :
  (Go.open_cart db u = None →
     Go.CreateOrder f now u db =
       (Go.JSON Go.StatusBadRequest (Go.Error "no active cart found"), db)) ∧
  (∀ cart, Go.open_cart db u = Some cart → Go.lines_of db (Go.Cart_ID cart) = [] →
     Go.CreateOrder f now u db =
       (Go.JSON Go.StatusBadRequest (Go.Error "cart is empty"), db)) ∧
  (∀ orderPreSave f' body (s : @V1.Store Num),
     V1.orderItems body = Some [] →
     V1.createOrder orderPreSave f' u body s =
       (V1.Next (V1.ErrorResponse "No order items" 400), s)).
Proof.
  split; [|split].
  - intros Hnone. unfold Go.CreateOrder, Go.First_open_cart, Go.Begin. by rewrite Hload, Hnone.
  - intros cart Hcart Hlines.
    unfold Go.CreateOrder, Go.First_open_cart, Go.Begin. rewrite Hload, Hcart.
    unfold Go.preload_CartItems. fold (Go.lines_of db (Go.Cart_ID cart)). by rewrite Hlines.
  - intros hook f' body s Hb. unfold V1.createOrder. by rewrite Hb.
Qed.

(** C3 (amended).  The Go checkout stores one order row: its id, the time,
    the user, the cart and a total, which is the sum, over the lines of the
    cart, of the price the catalog has for the item at checkout time
    multiplied by the quantity; the cart lines carry no price of their own,
    and the order records no line and no unit price.  In the Express order
    handler, each line of the document that the handler hands to the Order
    model has the quantity the client sent and the name, image and price of
    the product as the catalog has them at that time, and the amounts handed
    over are those of the request; a model whose save keeps the lines stores
    the order with these lines. *)
Theorem order_prices_from_catalog :
  (∀ f now u (db : @Go.DB Num) oid db',
     Go.CreateOrder f now u db = (Go.JSON Go.StatusCreated (Go.OrderCreated oid), db') →
     ∃ cart,
       Go.open_cart db u = Some cart ∧
       Go.orders db' =
         Go.orders db ++
         [{| Go.Order_ID := oid; Go.Order_CreatedAt := now; Go.Order_UserID := u;
             Go.Order_CartID := Go.Cart_ID cart;
             Go.Total :=
               foldl (fun total ci =>
                        add total (mul (Go.current_price db (Go.ItemID ci))
                                       (fromInt (Go.Quantity ci))))
                     (fromInt 0) (Go.lines_of db (Go.Cart_ID cart));
             Go.Status := "completed" |}]) ∧
  (∀ orderPreSave f u body (s : @V1.Store Num) o s',
     V1.createOrder orderPreSave f u body s = (V1.Res 201 (V1.OrderBody o), s') →
     ∃ ois unsaved,
       V1.orderItems body = Some ois ∧ o = orderPreSave unsaved ∧
       V1.o_itemsPrice unsaved = V1.itemsPrice body ∧
       V1.o_taxPrice unsaved = V1.taxPrice body ∧
       V1.o_shippingPrice unsaved = V1.shippingPrice body ∧
       V1.o_totalPrice unsaved = V1.totalPrice body ∧
       Forall2 (fun req line =>
                  V1.oi_product line = V1.product req ∧
                  V1.oi_quantity line = V1.quantity req ∧
                  ∃ p, V1.Products s !! V1.product req = Some p ∧ V1.copies p line)
               ois (V1.o_orderItems unsaved) ∧
       ((∀ x, V1.o_orderItems (orderPreSave x) = V1.o_orderItems x) →
        Forall2 (fun req line =>
                   V1.oi_product line = V1.product req ∧
                   V1.oi_quantity line = V1.quantity req ∧
                   ∃ p, V1.Products s !! V1.product req = Some p ∧ V1.copies p line)
                ois (V1.o_orderItems o))).
Proof.
  split.
  - intros f now u db oid db' Hco.
    destruct (CreateOrder_cases f now u db)
      as [(code & msg & Heq & _)|(cart & o & Hcart & _ & Ho & Heq)];
      rewrite Heq in Hco; [done|].
    injection Hco as <- <-. exists cart. split; [done|]. simpl.
    subst o. simpl. by rewrite cart_total_lines.
  - intros hook f u body s o s' Hco.
    apply createOrder_cases in Hco as [[_ Hne]|(ois & lines & Hb & _ & Hdb & Ho & _)];
      [by destruct (Hne o)|].
    injection Ho as ->. apply dbItems_lines in Hdb.
    assert (Forall2 (fun req line =>
                  V1.oi_product line = V1.product req ∧
                  V1.oi_quantity line = V1.quantity req ∧
                  ∃ p, V1.Products s !! V1.product req = Some p ∧ V1.copies p line)
               ois lines) as Hlines.
    { eapply Forall2_impl; [exact Hdb|]. intros req line (? & ? & p & Hp & ?).
      repeat split; try done. exists p. split; [|done].
      apply map_lookup_filter_Some in Hp as [Hp _]. done. }
    eexists ois, _. split; [done|]. split; [done|]. simpl.
    repeat (split; [done|]). intros Hkeeps. by rewrite Hkeeps.
Qed.


(** C2 (amended).  Read back through the order history after any later
    history of the database (adds to carts, checkouts, replacements of the
    catalog), an order created by the Go checkout shows the total computed
    at checkout and one line for each line the cart had, with the same item
    id and quantity; the name, description and unit price of a line are
    those of the current catalog row, not those of checkout time.  The
    Order model of the Express order handler is not among the sources and
    is a parameter.  If its save keeps the id of the document, the document
    that the checkout returned is what the order view and the order history
    return, unchanged after any later history of orders and catalog
    changes; if it also keeps the lines, each line read back has the
    quantity the client sent and the name, image and price that the catalog
    had for the product at checkout time. *)
Theorem order_read_back :
  (∀ f now u (db : @Go.DB Num) oid db1 ops f',
     Go.wf db →
     Go.CreateOrder f now u db = (Go.JSON Go.StatusCreated (Go.OrderCreated oid), db1) →
     f' 0%nat = false →
     ∃ cart o os,
       Go.open_cart db u = Some cart ∧ last (Go.orders db1) = Some o ∧
       Go.Total o = Go.cart_total (Go.preload_CartItems db (Go.Cart_ID cart)) ∧
       Go.GetUserOrders f' u (Go.run ops db1) = Go.JSON Go.StatusOK (Go.Orders os) ∧
       {| Go.order_id := oid; Go.order_total := Go.Total o;
          Go.order_status := "completed"; Go.order_created_at := now;
          Go.order_items :=
            (fun ci =>
               {| Go.item_id := Go.ItemID ci;
                  Go.item_name :=
                    Go.Name (default Go.zeroItem (Go.find_item (Go.run ops db1) (Go.ItemID ci)));
                  Go.item_description :=
                    Go.Description
                      (default Go.zeroItem (Go.find_item (Go.run ops db1) (Go.ItemID ci)));
                  Go.item_price := Go.current_price (Go.run ops db1) (Go.ItemID ci);
                  Go.item_quantity := Go.Quantity ci |})
            <$> Go.lines_of db (Go.Cart_ID cart) |} ∈ os) ∧
  (∀ orderPreSave f u body (s : @V1.Store Num) o s' ops f',
     (∀ o, V1._id (orderPreSave o) = V1._id o) →
     V1.createOrder orderPreSave f u body s = (V1.Res 201 (V1.OrderBody o), s') →
     f' 0%nat = false →
     V1.getOrderById f' (V1.o_user o) false (V1._id o) (V1.run orderPreSave ops s')
       = V1.Res 200 (V1.OrderBody o) ∧
     (∃ os, V1.getMyOrders f' (V1.o_user o) (V1.run orderPreSave ops s')
              = V1.Res 200 (V1.OrdersBody os) ∧ o ∈ os) ∧
     ((∀ x, V1.o_orderItems (orderPreSave x) = V1.o_orderItems x) →
      ∃ ois, V1.orderItems body = Some ois ∧
        Forall2 (fun req line =>
                   V1.oi_product line = V1.product req ∧
                   V1.oi_quantity line = V1.quantity req ∧
                   ∃ p, V1.Products s !! V1.product req = Some p ∧ V1.copies p line)
                ois (V1.o_orderItems o))).
Proof.
  split.
  - intros f now u db oid db1 ops f' Hwf Hco Hf'.
    destruct (CreateOrder_freezes f now u db oid db1 Hwf Hco)
      as (cart & o & Hcart & _ & Hlast & _ & Hoid & Hu & Hcid & Hnow & Hst & Htot & Hfr).
    destruct (GetUserOrders_frozen f' u (Go.run ops db1) _ _ o
                (run_frozen _ _ _ ops _ Hfr) Hcid Hu Hf') as (os & Hget & Hin).
    exists cart, o, os. split; [done|]. split; [done|]. split; [done|]. split; [done|].
    by rewrite Hoid, Hnow, Hst in Hin.
  - intros hook f u body s o s' ops f' Hid Hco Hf'.
    pose proof (run_stored hook o ops s' (createOrder_stored hook f u body s o s' Hid Hco))
      as Hst.
    split; [apply getOrderById_stored; auto|]. split; [by apply getMyOrders_stored|].
    intros Hkeeps.
    apply createOrder_cases in Hco as [[_ Hne]|(ois & lines & Hb & _ & Hdb & Ho & _)];
      [by destruct (Hne o)|].
    injection Ho as ->. rewrite Hkeeps. simpl. exists ois. split; [done|].
    apply dbItems_lines in Hdb.
    eapply Forall2_impl; [exact Hdb|]. intros req line (? & ? & p & Hp & ?).
    repeat split; try done. exists p. split; [|done].
    apply map_lookup_filter_Some in Hp as [Hp _]. done.
Qed.

(** C4 (amended).  After every sequence of calls of the cart handlers of
    backend/src (view, add, update, remove, clear, by any user, with any
    storage errors) and of catalog changes, every stored cart has
    [totalPrice] equal to the sum of price snapshot times quantity over its
    lines and [totalItems] equal to the sum of the quantities: no tax and no
    shipping enter a cart total.  In backend/models/Cart.js,
    [calculateTotals] sets [subTotal] to that sum, [tax] to the subtotal
    times 0.1 rounded to 2 decimals and [total] to subtotal plus tax rounded
    to 2 decimals, with no shipping. *)
Theorem cart_totals (ops : list (@Src.Op Num)) (s : @Src.Store Num)
    (Hok : Src.totals_ok s) :
  (∀ u cart, Src.Carts (Src.run ops s) !! u = Some cart →
     Src.totalPrice cart =
       foldl (fun total i => add total (mul (Src.price i) (fromInt (Src.quantity i))))
             (fromInt 0) (Src.items cart) ∧
     Src.totalItems cart = foldl (fun total i => total + Src.quantity i) 0 (Src.items cart)) ∧
  (∀ this : @V1.Cart Num,
     let lines := (fun i => (V1.ci_price i, V1.ci_quantity i)) <$> V1.items this in
     V1.items (V1.calculateTotals this) = V1.items this ∧
     V1.subTotal (V1.calculateTotals this) = Spec.subtotal lines ∧
     V1.tax (V1.calculateTotals this) = Spec.tax lines ∧
     V1.total (V1.calculateTotals this) = toFixed2 (add (Spec.subtotal lines) (Spec.tax lines))).
Proof.
  split.
  - apply (run_totals_ok ops s Hok).
  - intros this lines.
    assert (V1.subTotal (V1.calculateTotals this) = Spec.subtotal lines) as Hsub.
    { unfold V1.calculateTotals, Spec.subtotal, lines. simpl.
      generalize (fromInt 0). induction (V1.items this) as [|i l IH]; intros z; [done|].
      simpl. by rewrite IH. }
    split; [done|]. split; [done|]. unfold Spec.tax. rewrite <- Hsub. done.
Qed.


(** C6 (amended).  A successful [addItemToCart] of backend/src whose
    request names the item by the lower-case spelling of its id and gives
    the quantity as a JSON number, or gives none: on a cart that already has
    a line for the item the call replaces that line, in place, by the same
    line with the requested quantity added: item, name, image and price
    snapshot stay as they were when the line was first added, and no line
    is added.  When the cart has no line for the item, one line is
    appended, with the current name, image and price of the item and the
    requested quantity.  A cart without two lines for one item stays so.
    The Go [AddToCart] does the same on its line rows, with the sum taken
    in 64-bit integers; its lines carry no price. *)
Theorem addItem_increments_or_appends :
  (∀ f errors u itemId (q : option Z) (s : @Src.Store Num) body s',
     Src.lower_case itemId = true →
     Src.addItemToCart f errors u itemId (Src.JNumber <$> q) s = (Src.Res 201 body, s') →
     ∃ itemDoc cart',
       Src.Items s !! Src.cast itemId = Some itemDoc ∧ Src.Carts s' !! u = Some cart' ∧
       (let its := Src.items (default Src.newCart (Src.Carts s !! u)) in
        match Src.findIndex itemId its with
        | Some (i, ci) =>
            its !! i = Some ci ∧ Src.item ci = Src.cast itemId ∧
            Src.items cart' =
              <[i := {| Src.item := Src.item ci; Src.name := Src.name ci;
                        Src.image := Src.image ci; Src.price := Src.price ci;
                        Src.quantity := Src.quantity ci + default 1 q |}]> its
        | None =>
            (Src.cast itemId ∉ Src.item <$> its) ∧
            Src.items cart' =
              its ++ [{| Src.item := Src.cast itemId; Src.name := Src.Item_name itemDoc;
                         Src.image := Src.image_or_default (Src.Item_image itemDoc);
                         Src.price := Src.Item_price itemDoc;
                         Src.quantity := default 1 q |}]
        end) ∧
       ((∀ cart, Src.Carts s !! u = Some cart → NoDup (Src.item <$> Src.items cart)) →
        NoDup (Src.item <$> Src.items cart'))) ∧
  (∀ f u req (db : @Go.DB Num) cid db',
     Go.wf db →
     Go.AddToCart f u req db = (Go.JSON Go.StatusOK (Go.ItemAdded cid), db') →
     (∃ cart, cart ∈ Go.carts db' ∧ Go.Cart_ID cart = cid ∧
              Go.Cart_UserID cart = u ∧ Go.IsCheckedOut cart = false) ∧
     match Go.find_cart_item db cid (Go.req_ItemID req) with
     | Some ci =>
         ∃ i, Go.cart_items db !! i = Some ci ∧
              Go.cart_items db' =
                <[i := {| Go.CartItem_ID := Go.CartItem_ID ci; Go.CartID := Go.CartID ci;
                          Go.ItemID := Go.ItemID ci;
                          Go.Quantity :=
                            Go.wrap64 (Go.Quantity ci + Go.req_Quantity req) |}]>
                  (Go.cart_items db)
     | None =>
         Go.cart_items db' =
           Go.cart_items db ++
           [{| Go.CartItem_ID := S (Go.seq_cart_items db); Go.CartID := cid;
               Go.ItemID := Go.req_ItemID req; Go.Quantity := Go.req_Quantity req |}]
     end ∧
     (NoDup (Go.line_keys db) → NoDup (Go.line_keys db'))).
Proof.
  split.
  - intros f errors u itemId q s body s' Hlower Hadd.
    pose proof (addItemToCart_unique f errors u itemId (Src.JNumber <$> q) s) as Hnd.
    rewrite Hadd in Hnd. simpl in Hnd.
    apply addItemToCart_cases in Hadd
      as [[_ Hne]|(itemDoc & cart' & Hi & _ & Hc & _ & Hits)]; [by destruct (Hne body)|].
    exists itemDoc, cart'. split; [done|]. rewrite Hc, lookup_insert_eq. split; [done|].
    assert (default (Src.JNumber 1) (Src.JNumber <$> q) = Src.JNumber (default 1 q)) as Hq
      by (by destruct q).
    rewrite Hq in Hits. split.
    + simpl in *. destruct (Src.findIndex itemId _) as [[i ci]|] eqn:Hfind.
      * destruct Hits as (n & [= <-] & _ & ->).
        apply findIndex_Some in Hfind as (Hk & Hitem & _). done.
      * destruct Hits as (n & [= <-] & _ & ->). split; [|done].
        by apply findIndex_None in Hfind.
    + intros Hnd0. apply Hnd; [done|done|]. by rewrite Hc, lookup_insert_eq.
  - intros f u req db cid db' Hwf Hadd.
    pose proof (AddToCart_unique f u req db Hwf) as Hnd. rewrite Hadd in Hnd. simpl in Hnd.
    destruct (AddToCart_line f u req db cid db' Hwf Hadd)
      as (tx1 & cart & Hfc & Hcid & _ & Hcs & Hm).
    destruct (FirstOrCreate_spec _ _ _ _ Hwf Hfc)
      as (_ & _ & Hci & _ & _ & Hcart & Hopen & Hu & Hcarts).
    assert (Go.find_cart_item tx1 cid (Go.req_ItemID req)
            = Go.find_cart_item db cid (Go.req_ItemID req)) as Hf.
    { unfold Go.find_cart_item. by rewrite Hci. }
    rewrite Hf in Hm. split; [|by split].
    exists cart. by rewrite Hcs.
Qed.


(** C7 (amended).  The model method [updateItemQuantity] of backend/src:
    when the cart has no line for the item the call succeeds and changes
    nothing; when it has one, a quantity of 0 or less removes the lines of
    the item, so that no non-positive quantity is stored, and a quantity of
    1 or more replaces the stored quantity by exactly that value.  The
    handler [updateCartItem], for a request that names the item by the
    lower-case spelling of its id and gives the quantity as a JSON number,
    once the request is valid, the item is in the catalog with enough stock
    and the user has a cart: when the cart has no line for the item it
    fails with 404 "Item not found in cart", for every quantity, and leaves
    the store as it was; when it has one, a quantity of 0 or less removes
    that line and a quantity of 1 or more sets its quantity to exactly that
    value. *)
Theorem updateItemQuantity_sets_or_removes :
  (∀ u itemId q (this : @Src.Cart Num) s,
     match Src.findIndex (Src.toString itemId) (Src.items this) with
     | None =>
         (itemId ∉ Src.item <$> Src.items this) ∧
         Src.Cart_updateItemQuantity false u itemId q this s = Some (this, s)
     | Some (i, ci) =>
         Src.items this !! i = Some ci ∧ Src.item ci = itemId ∧
         ∃ this' s',
           Src.Cart_updateItemQuantity false u itemId q this s = Some (this', s') ∧
           Src.Carts s' !! u = Some this' ∧
           (q <= 0 →
              Src.items this' = filter (fun l => Src.item l ≠ itemId) (Src.items this) ∧
              itemId ∉ Src.item <$> Src.items this') ∧
           (1 <= q →
              Src.items this' =
                <[i := {| Src.item := Src.item ci; Src.name := Src.name ci;
                          Src.image := Src.image ci; Src.price := Src.price ci;
                          Src.quantity := q |}]> (Src.items this))
     end) ∧
  (∀ f u itemId q (s : @Src.Store Num) itemDoc cart,
     (∀ n, f n = false) → Src.lower_case itemId = true →
     Src.Items s !! Src.cast itemId = Some itemDoc → q <= Src.countInStock itemDoc →
     Src.Carts s !! u = Some cart →
     match Src.findIndex itemId (Src.items cart) with
     | None =>
         (Src.cast itemId ∉ Src.item <$> Src.items cart) ∧
         Src.updateCartItem f [] u itemId (Src.JNumber q) s =
           (Src.Res 404 (Src.Message "Item not found in cart"), s)
     | Some (i, ci) =>
         Src.items cart !! i = Some ci ∧ Src.item ci = Src.cast itemId ∧
         ∃ body s' cart',
           Src.updateCartItem f [] u itemId (Src.JNumber q) s = (Src.Res 200 body, s') ∧
           Src.Carts s' !! u = Some cart' ∧
           (q <= 0 → Src.items cart' = delete i (Src.items cart)) ∧
           (1 <= q →
              Src.items cart' =
                <[i := {| Src.item := Src.item ci; Src.name := Src.name ci;
                          Src.image := Src.image ci; Src.price := Src.price ci;
                          Src.quantity := q |}]> (Src.items cart))
     end).
Proof.
  split.
  - intros u itemId q this s.
    pose proof (Cart_updateItemQuantity_store u itemId q this s) as Hm.
    destruct (Src.findIndex (Src.toString itemId) (Src.items this)) as [[i ci]|] eqn:Hfind;
      [|split; [by apply findIndex_None in Hfind|done]].
    apply findIndex_Some in Hfind as (Hk & Hitem & _). split; [done|]. split; [done|].
    simpl in Hm. eexists _, _. split; [exact Hm|]. simpl. rewrite lookup_insert_eq.
    split; [done|]. split; intros Hq.
    + rewrite bool_decide_eq_true_2 by done. split; [done|].
      intros (l & Hl & [Hne _]%list_elem_of_filter)%list_elem_of_fmap. by apply Hne.
    + rewrite bool_decide_eq_false_2 by lia. done.
  - intros f u itemId q s itemDoc cart Hf Hlower Hi Hq Hc.
    pose proof (updateCartItem_store f [] u itemId q s itemDoc cart eq_refl Hf Hi Hq Hc) as Hm.
    destruct (Src.findIndex itemId (Src.items cart)) as [[i ci]|] eqn:Hfind;
      [|split; [by apply findIndex_None in Hfind|done]].
    apply findIndex_Some in Hfind as (Hk & Hitem & _). split; [done|]. split; [done|].
    destruct Hm as [body Hm]. eexists body, _, _. split; [exact Hm|]. simpl.
    rewrite lookup_insert_eq. split; [done|]. split; intros Hq'.
    + by rewrite bool_decide_eq_true_2.
    + rewrite bool_decide_eq_false_2 by lia. done.
Qed.


(** C10.  The cart view of backend/src writes: when the stored cart of the
    user has a line whose item is gone from the catalog or has no stock
    left, [getCart] stores the cart again, under the same user, with
    exactly the lines whose item exists with a positive stock, in their
    order and unchanged, and with the totals recomputed; the carts of the
    other users and the catalog stay as they were. *)
Theorem getCart_prunes (f : Faults) (u : nat) (s : @Src.Store Num) (cart : Src.Cart)
    (Hfind : f 0%nat = false) (Hsave : f 1%nat = false)
    (Hcart : Src.Carts s !! u = Some cart)
    (Hgone : ∃ ci, ci ∈ Src.items cart ∧
               (Src.Items s !! Src.item ci = None ∨
                ∃ i, Src.Items s !! Src.item ci = Some i ∧ Src.countInStock i = 0)) :
  ∃ body s' cart',
    Src.getCart f u s = (Src.Res 200 body, s') ∧
    Src.Carts s' !! u = Some cart' ∧ cart' ≠ cart ∧
    Src.items cart' = filter (Src.available s) (Src.items cart) ∧
    (∀ ci, ci ∈ Src.items cart' ↔
           ci ∈ Src.items cart ∧
           ∃ i, Src.Items s !! Src.item ci = Some i ∧ 0 < Src.countInStock i) ∧
    Src.totalPrice cart' = Src.subtotal (Src.items cart') ∧
    Src.totalItems cart' = Src.count (Src.items cart') ∧
    (∀ u', u' ≠ u → Src.Carts s' !! u' = Src.Carts s !! u') ∧
    Src.Items s' = Src.Items s.
Proof.
  assert (∀ ci, Src.available s ci ↔
                ∃ i, Src.Items s !! Src.item ci = Some i ∧ 0 < Src.countInStock i) as Hav.
  { intros ci. unfold Src.available, Src.inStock. simpl.
    destruct (Src.Items s !! Src.item ci) as [i|].
    - split; [by exists i|]. by intros (i' & [= <-] & ?).
    - split; [done|]. by intros (i' & ? & ?). }
  assert (filter (Src.available s) (Src.items cart) ≠ Src.items cart) as Hne.
  { destruct Hgone as (ci & Hin & Hbad). intros Heq. rewrite <- Heq in Hin.
    apply list_elem_of_filter in Hin as [(i & Hi & Hpos)%Hav _].
    destruct Hbad as [Hn|(i' & Hi' & Hz)]; [congruence|].
    rewrite Hi in Hi'. injection Hi' as <-. lia. }
  destruct (getCart_store f u s cart Hfind Hsave Hcart) as [_ Hg].
  destruct (Hg Hne) as [body Hget].
  eexists body, _, _. split; [exact Hget|].
  cbn [Src.Carts Src.Items Src.items Src.preSave Src.set_items Src.totalPrice Src.totalItems].
  rewrite lookup_insert_eq.
  split; [done|]. split.
  { intros Heq. apply Hne. apply (f_equal Src.items) in Heq. exact Heq. }
  split; [done|]. split.
  { intros ci. unfold Src.preSave, Src.set_items. cbn [Src.items].
    rewrite list_elem_of_filter, Hav. tauto. }
  split; [done|]. split; [done|]. split; [|done].
  intros u' Hu'. by rewrite lookup_insert_ne.
Qed.

End Claims.

(** * The claims on concrete stores *)
Section Concrete.
Import Examples.

(** C1, with a commit that fails: the response is an error and the database
    is the one before the call, the cart still open. *)
Example CreateOrder_commit_fails :
  Go.CreateOrder commit_fails 5%nat 1 go_cart =
    (Go.JSON 500 (Go.Error "failed to process order"), go_cart) ∧
  Go.IsCheckedOut <$> Go.open_cart go_cart 1 = Some false.
Proof. split; reflexivity. Qed.

(** C5 on concrete databases: user 7 has no cart, and the cart of user 1
    has lost its lines (scenario D). *)
Lemma checkout_rejects_witness :
  Go.CreateOrder no_faults 5%nat 7 go_cart =
    (Go.JSON 400 (Go.Error "no active cart found"), go_cart) ∧
  Go.CreateOrder no_faults 5%nat 1 go_cart_no_lines =
    (Go.JSON 400 (Go.Error "cart is empty"), go_cart_no_lines).
Proof.
  split.
  - apply (checkout_rejects_missing_and_empty_cart no_faults 5%nat 7 go_cart eq_refl).
    reflexivity.
  - eapply (checkout_rejects_missing_and_empty_cart no_faults 5%nat 1 go_cart_no_lines eq_refl);
      reflexivity.
Defined.

(** C3, against the claim (scenario E): 2 of item 42 were added at 10.00
    and the catalog price went to 12.00.  The checkout stores one order row
    with the total 24.00 and nothing else about prices; when the catalog
    price goes on to 15.00, the order is shown with its line at 15.00: the
    unit price of 12.00 is recorded nowhere. *)
Lemma go_order_records_no_unit_price :
  Go.orders (Go.CreateOrder no_faults 5%nat 1 go_repriced).2 =
    [{| Go.Order_ID := 1; Go.Order_CreatedAt := 5%nat; Go.Order_UserID := 1;
        Go.Order_CartID := 1; Go.Total := 24%Q; Go.Status := "completed" |}] ∧
  Go.cart_items (Go.CreateOrder no_faults 5%nat 1 go_repriced).2 =
    [{| Go.CartItem_ID := 1; Go.CartID := 1; Go.ItemID := 42; Go.Quantity := 2 |}] ∧
  Go.GetUserOrders no_faults 1
    (Go.set_items [go_item 15] (Go.CreateOrder no_faults 5%nat 1 go_repriced).2) =
    Go.JSON 200 (Go.Orders
      [{| Go.order_id := 1; Go.order_total := 24%Q; Go.order_status := "completed";
          Go.order_created_at := 5%nat;
          Go.order_items :=
            [{| Go.item_id := 42; Go.item_name := "Lamp";
                Go.item_description := "desk lamp"; Go.item_price := 15%Q;
                Go.item_quantity := 2 |}] |}]).
Proof. split; [reflexivity|]. split; reflexivity. Qed.

(** C3 as amended, scenario E: the Go order row has the total 24.00; the
    Express handler hands over one line at 12.00 with the total of 32.00
    that the client sent, and a model that stores what it is given stores
    that line. *)
Lemma order_prices_witness :
  Go.orders (Go.CreateOrder no_faults 5%nat 1 go_repriced).2 =
    [{| Go.Order_ID := 1; Go.Order_CreatedAt := 5%nat; Go.Order_UserID := 1;
        Go.Order_CartID := 1; Go.Total := 24%Q; Go.Status := "completed" |}] ∧
  (∃ o, (V1.createOrder (fun o => o) no_faults 1 (v1_body v1_two_lamps) v1_repriced).1
          = V1.Res 201 (V1.OrderBody o) ∧
        Forall2 (fun req line =>
                   V1.oi_product line = V1.product req ∧
                   V1.oi_quantity line = V1.quantity req ∧
                   ∃ p, V1.Products v1_repriced !! V1.product req = Some p ∧
                        V1.copies p line)
                v1_two_lamps (V1.o_orderItems o) ∧
        V1.o_totalPrice o = 32%Q).
Proof.
  split.
  - destruct (proj1 order_prices_from_catalog no_faults 5%nat 1%nat go_repriced 1%nat
                (Go.CreateOrder no_faults 5%nat 1 go_repriced).2 eq_refl)
      as (cart & Hcart & Horders).
    rewrite Horders. injection Hcart as <-. reflexivity.
  - set (r := V1.createOrder (fun o => o) no_faults 1 (v1_body v1_two_lamps) v1_repriced).
    assert (∃ o, r = (V1.Res 201 (V1.OrderBody o), r.2)) as [o Hr]
      by (eexists; vm_compute; reflexivity).
    destruct (proj2 order_prices_from_catalog (fun o => o) no_faults 1%nat
                (v1_body v1_two_lamps) v1_repriced o r.2 Hr)
      as (ois & unsaved & Hb & -> & _ & _ & _ & Htot & _ & Hlines).
    exists unsaved. split; [by rewrite Hr|]. injection Hb as <-.
    split; [by apply Hlines|exact Htot].
Defined.

(** C2, against the claim: the order of [go_ordered] was computed with a
    unit price of 10.00; once the catalog price is 12.00 the order history
    shows the line at 12.00, next to the total of 20.00 of checkout time. *)
Lemma order_view_follows_catalog :
  Go.GetUserOrders no_faults 1 go_ordered =
    Go.JSON 200 (Go.Orders
      [{| Go.order_id := 1; Go.order_total := 20%Q; Go.order_status := "completed";
          Go.order_created_at := 5%nat;
          Go.order_items :=
            [{| Go.item_id := 42; Go.item_name := "Lamp";
                Go.item_description := "desk lamp"; Go.item_price := 10%Q;
                Go.item_quantity := 2 |}] |}]) ∧
  Go.GetUserOrders no_faults 1 (Go.set_items [go_item 12] go_ordered) =
    Go.JSON 200 (Go.Orders
      [{| Go.order_id := 1; Go.order_total := 20%Q; Go.order_status := "completed";
          Go.order_created_at := 5%nat;
          Go.order_items :=
            [{| Go.item_id := 42; Go.item_name := "Lamp";
                Go.item_description := "desk lamp"; Go.item_price := 12%Q;
                Go.item_quantity := 2 |}] |}]) ∧
  Go.GetUserOrders no_faults 1 (Go.set_items [go_item 12] go_ordered) ≠
  Go.GetUserOrders no_faults 1 go_ordered.
Proof. split; [reflexivity|]. split; [reflexivity|]. discriminate. Qed.

Lemma go_cart_wf : Go.wf go_cart.
Proof.
  repeat split; simpl.
  - apply NoDup_singleton.
  - repeat constructor.
  - apply NoDup_singleton.
  - repeat constructor.
Defined.

(** C2 as amended, on [go_cart]: after a price change and two more adds,
    the history of user 1 shows the total of checkout time, the line with
    its item and quantity, and the price of the catalog of now; the order of
    the Express handler, under a model that stores what it is given, is read
    back with its line of 2 at 10.00 after the price went to 12.00. *)
Lemma order_read_back_witness :
  (∃ os, Go.GetUserOrders no_faults 1 (Go.run go_later go_ordered) =
           Go.JSON Go.StatusOK (Go.Orders os) ∧
         {| Go.order_id := 1; Go.order_total := 20%Q; Go.order_status := "completed";
            Go.order_created_at := 5%nat;
            Go.order_items :=
              [{| Go.item_id := 42; Go.item_name := "Lamp";
                  Go.item_description := "desk lamp"; Go.item_price := 12%Q;
                  Go.item_quantity := 2 |}] |} ∈ os) ∧
  (∃ o, V1.createOrder (fun o => o) no_faults 1 (v1_body v1_two_lamps) v1_store =
          (V1.Res 201 (V1.OrderBody o),
           (V1.createOrder (fun o => o) no_faults 1 (v1_body v1_two_lamps) v1_store).2) ∧
        V1.getOrderById no_faults 1 false (V1._id o)
          (V1.run (fun o => o) v1_later
             (V1.createOrder (fun o => o) no_faults 1 (v1_body v1_two_lamps) v1_store).2)
        = V1.Res 200 (V1.OrderBody o) ∧
        (fun line => (V1.oi_product line, V1.oi_quantity line, V1.oi_price line))
          <$> V1.o_orderItems o = [(42%nat, 2, 10%Q)]).
Proof.
  split.
  - destruct (proj1 order_read_back no_faults 5%nat 1%nat go_cart 1%nat go_ordered
                go_later no_faults go_cart_wf eq_refl eq_refl)
      as (cart & o & os & Hcart & Hlast & Htotal & Hget & Hin).
    exists os. split; [exact Hget|].
    injection Hcart as <-. injection Hlast as <-. exact Hin.
  - eexists. split; [reflexivity|].
    destruct (proj2 order_read_back (fun o => o) no_faults 1%nat (v1_body v1_two_lamps)
                v1_store _ _ v1_later no_faults (fun o => eq_refl) eq_refl eq_refl)
      as (Hview & _ & Hlines).
    split; [exact Hview|].
    destruct (Hlines (fun x => eq_refl)) as (ois & Hb & Hall). reflexivity.
Defined.

(** C4, against the claim (scenario A): after the add of 2 of item 42 at
    10.00 the stored cart total is 20.00, the bare subtotal.  The formula of
    the specification gives 20.00 + 2.00 of tax + shipping, which is 20.00
    for no threshold and no fee that is not negative. *)
Lemma cart_total_without_tax_and_shipping :
  ∃ cart,
    Src.Carts src_cart !! 1%nat = Some cart ∧
    Src.items cart = [src_line 42 10 2] ∧ Src.totalPrice cart = 20%Q ∧
    Spec.subtotal [(10%Q, 2)] = 20%Q ∧ Spec.tax [(10%Q, 2)] = 2%Q ∧
    ¬ ∃ threshold fee : Q,
        (0 <= fee)%Q ∧ Src.totalPrice cart = Spec.total threshold fee [(10%Q, 2)].
Proof.
  exists {| Src.items := [src_line 42 10 2]; Src.totalPrice := 20%Q; Src.totalItems := 2 |}.
  split; [reflexivity|]. split; [reflexivity|]. split; [reflexivity|].
  split; [reflexivity|]. split; [reflexivity|].
  intros (threshold & fee & Hfee & Heq). unfold Spec.total, Spec.shipping in Heq.
  change (Spec.subtotal [(10%Q, 2)]) with 20%Q in Heq.
  change (Spec.tax [(10%Q, 2)]) with 2%Q in Heq.
  cbn [Src.totalPrice] in Heq. change (add 20%Q 2%Q) with 22%Q in Heq.
  destruct (gt 20%Q threshold).
  - discriminate Heq.
  - unfold add in Heq. simpl in Heq. unfold Qadd' in Heq.
    pose proof (Qred_correct (22 + fee)) as Hred. rewrite <- Heq in Hred.
    destruct fee as [n d]. unfold Qle in Hfee. unfold Qeq in Hred. simpl in *. lia.
Qed.

Lemma src_empty_totals_ok : Src.totals_ok src_empty.
Proof. intros u cart Hc. exfalso. cbn in Hc. by rewrite lookup_empty in Hc. Defined.

(** C4 as amended, on a history of adds, an update, a price change and a
    remove: the stored total of the cart of user 1 is 4 times 10.00. *)
Lemma cart_totals_witness :
  ∃ cart, Src.Carts (Src.run src_ops src_empty) !! 1%nat = Some cart ∧
          Src.items cart = [src_line 42 10 4] ∧
          Src.totalPrice cart = 40%Q ∧ Src.totalItems cart = 4.
Proof.
  eexists. split; [reflexivity|]. split; [reflexivity|].
  destruct (proj1 (cart_totals src_ops src_empty src_empty_totals_ok) 1%nat _ eq_refl)
    as [Hprice Hitems].
  split; [rewrite Hprice|rewrite Hitems]; reflexivity.
Defined.

(** C6, against the claim: user 1 holds 2 of item 42, added at 10.00; the
    catalog price is now 12.00; after the add of 3 more the only line has
    quantity 5 and still the price snapshot 10.00. *)
Lemma addItem_keeps_price_snapshot :
  ∃ body s' itemDoc line,
    Src.addItemToCart no_faults [] 1 (Src.toString 42) (Some (Src.JNumber 3)) src_repriced
      = (Src.Res 201 body, s') ∧
    Src.Items s' !! 42%nat = Some itemDoc ∧ Src.Item_price itemDoc = 12%Q ∧
    Src.items <$> Src.Carts s' !! 1%nat = Some [line] ∧
    Src.item line = 42%nat ∧ Src.quantity line = 5 ∧ Src.price line = 10%Q ∧
    Src.price line ≠ Src.Item_price itemDoc.
Proof.
  eexists _, _, _, _. split; [reflexivity|]. split; [reflexivity|]. split; [reflexivity|].
  split; [reflexivity|]. split; [reflexivity|]. split; [reflexivity|]. split; [reflexivity|].
  discriminate.
Qed.

Lemma src_cart_unique cart :
  Src.Carts src_repriced !! 1%nat = Some cart → NoDup (Src.item <$> Src.items cart).
Proof. intros [= <-]. apply NoDup_singleton. Defined.

(** C6 as amended (scenario B): the line of item 42 goes from 2 to 5 and
    stays alone; in the Go service the row goes from 2 to 5 as well. *)
Lemma addItem_witness :
  (∃ cart', Src.Carts (Src.addItemToCart no_faults [] 1 (Src.toString 42)
                         (Some (Src.JNumber 3)) src_repriced).2 !! 1%nat
              = Some cart' ∧
            Src.items cart' = [src_line 42 10 5] ∧
            NoDup (Src.item <$> Src.items cart')) ∧
  Go.cart_items (Go.AddToCart no_faults 1 (go_req 3) go_cart).2 =
    [{| Go.CartItem_ID := 1; Go.CartID := 1; Go.ItemID := 42; Go.Quantity := 5 |}].
Proof.
  split.
  - destruct (proj1 addItem_increments_or_appends no_faults [] 1%nat (Src.toString 42)
                (Some 3) src_repriced _ _ eq_refl eq_refl)
      as (itemDoc & cart' & Hi & Hc & Hits & Hnd).
    exists cart'. split; [exact Hc|]. split; [exact (proj2 (proj2 Hits))|].
    apply Hnd, src_cart_unique.
  - destruct (proj2 addItem_increments_or_appends no_faults 1%nat (go_req 3) go_cart 1%nat
                (Go.AddToCart no_faults 1 (go_req 3) go_cart).2 go_cart_wf eq_refl)
      as (_ & Hm & _).
    assert (Go.find_cart_item go_cart 1 (Go.req_ItemID (go_req 3)) =
            Some {| Go.CartItem_ID := 1; Go.CartID := 1; Go.ItemID := 42;
                    Go.Quantity := 2 |}) as Hfind by reflexivity.
    rewrite Hfind in Hm. destruct Hm as (i & Hi & Hci). rewrite Hci.
    destruct i as [|i]; [reflexivity|discriminate Hi].
Defined.

(** C7, against the claim: item 43 is in the catalog with 3 in stock, the
    cart of user 1 has no line for it, the route accepts the quantity 0, and
    the update to 0 is answered with 404 "Item not found in cart". *)
Lemma updateCartItem_absent_line_fails :
  Src.check_update (Src.JNumber 0) = [] ∧
  Src.findIndex (Num:=Q) (Src.toString 43)
    (Src.items (default Src.newCart (Src.Carts src_sold_out !! 1%nat))) = None ∧
  Src.updateCartItem no_faults (Src.check_update (Src.JNumber 0)) 1 (Src.toString 43)
    (Src.JNumber 0) src_sold_out =
    (Src.Res 404 (Src.Message "Item not found in cart"), src_sold_out).
Proof. split; [reflexivity|]. split; reflexivity. Qed.

(** C7 as amended (scenario C and a plain update): on the cart holding 2
    of item 42, the method and the handler remove the line for the quantity
    0 and store 4 for the quantity 4; the method accepts an item without a
    line and changes nothing. *)
Lemma updateItemQuantity_witness :
  (∃ cart, Src.Carts (Src.updateCartItem no_faults [] 1 (Src.toString 42) (Src.JNumber 0)
                        src_cart).2 !! 1%nat = Some cart ∧
           Src.items cart = [] ∧ Src.totalPrice cart = 0%Q ∧ Src.totalItems cart = 0) ∧
  (∃ cart, Src.Carts (Src.updateCartItem no_faults [] 1 (Src.toString 42) (Src.JNumber 4)
                        src_cart).2 !! 1%nat = Some cart ∧
           Src.items cart = [src_line 42 10 4]) ∧
  Src.Cart_updateItemQuantity false 1 43 0
    {| Src.items := [src_line 42 10 2]; Src.totalPrice := 20%Q; Src.totalItems := 2 |} src_cart
  = Some ({| Src.items := [src_line 42 10 2]; Src.totalPrice := 20%Q; Src.totalItems := 2 |},
          src_cart).
Proof.
  split; [|split].
  - pose proof (proj2 updateItemQuantity_sets_or_removes no_faults 1%nat (Src.toString 42)
                  0 src_cart (src_item 10 10)
                  {| Src.items := [src_line 42 10 2]; Src.totalPrice := 20%Q;
                     Src.totalItems := 2 |}
                  (fun _ => eq_refl) eq_refl eq_refl ltac:(simpl; lia) eq_refl) as Hm.
    change (Src.findIndex _ _) with (Some (0%nat, src_line 42 10 2)) in Hm.
    destruct Hm as (_ & _ & body & s' & cart' & Hup & Hc & Hrem & _).
    rewrite Hup. exists cart'. split; [exact Hc|]. split; [by apply Hrem|].
    injection Hup as _ <-. injection Hc as <-. split; reflexivity.
  - pose proof (proj2 updateItemQuantity_sets_or_removes no_faults 1%nat (Src.toString 42)
                  4 src_cart (src_item 10 10)
                  {| Src.items := [src_line 42 10 2]; Src.totalPrice := 20%Q;
                     Src.totalItems := 2 |}
                  (fun _ => eq_refl) eq_refl eq_refl ltac:(simpl; lia) eq_refl) as Hm.
    change (Src.findIndex _ _) with (Some (0%nat, src_line 42 10 2)) in Hm.
    destruct Hm as (_ & _ & body & s' & cart' & Hup & Hc & _ & Hset).
    rewrite Hup. exists cart'. split; [exact Hc|]. by apply Hset.
  - apply (proj2 (proj1 updateItemQuantity_sets_or_removes 1%nat 43%nat 0
                    {| Src.items := [src_line 42 10 2]; Src.totalPrice := 20%Q;
                       Src.totalItems := 2 |} src_cart)).
Defined.



(** C10 on a concrete store: item 42 is sold out, so the view of the cart
    of user 1 stores it again without its line. *)
Lemma getCart_prunes_witness :
  Src.items <$> Src.Carts src_sold_out !! 1%nat = Some [src_line 42 10 2] ∧
  ∃ body s' cart',
    Src.getCart no_faults 1 src_sold_out = (Src.Res 200 body, s') ∧
    Src.Carts s' !! 1%nat = Some cart' ∧ Src.items cart' = [] ∧
    Src.totalPrice cart' = 0%Q.
Proof.
  split; [reflexivity|].
  destruct (getCart_prunes no_faults 1%nat src_sold_out
              {| Src.items := [src_line 42 10 2]; Src.totalPrice := 20%Q;
                 Src.totalItems := 2 |} eq_refl eq_refl eq_refl)
    as (body & s' & cart' & Hget & Hc & _ & Hits & _ & Hprice & _).
  { exists (src_line 42 10 2). split; [apply list_elem_of_here|].
    right. exists (src_item 10 0). split; reflexivity. }
  exists body, s', cart'. split; [exact Hget|]. split; [exact Hc|].
  split; [rewrite Hits; reflexivity|]. rewrite Hprice, Hits. reflexivity.
Defined.
End Concrete.

(** * Further properties *)

(** ** The Go service: carts over histories, and the cart view *)
Section GoMore.
Context {float64 : Type} `{Number float64}.
Import Go GoCart.

Implicit Types (db tx : @DB float64) (f : Faults).

Lemma open_cart_None db u c :
  open_cart db u = None → c ∈ carts db → Cart_UserID c = u → IsCheckedOut c = true.
Proof.
  unfold open_cart. destruct (list_find _ _) as [[i c']|] eqn:E; [done|]. intros _ Hin Hu.
  apply list_find_None in E. rewrite Forall_forall in E. specialize (E c Hin).
  destruct (IsCheckedOut c); [done|]. by destruct E.
Qed.

Lemma open_cart_lookup db u c :
  open_cart db u = Some c →
  ∃ i, carts db !! i = Some c ∧ Cart_UserID c = u ∧ IsCheckedOut c = false.
Proof.
  unfold open_cart. destruct (list_find _ _) as [[i c']|] eqn:E; [|done].
  intros [= ->]. apply list_find_Some in E as (Hi & [? ?] & _). by exists i.
Qed.

Lemma FirstOrCreate_carts db u tx1 cart :
  FirstOrCreate_open_cart false db u = inr (tx1, cart) →
  (open_cart db u = Some cart ∧ tx1 = db) ∨
  (open_cart db u = None ∧ carts tx1 = carts db ++ [cart] ∧
   Cart_ID cart = S (seq_carts db) ∧ Cart_UserID cart = u ∧ IsCheckedOut cart = false).
Proof.
  unfold FirstOrCreate_open_cart. simpl. destruct (open_cart db u) as [c|].
  - intros [= <- <-]. by left.
  - intros [= <- <-]. by right.
Qed.

Lemma AddToCart_carts f u req db cid db' :
  AddToCart f u req db = (JSON StatusOK (ItemAdded cid), db') →
  ∃ tx1 cart, FirstOrCreate_open_cart false db u = inr (tx1, cart) ∧
              Cart_ID cart = cid ∧ carts db' = carts tx1 ∧ seq_carts db' = seq_carts tx1.
Proof.
  intros Hadd.
  destruct (AddToCart_cases f u req db) as [(code & msg & Heq)|(tx1 & cart & Hfc & Hcase)];
    [by rewrite Heq in Hadd|].
  exists tx1, cart. split; [done|].
  by destruct Hcase as [(ci & _ & Heq)|(_ & Heq)]; rewrite Heq in Hadd; injection Hadd as <- <-.
Qed.

Lemma AddToCart_wf f u req db : wf db → wf (AddToCart f u req db).2.
Proof.
  intros Hwf.
  destruct (AddToCart_cases f u req db) as [(code & msg & ->)|(tx1 & cart & Hfc & Hcase)];
    [done|].
  destruct (FirstOrCreate_spec _ _ _ _ Hwf Hfc) as ((Hnd & Hle & Hnd' & Hle') & _).
  destruct Hcase as [(ci & Hfind & ->)|(Hfind & ->)]; simpl.
  - repeat split; simpl; try done.
    + by rewrite (overwrite_ids CartItem_ID (add_quantity (req_Quantity req) ci)).
    + unfold find_cart_item in Hfind.
      destruct (list_find _ _) as [[i ci']|] eqn:E; [|done]. injection Hfind as ->.
      apply list_find_Some in E as (Hi' & _).
      apply Forall_fmap. eapply Forall_impl; [exact Hle'|]. intros r Hr. simpl.
      destruct (decide _); [simpl|done]. rewrite Forall_forall in Hle'.
      apply Hle'. by eapply list_elem_of_lookup_2.
  - destruct (fresh_id_NoDup CartItem_ID (cart_items tx1)
                {| CartItem_ID := S (seq_cart_items tx1); CartID := Cart_ID cart;
                   ItemID := req_ItemID req; Quantity := req_Quantity req |}
                (seq_cart_items tx1)) as [? ?]; try done.
Qed.

Lemma AddToCart_one_open f u req db :
  one_open_cart db → one_open_cart (AddToCart f u req db).2.
Proof.
  intros Hone. destruct (AddToCart f u req db) as [[code body] db'] eqn:Hadd. simpl.
  destruct (AddToCart_cases f u req db) as [(code' & msg & Heq)|(tx1 & cart & Hfc & Hcase)].
  { rewrite Heq in Hadd. by injection Hadd as _ _ <-. }
  assert (carts db' = carts tx1) as Hcs.
  { by destruct Hcase as [(ci & _ & Heq)|(_ & Heq)]; rewrite Heq in Hadd;
      injection Hadd as _ _ <-. }
  unfold one_open_cart. rewrite Hcs.
  apply FirstOrCreate_carts in Hfc as [[_ ->]|(Hnone & -> & _ & Hu & Hopen)]; [done|].
  intros i j c1 c2 Hi Hj Ho1 Ho2 Hu12.
  assert (∀ k c, (carts db ++ [cart]) !! k = Some c → IsCheckedOut c = false →
                 Cart_UserID c = u → k = length (carts db)) as Hlast.
  { intros k c Hk Ho Huc. destruct (decide (k < length (carts db))%nat) as [Hlt|Hge].
    - rewrite lookup_app_l in Hk by done.
      pose proof (open_cart_None db u c Hnone (list_elem_of_lookup_2 _ _ _ Hk) Huc). congruence.
    - apply lookup_lt_Some in Hk. rewrite length_app in Hk. simpl in Hk. lia. }
  destruct (decide (i < length (carts db))%nat) as [Hilt|Hige];
    destruct (decide (j < length (carts db))%nat) as [Hjlt|Hjge].
  - rewrite lookup_app_l in Hi, Hj by done. by eapply Hone.
  - assert (c2 = cart) as ->.
    { rewrite lookup_app_r in Hj by lia. apply lookup_lt_Some in Hj as Hj'.
      simpl in Hj'.
      replace (j - length (carts db))%nat with 0%nat in Hj by lia. by injection Hj. }
    pose proof (Hlast i c1 Hi Ho1 ltac:(congruence)). lia.
  - assert (c1 = cart) as ->.
    { rewrite lookup_app_r in Hi by lia. apply lookup_lt_Some in Hi as Hi'.
      simpl in Hi'.
      replace (i - length (carts db))%nat with 0%nat in Hi by lia. by injection Hi. }
    pose proof (Hlast j c2 Hj Ho2 ltac:(congruence)). lia.
  - apply lookup_lt_Some in Hi, Hj. rewrite length_app in Hi, Hj. simpl in *. lia.
Qed.

Lemma overwrite_open now (cart : Cart) (l : list Cart) i c :
  ((fun r => if decide (Cart_ID r = Cart_ID cart) then checked_out now cart else r) <$> l)
    !! i = Some c →
  IsCheckedOut c = false → l !! i = Some c ∧ Cart_ID c ≠ Cart_ID cart.
Proof.
  rewrite list_lookup_fmap. destruct (l !! i) as [r|]; [|done]. simpl.
  destruct (decide _) as [He|He]; intros [= <-]; [done|]. by intros _.
Qed.

Lemma CreateOrder_one_open f now u db :
  one_open_cart db → one_open_cart (CreateOrder f now u db).2.
Proof.
  intros Hone.
  destruct (CreateOrder_cases f now u db)
    as [(code & msg & -> & _)|(cart & o & _ & _ & _ & ->)]; [done|].
  intros i j c1 c2 Hi Hj Ho1 Ho2 Hu. simpl in Hi, Hj.
  apply overwrite_open in Hi as [Hi _]; [|done].
  apply overwrite_open in Hj as [Hj _]; [|done]. by eapply Hone.
Qed.

Lemma step_wf db op : wf db → wf (step db op).
Proof.
  destruct op as [f u req|f now u|its]; simpl.
  - apply AddToCart_wf.
  - apply CreateOrder_wf.
  - done.
Qed.

Lemma step_one_open db op : one_open_cart db → one_open_cart (step db op).
Proof.
  destruct op as [f u req|f now u|its]; simpl.
  - apply AddToCart_one_open.
  - apply CreateOrder_one_open.
  - done.
Qed.

(** X1.  Whatever the history of adds, checkouts (by any users, with any
    storage errors) and catalog changes, the primary keys of carts and lines
    stay unique and no user ever has two open carts. *)
Theorem one_open_cart_per_user (ops : list (@Op float64)) (db : DB)
    (Hwf : wf db) (Hone : one_open_cart db) :
  wf (run ops db) ∧ one_open_cart (run ops db).
Proof.
  revert db Hwf Hone. induction ops as [|op ops IH]; intros db Hwf Hone; [done|].
  simpl. apply IH; [by apply step_wf|by apply step_one_open].
Qed.

(** X2.  [AddToCart] changes the database only when it answers 200: every
    error response leaves the database as it was.  In particular a request
    for an item that does not exist is answered with 404 and leaves no cart
    behind, also when it was the first add of the user, and a request that
    does not bind (item id 0, quantity below 1) is answered with 400. *)
Theorem AddToCart_all_or_nothing (f : Faults) (u : nat) (req : AddToCartRequest)
    (db : @DB float64) :
  match AddToCart f u req db with
  | (JSON code (Error _), db') => db' = db
  | (JSON code (ItemAdded cid), db') =>
      code = StatusOK ∧
      ∃ cart, cart ∈ carts db' ∧ Cart_ID cart = cid ∧ Cart_UserID cart = u ∧
              IsCheckedOut cart = false
  | _ => False
  end ∧
  (ShouldBindJSON req = false →
   ∃ msg, AddToCart f u req db = (JSON StatusBadRequest (Error msg), db)) ∧
  (ShouldBindJSON req = true → f 0%nat = false → find_item db (req_ItemID req) = None →
   AddToCart f u req db = (JSON StatusNotFound (Error "item not found"), db)).
Proof.
  split; [|split].
  - destruct (AddToCart_cases f u req db) as [(code & msg & ->)|(tx1 & cart & Hfc & Hcase)];
      [done|].
    assert (cart ∈ carts tx1 ∧ Cart_UserID cart = u ∧ IsCheckedOut cart = false)
      as (Hin & Hu & Hopen).
    { apply FirstOrCreate_carts in Hfc as [[Hc ->]|(_ & Hcs & _ & ? & ?)].
      - by apply open_cart_Some in Hc.
      - split; [|done]. rewrite Hcs. apply elem_of_app. right.
        by apply list_elem_of_singleton. }
    destruct Hcase as [(ci & _ & ->)|(_ & ->)]; (split; [done|]); by exists cart.
  - intros Hb. unfold AddToCart. rewrite Hb. simpl. by eexists.
  - intros Hb Hf Hnone. unfold AddToCart, Begin, Rollback. rewrite Hb, Hf. cbn [negb].
    assert (∀ tx1 cart, FirstOrCreate_open_cart false db u = inr (tx1, cart) →
                        find_item tx1 (req_ItemID req) = None) as Hitems.
    { intros tx1 cart Hfc. rewrite <- Hnone. unfold find_item.
      apply FirstOrCreate_carts in Hfc as Hc. revert Hfc.
      unfold FirstOrCreate_open_cart. simpl.
      destruct (open_cart db u); by intros [= <- _]. }
    destruct (FirstOrCreate_open_cart false db u) as [e|[tx1 cart]] eqn:Hfc; [|].
    { revert Hfc. unfold FirstOrCreate_open_cart. simpl. by destruct (open_cart db u). }
    unfold First_item. rewrite (Hitems tx1 cart eq_refl). by destruct (f 1%nat).
Qed.

(** X3.  The cart view shows what the checkout charges: when a checkout
    creates an order, a cart view taken just before it shows the cart the
    order refers to, and its total is the total of the order. *)
Theorem cart_view_total_is_order_total (f f' : Faults) (now : Time) (u : nat)
    (db db' : @DB float64) (oid : nat)
    (Hview : f' 0%nat = false)
    (Hco : CreateOrder f now u db = (JSON StatusCreated (OrderCreated oid), db')) :
  ∃ o its,
    last (orders db') = Some o ∧ Order_ID o = oid ∧
    GetUserCart f' u db = CartView (Order_CartID o) its (Total o) ∧
    its = view_line db <$> lines_of db (Order_CartID o) ∧ its ≠ [].
Proof.
  destruct (CreateOrder_cases f now u db)
    as [(code & msg & Heq & _)|(cart & o & Hcart & Hne & Ho & Heq)];
    rewrite Heq in Hco; [done|].
  injection Hco as <- <-. exists o. eexists. simpl. split; [apply last_snoc|].
  split; [done|]. unfold GetUserCart, First_open_cart. rewrite Hview, Hcart.
  subst o. simpl. split; [reflexivity|]. unfold preload_CartItems.
  fold (lines_of db (Cart_ID cart)). rewrite <- list_fmap_compose. split; [done|].
  intros Hnil. apply Hne. by apply fmap_nil_inv in Hnil.
Qed.

Lemma CreateOrder_closes f now u db oid db' :
  one_open_cart db →
  CreateOrder f now u db = (JSON StatusCreated (OrderCreated oid), db') →
  open_cart db' u = None.
Proof.
  intros Hone Hco.
  destruct (CreateOrder_cases f now u db)
    as [(code & msg & Heq & _)|(cart & o & Hcart & _ & _ & Heq)];
    rewrite Heq in Hco; [done|].
  injection Hco as _ <-.
  match goal with |- ?x = None => destruct x as [c'|] eqn:Hc' end; [|done]. exfalso.
  apply open_cart_lookup in Hc' as (i & Hi & Hu' & Ho'). simpl in Hi.
  apply overwrite_open in Hi as [Hi Hne]; [|done].
  apply open_cart_lookup in Hcart as (j & Hj & Hu & Ho).
  assert (i = j) as -> by (eapply Hone; eauto; congruence). congruence.
Qed.

(** X4.  After a checkout that created an order the user has no open
    cart: the cart view answers that there is none, and a second checkout is
    rejected with "no active cart found" and changes nothing, so one cart
    gives one order. *)
Theorem checkout_closes_the_cart (f f' : Faults) (now now' : Time) (u : nat)
    (db db' : @DB float64) (oid : nat)
    (Hone : one_open_cart db) (Hload : f' 0%nat = false)
    (Hco : CreateOrder f now u db = (JSON StatusCreated (OrderCreated oid), db')) :
  open_cart db' u = None ∧
  GetUserCart f' u db' = NoCart ∧
  CreateOrder f' now' u db' = (JSON StatusBadRequest (Error "no active cart found"), db').
Proof.
  pose proof (CreateOrder_closes f now u db oid db' Hone Hco) as Hnone.
  split; [done|]. split.
  - unfold GetUserCart, First_open_cart. by rewrite Hload, Hnone.
  - unfold CreateOrder, First_open_cart, Begin. by rewrite Hload, Hnone.
Qed.

Lemma open_cart_app_new db u cart (cs : list Cart) tx :
  carts tx = cs ++ [cart] → carts db = cs → open_cart db u = None →
  Cart_UserID cart = u → IsCheckedOut cart = false → open_cart tx u = Some cart.
Proof.
  intros Htx Hdb Hnone Hu Hopen. unfold open_cart in *. rewrite Htx.
  destruct (list_find _ (carts db)) as [[i c]|] eqn:E; [done|]. rewrite Hdb in E.
  assert (list_find (fun c => Cart_UserID c = u ∧ IsCheckedOut c = false) (cs ++ [cart])
          = Some (length cs, cart)) as ->; [|done].
  apply list_find_Some. split; [by rewrite lookup_app_r, Nat.sub_diag|]. split; [done|].
  intros j c Hj Hlt. rewrite lookup_app_l in Hj by done.
  apply list_find_None in E. rewrite Forall_forall in E.
  apply E. by eapply list_elem_of_lookup_2.
Qed.

Lemma AddToCart_item f u req db cid db' :
  AddToCart f u req db = (JSON StatusOK (ItemAdded cid), db') →
  ∃ row, find_item db (req_ItemID req) = Some row.
Proof.
  unfold AddToCart, Begin, Rollback. destruct (ShouldBindJSON req); cbn [negb]; [|done].
  unfold FirstOrCreate_open_cart. destruct (f 0%nat); [done|].
  destruct (open_cart db u) as [c|];
    (unfold First_item; destruct (f 1%nat); [done|]);
    unfold find_item; cbn [items set_carts];
    (destruct (list_find _ (items db)) as [[i row]|]; [|done]); intros _; by exists row.
Qed.

Lemma find_cart_item_Some db c i ci :
  find_cart_item db c i = Some ci → CartID ci = c ∧ ItemID ci = i.
Proof.
  unfold find_cart_item. destruct (list_find _ _) as [[k ci']|] eqn:E; [|done].
  intros [= ->]. by apply list_find_Some in E as (_ & ? & _).
Qed.

(** X5.  Adding and viewing: after an add that was answered with 200, the
    cart view of the user shows the cart named in the answer, with a line
    for the item that carries the name and price of its catalog row and the
    requested quantity, added (in 64-bit integers) to the quantity the cart
    already had of it. *)
Theorem add_then_view (f f' : Faults) (u : nat) (req : AddToCartRequest)
    (db db' : @DB float64) (cid : nat)
    (Hwf : wf db) (Hview : f' 0%nat = false)
    (Hadd : AddToCart f u req db = (JSON StatusOK (ItemAdded cid), db')) :
  ∃ its total row line,
    GetUserCart f' u db' = CartView cid its total ∧
    find_item db (req_ItemID req) = Some row ∧
    line ∈ its ∧ item_id line = req_ItemID req ∧
    item_name line = Name row ∧ item_price line = Price row ∧
    item_quantity line =
      match find_cart_item db cid (req_ItemID req) with
      | Some ci => wrap64 (Quantity ci + req_Quantity req)
      | None => req_Quantity req
      end.
Proof.
  destruct (AddToCart_item f u req db cid db' Hadd) as [row Hrow].
  destruct (AddToCart_line f u req db cid db' Hwf Hadd)
    as (tx1 & cart & Hfc & Hcid & Hitems & Hcs & Hm).
  destruct (FirstOrCreate_spec _ _ _ _ Hwf Hfc) as (_ & _ & Hci & _).
  assert (find_cart_item tx1 cid (req_ItemID req) = find_cart_item db cid (req_ItemID req))
    as Hf by (unfold find_cart_item; by rewrite Hci).
  rewrite Hf in Hm.
  assert (open_cart db' u = Some cart) as Hopen.
  { apply FirstOrCreate_carts in Hfc as [[Hc ->]|(Hnone & Hcs' & _ & Hu & Ho)].
    - unfold open_cart in *. by rewrite Hcs.
    - eapply open_cart_app_new; [by rewrite Hcs|done..]. }
  assert (find_item db' (req_ItemID req) = Some row) as Hrow'.
  { unfold find_item in *. by rewrite Hitems. }
  unfold GetUserCart, First_open_cart. rewrite Hview, Hopen, Hcid.
  assert (∀ r, r ∈ cart_items db' → CartID r = cid → ItemID r = req_ItemID req →
               ∃ line, line ∈ item_data <$> preload_CartItems db' cid ∧
                       item_id line = req_ItemID req ∧ item_name line = Name row ∧
                       item_price line = Price row ∧ item_quantity line = Quantity r)
    as Hline.
  { intros r Hr Hc Hi. eexists. split.
    - apply list_elem_of_fmap_2. unfold preload_CartItems. apply list_elem_of_fmap_2.
      apply list_elem_of_filter. split; [exact Hc|exact Hr].
    - simpl. rewrite Hi, Hrow'. done. }
  destruct (find_cart_item db cid (req_ItemID req)) as [ci|] eqn:Hfind.
  - destruct Hm as (i & Hi & Hci').
    apply find_cart_item_Some in Hfind as [Hc Hit].
    destruct (Hline (add_quantity (req_Quantity req) ci)) as (line & Hin & ? & ? & ? & Hq);
      [|done|done|].
    { rewrite Hci'. apply list_elem_of_lookup. exists i.
      apply list_lookup_insert_eq. by eapply lookup_lt_Some. }
    eexists _, _, row, line. split; [done|]. by repeat split.
  - destruct (Hline {| CartItem_ID := S (seq_cart_items db); CartID := cid;
                       ItemID := req_ItemID req; Quantity := req_Quantity req |})
      as (line & Hin & ? & ? & ? & Hq); [|done|done|].
    { rewrite Hm. apply elem_of_app. right. by apply list_elem_of_singleton. }
    eexists _, _, row, line. split; [done|]. by repeat split.
Qed.

(** X6.  The quantity of a line is a Go [int]: a repeated add stores the
    exact sum while it stays below 2^63, and a negative quantity, the sum
    less 2^64, once it does not. *)
Theorem add_quantity_bounds (f : Faults) (u : nat) (req : AddToCartRequest)
    (db db' : @DB float64) (cid : nat) (ci : CartItem)
    (Hwf : wf db) (Hint : is_int64 (Quantity ci))
    (Hadd : AddToCart f u req db = (JSON StatusOK (ItemAdded cid), db'))
    (Hline : find_cart_item db cid (req_ItemID req) = Some ci) :
  ∃ i, cart_items db !! i = Some ci ∧
       Quantity <$> cart_items db' !! i =
         Some (if decide (Quantity ci + req_Quantity req < 2 ^ 63)
               then Quantity ci + req_Quantity req
               else Quantity ci + req_Quantity req - 2 ^ 64) ∧
       (2 ^ 63 <= Quantity ci + req_Quantity req →
        ∃ q, Quantity <$> cart_items db' !! i = Some q ∧ q < 0).
Proof.
  assert (1 <= req_Quantity req < 2 ^ 63) as Hq.
  { revert Hadd. unfold AddToCart. destruct (ShouldBindJSON req) eqn:Hb; [|done].
    intros _. unfold ShouldBindJSON in Hb.
    apply andb_true_iff in Hb as [Hb H2]. apply andb_true_iff in Hb as [_ H1]. lia. }
  destruct (AddToCart_line f u req db cid db' Hwf Hadd)
    as (tx1 & cart & Hfc & Hcid & _ & _ & Hm).
  destruct (FirstOrCreate_spec _ _ _ _ Hwf Hfc) as (_ & _ & Hci & _).
  assert (find_cart_item tx1 cid (req_ItemID req) = Some ci) as Hf
    by (unfold find_cart_item in *; by rewrite Hci).
  rewrite Hf in Hm. destruct Hm as (i & Hi & Hci').
  unfold is_int64 in Hint.
  assert (wrap64 (Quantity ci + req_Quantity req) =
          if decide (Quantity ci + req_Quantity req < 2 ^ 63)
          then Quantity ci + req_Quantity req
          else Quantity ci + req_Quantity req - 2 ^ 64) as Hw.
  { unfold wrap64. destruct (decide _) as [Hlt|Hge].
    - rewrite Z.mod_small; lia.
    - replace (Quantity ci + req_Quantity req + 2 ^ 63)
        with (Quantity ci + req_Quantity req - 2 ^ 63 + 1 * 2 ^ 64) by lia.
      rewrite Z.mod_add by lia. rewrite Z.mod_small; lia. }
  exists i. split; [done|].
  assert (Quantity <$> cart_items db' !! i = Some (wrap64 (Quantity ci + req_Quantity req)))
    as Hrow.
  { rewrite Hci', list_lookup_insert_eq by (by eapply lookup_lt_Some). done. }
  split; [by rewrite Hrow, Hw|]. intros Hover. eexists. split; [exact Hrow|].
  rewrite Hw. rewrite decide_False by lia. lia.
Qed.
End GoMore.

(** ** backend/src: the carts over histories *)
Section SrcMore.
Context {Num : Type} `{Number Num}.
Import Src SrcInv.

Implicit Types (s : @Store Num) (f : Faults) (cart this : @Cart Num).

Lemma updateCartItem_cases f errors u itemId q s resp s' :
  updateCartItem f errors u itemId q s = (resp, s') →
  (s' = s ∧ ∀ body, resp ≠ Res 200 body) ∨
  ∃ itemDoc cart i ci,
    errors = [] ∧ Items s !! cast itemId = Some itemDoc ∧
    less (Some (countInStock itemDoc)) (ToNumber q) = false ∧
    Carts s !! u = Some cart ∧ findIndex itemId (items cart) = Some (i, ci) ∧
    ((less_eq (ToNumber q) (Some 0) = true ∧
      s' = saved_with u cart (delete i (items cart)) s) ∨
     (less_eq (ToNumber q) (Some 0) = false ∧
      ∃ n, castNumber q = Some n ∧
           s' = saved_with u cart (<[i := set_quantity n ci]> (items cart)) s)).
Proof.
  unfold updateCartItem. destruct (bool_decide (errors = [])) eqn:He;
    [|intros [= <- <-]; by left]. apply bool_decide_eq_true in He. cbn [negb].
  destruct (f 0%nat); [intros [= <- <-]; by left|].
  destruct (Items s !! cast itemId) as [itemDoc|] eqn:Hi; [|intros [= <- <-]; by left].
  destruct (less _ (ToNumber q)) eqn:Hq; [intros [= <- <-]; by left|].
  destruct (f 1%nat); [intros [= <- <-]; by left|].
  destruct (Carts s !! u) as [cart|] eqn:Hc; [|intros [= <- <-]; by left].
  destruct (findIndex itemId (items cart)) as [[i ci]|] eqn:Hfind;
    [|intros [= <- <-]; by left]. cbv zeta.
  destruct (less_eq (ToNumber q) (Some 0)) eqn:Hle.
  - unfold save. destruct (f 2%nat); [intros [= <- <-]; by left|].
    intros Hr. right. exists itemDoc, cart, i, ci. split; [done|]. split; [done|].
    split; [done|]. split; [done|]. split; [done|]. left. split; [done|].
    by destruct (f 3%nat); injection Hr as _ <-.
  - destruct (castNumber q) as [n|] eqn:Hcast; simpl; [|intros [= <- <-]; by left].
    unfold save. destruct (f 2%nat); [intros [= <- <-]; by left|].
    intros Hr. right. exists itemDoc, cart, i, ci. split; [done|]. split; [done|].
    split; [done|]. split; [done|]. split; [done|]. right. split; [done|].
    exists n. split; [done|]. by destruct (f 3%nat); injection Hr as _ <-.
Qed.

Lemma removeItemFromCart_cases f u itemId s resp s' :
  removeItemFromCart f u itemId s = (resp, s') →
  (s' = s ∧ ∀ body, resp ≠ Res 200 body) ∨
  ∃ cart i ci,
    Carts s !! u = Some cart ∧ findIndex itemId (items cart) = Some (i, ci) ∧
    s' = saved_with u cart (delete i (items cart)) s.
Proof.
  unfold removeItemFromCart. destruct (f 0%nat); [intros [= <- <-]; by left|].
  destruct (Carts s !! u) as [cart|] eqn:Hc; [|intros [= <- <-]; by left].
  destruct (findIndex itemId (items cart)) as [[i ci]|] eqn:Hfind;
    [|intros [= <- <-]; by left].
  unfold save. destruct (f 1%nat); [intros [= <- <-]; by left|].
  intros Hr. right. exists cart, i, ci. split; [done|]. split; [done|].
  by destruct (f 2%nat); injection Hr as _ <-.
Qed.

Lemma clearCart_cases f u s resp s' :
  clearCart f u s = (resp, s') →
  (s' = s ∧ resp ≠ Res 200 (Message "Cart cleared successfully")) ∨
  ∃ cart, Carts s !! u = Some cart ∧ s' = saved_with u cart [] s ∧
          resp = Res 200 (Message "Cart cleared successfully").
Proof.
  unfold clearCart. destruct (f 0%nat); [intros [= <- <-]; by left|].
  destruct (Carts s !! u) as [cart|] eqn:Hc; [|intros [= <- <-]; by left].
  unfold save. destruct (f 1%nat); [intros [= <- <-]; by left|].
  intros [= <- <-]. right. by exists cart.
Qed.

Lemma getCart_cases f u s resp s' :
  getCart f u s = (resp, s') →
  s' = s ∨
  ∃ cart, Carts s !! u = Some cart ∧
          filter (available s) (items cart) ≠ items cart ∧
          s' = saved_with u cart (filter (available s) (items cart)) s.
Proof.
  unfold getCart. destruct (f 0%nat); [intros [= <- <-]; by left|].
  destruct (Carts s !! u) as [cart|] eqn:Hc; [|intros [= <- <-]; by left].
  destruct (decide _) as [Hl|Hl]; [|intros [= <- <-]; by left].
  unfold save. destruct (f 1%nat); [intros [= <- <-]; by left|].
  intros [= <- <-]. right. exists cart. split; [done|].
  rewrite validItems_available. split; [|done].
  intros Heq. apply Hl. rewrite <- (length_fmap fst), validItems_available, Heq.
  unfold populate. by rewrite length_fmap.
Qed.

Lemma addItemToCart_store f errors u itemId q s resp s' :
  addItemToCart f errors u itemId q s = (resp, s') →
  s' = s ∨
  ∃ itemDoc,
    errors = [] ∧ Items s !! cast itemId = Some itemDoc ∧
    let cart := default newCart (Carts s !! u) in
    match findIndex itemId (items cart) with
    | Some (i, ci) =>
        ∃ n, plus (quantity ci) (default (JNumber 1) q) = Some n ∧
             n <= countInStock itemDoc ∧
             s' = saved_with u cart (<[i := set_quantity n ci]> (items cart)) s
    | None =>
        ∃ n, castNumber (default (JNumber 1) q) = Some n ∧
             n <= countInStock itemDoc ∧
             s' = saved_with u cart
                    (items cart ++
                     [{| item := cast itemId; name := Item_name itemDoc;
                         image := image_or_default (Item_image itemDoc);
                         price := Item_price itemDoc; quantity := n |}]) s
    end.
Proof.
  unfold addItemToCart. destruct (bool_decide (errors = [])) eqn:He;
    [|intros [= <- <-]; by left]. apply bool_decide_eq_true in He. cbn [negb].
  destruct (f 0%nat); [intros [= <- <-]; by left|].
  destruct (Items s !! cast itemId) as [itemDoc|]; [|intros [= <- <-]; by left].
  destruct (less _ (ToNumber _)) eqn:Hstock; [intros [= <- <-]; by left|].
  destruct (f 1%nat); [intros [= <- <-]; by left|]. cbv zeta.
  destruct (findIndex itemId _) as [[i ci]|] eqn:Hfind.
  - destruct (less _ (plus _ _)) eqn:Hq; [intros [= <- <-]; by left|].
    destruct (plus _ _) as [n|] eqn:Hplus; simpl; [|intros [= <- <-]; by left].
    apply less_false in Hq.
    unfold save. destruct (f 2%nat); [intros [= <- <-]; by left|].
    intros Hr. right. exists itemDoc. split; [done|]. split; [done|].
    exists n. split; [done|]. split; [done|]. by destruct (f 3%nat); injection Hr as _ <-.
  - destruct (castNumber _) as [n|] eqn:Hcast; simpl; [|intros [= <- <-]; by left].
    rewrite (castNumber_ToNumber _ _ Hcast) in Hstock. apply less_false in Hstock.
    unfold save. destruct (f 2%nat); [intros [= <- <-]; by left|].
    intros Hr. right. exists itemDoc. split; [done|]. split; [done|].
    exists n. split; [done|]. split; [done|]. by destruct (f 3%nat); injection Hr as _ <-.
Qed.

Lemma isInt_castNumber min q n : isInt min q = true → castNumber q = Some n → min <= n.
Proof.
  destruct q as [m|sg ds].
  - simpl. intros Hm%bool_decide_eq_true [= <-]. done.
  - destruct sg as [[|]|]; destruct ds; cbn [isInt castNumber ToNumber less_eq]; try done;
      by intros Hle%bool_decide_eq_true [= <-].
Qed.

Lemma isInt_plus q m n : isInt 1 q = true → 1 <= m → plus m q = Some n → 1 <= n.
Proof.
  destruct q as [k|[sg|] ds]; simpl.
  - intros Hk%bool_decide_eq_true Hm [= <-]. lia.
  - done.
  - intros _ Hm [= <-]. rewrite bool_decide_eq_false_2 by lia.
    etrans; [exact Hm|]. apply append_digits_le. lia.
Qed.

Lemma elem_of_insert_inv {A} (l : list A) i (x y : A) :
  y ∈ <[i:=x]> l → y = x ∨ y ∈ l.
Proof.
  revert i. induction l as [|a l IH]; intros i; [by right|].
  destruct i as [|i]; simpl.
  - intros [->|?]%elem_of_cons; [by left|]. right. by apply list_elem_of_further.
  - intros [->|Hy]%elem_of_cons; [right; apply list_elem_of_here|].
    destruct (IH i Hy) as [->|?]; [by left|]. right. by apply list_elem_of_further.
Qed.

Lemma saved_with_quantities_ok u cart its s :
  quantities_ok s → (∀ ci, ci ∈ its → 1 <= quantity ci) →
  quantities_ok (saved_with u cart its s).
Proof.
  intros Hok Hits u' cart' ci. unfold saved_with. simpl.
  destruct (decide (u = u')) as [<-|Hne].
  - rewrite lookup_insert_eq. intros [= <-]. apply Hits.
  - rewrite lookup_insert_ne by done. apply Hok.
Qed.

Lemma saved_with_unique_lines u cart its s :
  unique_lines s → NoDup (item <$> its) → unique_lines (saved_with u cart its s).
Proof.
  intros Hok Hits u' cart'. unfold saved_with. simpl.
  destruct (decide (u = u')) as [<-|Hne].
  - rewrite lookup_insert_eq. by intros [= <-].
  - rewrite lookup_insert_ne by done. apply Hok.
Qed.

Lemma default_newCart_quantities u s ci :
  quantities_ok s → ci ∈ items (default newCart (Carts s !! u)) → 1 <= quantity ci.
Proof.
  intros Hok. destruct (Carts s !! u) as [cart|] eqn:Hc; simpl.
  - by apply (Hok u cart ci).
  - by intros ?%elem_of_nil.
Qed.

Lemma step_quantities_ok s op : routed op → quantities_ok s → quantities_ok (step s op).
Proof.
  intros Hr Hok. destruct op as [f u|f errors u i q|f errors u i q|f u i|f u|its]; simpl.
  - destruct (getCart f u s) as [resp s'] eqn:Hg. simpl.
    apply getCart_cases in Hg as [->|(cart & Hc & _ & ->)]; [done|].
    apply saved_with_quantities_ok; [done|].
    intros ci [_ Hin]%list_elem_of_filter. by apply (Hok u cart ci).
  - destruct (addItemToCart f errors u i q s) as [resp s'] eqn:Ha. simpl.
    apply addItemToCart_store in Ha as [->|(itemDoc & He & Hi & Hm)]; [done|].
    simpl in Hr. rewrite He in Hr. simpl in Hm.
    assert (isInt 1 (default (JNumber 1) q) = true) as Hq.
    { destruct q as [q|]; simpl; [|done]. unfold check_add in Hr.
      by destruct (isInt 1 q). }
    pose proof (default_newCart_quantities u s) as Hold.
    destruct (findIndex i _) as [[k ci]|] eqn:Hfind.
    + destruct Hm as (n & Hn & _ & ->). apply saved_with_quantities_ok; [done|].
      intros ci' [->|Hin]%elem_of_insert_inv; [|by apply Hold].
      simpl. apply findIndex_Some in Hfind as [Hk _].
      pose proof (Hold ci Hok (list_elem_of_lookup_2 _ _ _ Hk)).
      by eapply isInt_plus.
    + destruct Hm as (n & Hn & _ & ->). apply saved_with_quantities_ok; [done|].
      intros ci' [Hin| ->%list_elem_of_singleton]%elem_of_app; [by apply Hold|].
      simpl. by eapply isInt_castNumber.
  - destruct (updateCartItem f errors u i q s) as [resp s'] eqn:Hu. simpl.
    apply updateCartItem_cases in Hu
      as [[-> _]|(itemDoc & cart & k & ci & He & _ & _ & Hc & Hfind & Hs)]; [done|].
    destruct Hs as [[_ ->]|(Hle & n & Hn & ->)]; apply saved_with_quantities_ok; try done.
    + intros ci' Hin%list_elem_of_delete_inv. by apply (Hok u cart ci').
    + rewrite (castNumber_ToNumber _ _ Hn) in Hle. simpl in Hle.
      apply bool_decide_eq_false in Hle.
      intros ci' [->|Hin]%elem_of_insert_inv; [simpl; lia|by apply (Hok u cart ci')].
  - destruct (removeItemFromCart f u i s) as [resp s'] eqn:Hu. simpl.
    apply removeItemFromCart_cases in Hu as [[-> _]|(cart & k & ci & Hc & _ & ->)]; [done|].
    apply saved_with_quantities_ok; [done|].
    intros ci' Hin%list_elem_of_delete_inv. by apply (Hok u cart ci').
  - destruct (clearCart f u s) as [resp s'] eqn:Hu. simpl.
    apply clearCart_cases in Hu as [[-> _]|(cart & Hc & -> & _)]; [done|].
    apply saved_with_quantities_ok; [done|]. by intros ci' ?%elem_of_nil.
  - done.
Qed.

(** X7.  Every line of every stored cart keeps a quantity of at least 1,
    over every history of cart handler calls that came through their routes
    (whatever the storage errors) and of catalog changes: an add of less
    than 1 is refused by the route, a repeated add only raises a quantity,
    and an update to 0 or less removes the line instead of storing it. *)
Theorem quantities_stay_positive (ops : list (@Op Num)) (s : Store)
    (Hrouted : Forall routed ops) (Hok : quantities_ok s) :
  quantities_ok (run ops s).
Proof.
  revert s Hok. induction Hrouted as [|op ops Hr _ IH]; intros s Hok; [done|].
  simpl. apply IH. by apply step_quantities_ok.
Qed.

Lemma step_unique_lines s op :
  lower_case_add op → unique_lines s → unique_lines (step s op).
Proof.
  intros Hl Hok. destruct op as [f u|f errors u i q|f errors u i q|f u i|f u|its]; simpl.
  - destruct (getCart f u s) as [resp s'] eqn:Hg. simpl.
    apply getCart_cases in Hg as [->|(cart & Hc & _ & ->)]; [done|].
    apply saved_with_unique_lines; [done|].
    eapply sublist_NoDup; [by apply (Hok u cart)|]. apply fmap_sublist, sublist_filter.
  - destruct (addItemToCart f errors u i q s) as [resp s'] eqn:Ha. simpl.
    apply addItemToCart_store in Ha as [->|(itemDoc & He & Hi & Hm)]; [done|].
    simpl in Hm, Hl.
    assert (NoDup (item <$> items (default newCart (Carts s !! u)))) as Hnd.
    { destruct (Carts s !! u) as [cart|] eqn:Hc; simpl; [by apply (Hok u)|apply NoDup_nil_2]. }
    destruct (findIndex i _) as [[k ci]|] eqn:Hfind.
    + destruct Hm as (n & _ & _ & ->). apply saved_with_unique_lines; [done|].
      apply findIndex_Some in Hfind as [Hk _].
      rewrite list_fmap_insert. simpl. rewrite list_insert_id; [done|].
      by rewrite list_lookup_fmap, Hk.
    + destruct Hm as (n & _ & _ & ->). apply saved_with_unique_lines; [done|].
      rewrite fmap_app. apply NoDup_app. split; [done|].
      split; [|apply NoDup_singleton]. intros k Hk ->%list_elem_of_singleton.
      by apply findIndex_None in Hfind.
  - destruct (updateCartItem f errors u i q s) as [resp s'] eqn:Hu. simpl.
    apply updateCartItem_cases in Hu
      as [[-> _]|(itemDoc & cart & k & ci & He & _ & _ & Hc & Hfind & Hs)]; [done|].
    apply findIndex_Some in Hfind as [Hk _].
    destruct Hs as [[_ ->]|(_ & n & _ & ->)]; apply saved_with_unique_lines; try done.
    + eapply sublist_NoDup; [by apply (Hok u cart)|]. apply fmap_sublist, sublist_delete.
    + rewrite list_fmap_insert. simpl. rewrite list_insert_id; [by apply (Hok u)|].
      by rewrite list_lookup_fmap, Hk.
  - destruct (removeItemFromCart f u i s) as [resp s'] eqn:Hu. simpl.
    apply removeItemFromCart_cases in Hu as [[-> _]|(cart & k & ci & Hc & _ & ->)]; [done|].
    apply saved_with_unique_lines; [done|].
    eapply sublist_NoDup; [by apply (Hok u cart)|]. apply fmap_sublist, sublist_delete.
  - destruct (clearCart f u s) as [resp s'] eqn:Hu. simpl.
    apply clearCart_cases in Hu as [[-> _]|(cart & Hc & -> & _)]; [done|].
    apply saved_with_unique_lines; [done|]. apply NoDup_nil_2.
  - done.
Qed.

Lemma run_unique_lines ops s :
  Forall lower_case_add ops → unique_lines s → unique_lines (run ops s).
Proof.
  intros Hops. revert s. induction Hops as [|op ops Hop _ IH]; intros s Hok; [done|].
  simpl. apply IH. by apply step_unique_lines.
Qed.

(** X8.  Lines stay unique as long as the adds name their items in lower
    case.  Over every history of cart handler calls (valid or not, whatever
    the storage errors) and of catalog changes in which every add names its
    item by the lower-case spelling of the id, no stored cart ever gets two
    lines for one item.  An add that names, in another spelling, an item
    the cart already has a line of, and is answered with 201, appends a
    second line for that item: [findById] finds the item and [findIndex]
    misses its line. *)
Theorem lines_stay_unique :
  (∀ (ops : list (@Op Num)) (s : Store),
     Forall lower_case_add ops → unique_lines s → unique_lines (run ops s)) ∧
  (∀ f errors u itemId q (s : @Store Num) body s' cart,
     lower_case itemId = false →
     Carts s !! u = Some cart → cast itemId ∈ item <$> items cart →
     addItemToCart f errors u itemId q s = (Res 201 body, s') →
     ∃ cart' line,
       Carts s' !! u = Some cart' ∧ items cart' = items cart ++ [line] ∧
       item line = cast itemId ∧ ¬ NoDup (item <$> items cart')).
Proof.
  split; [exact run_unique_lines|].
  intros f errors u itemId q s body s' cart Hl Hc Hin Ha.
  apply addItemToCart_cases in Ha
    as [[_ Hne]|(itemDoc & cart' & Hi & _ & Hc' & _ & Hits)]; [by destruct (Hne body)|].
  rewrite Hc in Hits. simpl in Hits. rewrite (findIndex_other_case _ _ Hl) in Hits.
  destruct Hits as (n & _ & _ & Hits).
  eexists cart', _. split; [by rewrite Hc', lookup_insert_eq|]. split; [exact Hits|].
  split; [done|]. rewrite Hits, fmap_app. intros (_ & Hdisj & _)%NoDup_app.
  apply (Hdisj _ Hin). simpl. apply list_elem_of_here.
Qed.

Lemma held_NoDup (its : list (@CartItem Num)) line :
  NoDup (item <$> its) → line ∈ its → held (item line) its = quantity line.
Proof.
  induction its as [|ci its IH]; [by intros _ ?%elem_of_nil|].
  rewrite fmap_cons. intros [Hni Hnd]%NoDup_cons [->|Hin]%elem_of_cons; simpl.
  - rewrite decide_True by done.
    assert (held (item ci) its = 0) as ->; [|lia].
    clear -Hni. induction its as [|a its IH]; [done|]. simpl.
    rewrite fmap_cons in Hni. apply not_elem_of_cons in Hni as [Hne Hni].
    rewrite decide_False by done. by apply IH.
  - rewrite decide_False; [by apply IH|].
    intros Heq. apply Hni. rewrite Heq. by apply list_elem_of_fmap_2.
Qed.

(** X9.  Stock is enforced on what is stored, for requests in lower-case
    spelling on carts without repeated items: after an add answered with
    201 the cart holds the item in one line, and of the item, the earlier
    quantity included, at most the stock the catalog has for it; after an
    update answered with 200 to a positive quantity the cart holds of the
    item exactly that quantity, which is at most the stock.  A request for
    more than the stock is answered with 400 and writes nothing. *)
Theorem stored_quantity_within_stock :
  (∀ f errors u itemId q (s : @Store Num) body s',
     lower_case itemId = true → unique_lines s →
     addItemToCart f errors u itemId q s = (Res 201 body, s') →
     ∃ itemDoc cart' line,
       Items s !! cast itemId = Some itemDoc ∧ Carts s' !! u = Some cart' ∧
       line ∈ items cart' ∧ item line = cast itemId ∧
       held (cast itemId) (items cart') = quantity line ∧
       match findIndex itemId (items (default newCart (Carts s !! u))) with
       | Some (_, ci) => plus (quantity ci) (default (JNumber 1) q) = Some (quantity line)
       | None => castNumber (default (JNumber 1) q) = Some (quantity line)
       end ∧
       held (cast itemId) (items cart') <= countInStock itemDoc) ∧
  (∀ f errors u itemId q n (s : @Store Num) body s',
     unique_lines s →
     updateCartItem f errors u itemId q s = (Res 200 body, s') →
     ToNumber q = Some n → 0 < n →
     ∃ itemDoc cart' line,
       Items s !! cast itemId = Some itemDoc ∧ Carts s' !! u = Some cart' ∧
       line ∈ items cart' ∧ item line = cast itemId ∧ quantity line = n ∧
       held (cast itemId) (items cart') = n ∧ n <= countInStock itemDoc) ∧
  (∀ f u itemId q n (s : @Store Num) itemDoc,
     f 0%nat = false → Items s !! cast itemId = Some itemDoc →
     ToNumber q = Some n → countInStock itemDoc < n →
     addItemToCart f [] u itemId (Some q) s
       = (Res 400 (OnlyInStock (countInStock itemDoc)), s) ∧
     updateCartItem f [] u itemId q s
       = (Res 400 (OnlyInStock (countInStock itemDoc)), s)).
Proof.
  split; [|split].
  - intros f errors u itemId q s body s' Hl Huniq Ha.
    pose proof (addItemToCart_unique f errors u itemId q s) as Hnd.
    rewrite Ha in Hnd. simpl in Hnd.
    apply addItemToCart_cases in Ha
      as [[_ Hne]|(itemDoc & cart' & Hi & _ & Hc & _ & Hits)]; [by destruct (Hne body)|].
    assert (Carts s' !! u = Some cart') as Hc' by (by rewrite Hc, lookup_insert_eq).
    specialize (Hnd cart' Hl (Huniq u) Hc').
    exists itemDoc, cart'. cbv zeta in Hits.
    destruct (findIndex itemId _) as [[i ci]|] eqn:Hfind.
    + destruct Hits as (n & Hn & Hle & Hits).
      apply findIndex_Some in Hfind as (Hk & Hitem & _).
      assert (set_quantity n ci ∈ items cart') as Hin.
      { rewrite Hits. apply list_elem_of_insert. by eapply lookup_lt_Some. }
      assert (held (cast itemId) (items cart') = n) as Hheld.
      { rewrite <- Hitem. change (item ci) with (item (set_quantity n ci)).
        by rewrite (held_NoDup _ _ Hnd Hin). }
      exists (set_quantity n ci). split; [done|]. split; [done|]. split; [done|].
      split; [done|]. rewrite Hheld. done.
    + destruct Hits as (n & Hn & Hle & Hits).
      set (line := {| item := cast itemId; name := Item_name itemDoc;
                      image := image_or_default (Item_image itemDoc);
                      price := Item_price itemDoc; quantity := n |}) in *.
      assert (line ∈ items cart') as Hin.
      { rewrite Hits. apply elem_of_app. right. by apply list_elem_of_singleton. }
      assert (held (cast itemId) (items cart') = n) as Hheld.
      { change (cast itemId) with (item line). by rewrite (held_NoDup _ _ Hnd Hin). }
      exists line. split; [done|]. split; [done|]. split; [done|]. split; [done|].
      rewrite Hheld. done.
  - intros f errors u itemId q n s body s' Huniq Hu Hn Hpos.
    apply updateCartItem_cases in Hu
      as [[_ Hne]|(itemDoc & cart & k & ci & He & Hi & Hstock & Hc & Hfind & Hs)];
      [by destruct (Hne body)|].
    rewrite Hn in Hstock. apply less_false in Hstock.
    apply findIndex_Some in Hfind as (Hk & Hitem & _).
    destruct Hs as [[Hle _]|(_ & m & Hm & ->)].
    { rewrite Hn in Hle. simpl in Hle. apply bool_decide_eq_true in Hle. lia. }
    rewrite (castNumber_ToNumber _ _ Hm) in Hn. injection Hn as ->.
    assert (set_quantity n ci ∈ <[k := set_quantity n ci]> (items cart)) as Hin.
    { apply list_elem_of_insert. by eapply lookup_lt_Some. }
    assert (NoDup (item <$> <[k := set_quantity n ci]> (items cart))) as Hnd.
    { rewrite list_fmap_insert. simpl. rewrite list_insert_id; [by apply (Huniq u)|].
      by rewrite list_lookup_fmap, Hk. }
    exists itemDoc. eexists. exists (set_quantity n ci). split; [done|].
    split; [unfold saved_with; simpl; by rewrite lookup_insert_eq|]. simpl.
    split; [done|]. split; [done|]. split; [done|]. split; [|done].
    rewrite <- Hitem. change (item ci) with (item (set_quantity n ci)).
    by rewrite (held_NoDup _ _ Hnd Hin).
  - intros f u itemId q n s itemDoc Hf Hi Hn Hq. split.
    + unfold addItemToCart. simpl. rewrite Hf, Hi, Hn. simpl.
      by rewrite bool_decide_eq_true_2.
    + unfold updateCartItem. simpl. rewrite Hf, Hi, Hn. simpl.
      by rewrite bool_decide_eq_true_2.
Qed.

Lemma filter_filter_same {A} (P : A → Prop) `{∀ a, Decision (P a)} (l : list A) :
  filter P (filter P l) = filter P l.
Proof.
  induction l as [|a l IH]; [done|]. rewrite filter_cons.
  destruct (decide (P a)) as [Hp|Hp]; [|done].
  by rewrite filter_cons, decide_True, IH.
Qed.

(** X10.  The cart view writes at most once: a view whose read and save
    did not fail leaves a store on which a second view of the same cart,
    whatever its storage errors, writes nothing.  A view of a cart whose
    lines are all available, or of a user without a cart, writes nothing at
    all. *)
Theorem getCart_writes_once (f f' : Faults) (u : nat) (s : @Store Num)
    (Hfind : f 0%nat = false) (Hsave : f 1%nat = false) :
  (getCart f' u (getCart f u s).2).2 = (getCart f u s).2 ∧
  ((∀ cart ci, Carts s !! u = Some cart → ci ∈ items cart → available s ci) →
   (getCart f u s).2 = s).
Proof.
  assert (∀ s1 cart1, Carts s1 !! u = Some cart1 →
            filter (available s1) (items cart1) = items cart1 →
            (getCart f' u s1).2 = s1) as Hstable.
  { intros s1 cart1 Hc1 Hall. destruct (getCart f' u s1) as [resp s2] eqn:Hg. simpl.
    apply getCart_cases in Hg as [->|(c & Hc & Hne & _)]; [done|].
    rewrite Hc1 in Hc. injection Hc as <-. done. }
  destruct (Carts s !! u) as [cart|] eqn:Hc.
  - destruct (getCart_store f u s cart Hfind Hsave Hc) as [Hsame Hprune]. split.
    + destruct (getCart f u s) as [resp s1] eqn:Hg. simpl.
      apply getCart_cases in Hg as Hcases. destruct Hcases as [->|(c & Hc' & Hne & ->)].
      * destruct (getCart f' u s) as [resp2 s2] eqn:Hg2. simpl.
        apply getCart_cases in Hg2 as [->|(c & Hc' & Hne & _)]; [done|].
        rewrite Hc in Hc'. injection Hc' as <-.
        destruct (Hprune Hne) as [body Hg']. injection Hg' as _ Hs.
        exfalso. apply Hne. apply (f_equal (fun st => items <$> Carts st !! u)) in Hs.
        simpl in Hs. rewrite Hc, lookup_insert_eq in Hs. simpl in Hs. by injection Hs.
      * rewrite Hc in Hc'. injection Hc' as <-.
        eapply Hstable; [unfold saved_with; simpl; apply lookup_insert_eq|].
        simpl. apply filter_filter_same.
    + intros Hall. assert (filter (available s) (items cart) = items cart) as Heq.
      { specialize (Hall cart). assert (∀ ci, ci ∈ items cart → available s ci) as Hall'
          by (intros ci; by apply Hall).
        clear -Hall'. induction (items cart) as [|ci l IH]; [done|]. rewrite filter_cons.
        rewrite decide_True by (apply Hall', list_elem_of_here).
        f_equal. apply IH. intros ci' Hin. apply Hall'.
        by apply list_elem_of_further. }
      by rewrite (Hsame Heq).
  - assert (∀ g, (getCart g u s).2 = s) as Hnone.
    { intros g. unfold getCart. rewrite Hc. by destruct (g 0%nat). }
    split; [by rewrite !Hnone|]. intros _. apply Hnone.
Qed.

Lemma NoDup_delete_notin {A} (l : list A) i x :
  NoDup l → l !! i = Some x → x ∉ delete i l.
Proof.
  revert i. induction l as [|a l IH]; intros i Hnd Hi; [done|].
  apply NoDup_cons in Hnd as [Ha Hnd]. destruct i as [|i]; simpl in *.
  - by injection Hi as ->.
  - intros [->|Hin]%elem_of_cons.
    + apply Ha. by eapply list_elem_of_lookup_2.
    + by apply (IH i).
Qed.

Lemma findIndex_notin itemId (its : list (@CartItem Num)) :
  lower_case itemId = false ∨ cast itemId ∉ item <$> its → findIndex itemId its = None.
Proof.
  intros Hn. apply list_find_None. apply Forall_forall. intros ci Hin [Hl Heq].
  destruct Hn as [Hn|Hn]; [congruence|].
  apply Hn. rewrite <- Heq. by apply list_elem_of_fmap_2.
Qed.

(** X11.  Removing a line: a remove for an item the cart has no line of,
    or one that spells the id in another case than lower case, is answered
    with 404 "Item not found in cart" and writes nothing.  After a remove
    answered with 200 on a cart without repeated items, the cart has its
    other lines, in order, and no line of the item, so that the same remove
    sent again is answered with 404: the handler is not idempotent for its
    caller. *)
Theorem removeItem_then_not_found :
  (∀ f u itemId (s : @Store Num) cart,
     f 0%nat = false → Carts s !! u = Some cart →
     lower_case itemId = false ∨ cast itemId ∉ (item <$> items cart) →
     removeItemFromCart f u itemId s = (Res 404 (Message "Item not found in cart"), s)) ∧
  (∀ f f' u itemId (s : @Store Num) body s',
     unique_lines s → f' 0%nat = false →
     removeItemFromCart f u itemId s = (Res 200 body, s') →
     (∃ cart cart' i ci,
        Carts s !! u = Some cart ∧ items cart !! i = Some ci ∧ item ci = cast itemId ∧
        Carts s' !! u = Some cart' ∧ items cart' = delete i (items cart) ∧
        cast itemId ∉ (item <$> items cart')) ∧
     removeItemFromCart f' u itemId s' = (Res 404 (Message "Item not found in cart"), s')).
Proof.
  assert (∀ f u itemId (s : @Store Num) cart,
     f 0%nat = false → Carts s !! u = Some cart →
     lower_case itemId = false ∨ cast itemId ∉ (item <$> items cart) →
     removeItemFromCart f u itemId s = (Res 404 (Message "Item not found in cart"), s))
    as Habsent.
  { intros f u itemId s cart Hf Hc Hn. unfold removeItemFromCart.
    by rewrite Hf, Hc, (findIndex_notin _ _ Hn). }
  split; [exact Habsent|].
  intros f f' u itemId s body s' Huniq Hf' Hr.
  apply removeItemFromCart_cases in Hr as [[_ Hne]|(cart & i & ci & Hc & Hfind & ->)];
    [by destruct (Hne body)|].
  apply findIndex_Some in Hfind as (Hi & Hitem & _).
  assert (cast itemId ∉ (item <$> delete i (items cart))) as Hgone.
  { rewrite list_fmap_delete. apply NoDup_delete_notin; [by apply (Huniq u)|].
    by rewrite list_lookup_fmap, Hi, <- Hitem. }
  split.
  - eexists cart, _, i, ci. split; [done|]. split; [done|]. split; [done|].
    split; [unfold saved_with; simpl; apply lookup_insert_eq|]. by split.
  - eapply Habsent; [done|unfold saved_with; simpl; apply lookup_insert_eq|by right].
Qed.

(** X12.  Add and remove cancel: on a stored cart with its totals in order
    and no line for the item, an add answered with 201 followed by a remove
    of the same item answered with 200 brings back the store as it was. *)
Theorem add_then_remove (f f' : Faults) (errors : list string) (u : nat) (itemId : ItemId)
    (q : option Quantity) (s s1 s2 : @Store Num) (cart : Cart) (body1 body2 : Body)
    (Hcart : Carts s !! u = Some cart) (Htotals : cart = preSave cart)
    (Hfresh : cast itemId ∉ (item <$> items cart))
    (Hadd : addItemToCart f errors u itemId q s = (Res 201 body1, s1))
    (Hrem : removeItemFromCart f' u itemId s1 = (Res 200 body2, s2)) :
  s2 = s.
Proof.
  assert (findIndex itemId (items cart) = None) as Hnone
    by (apply findIndex_notin; by right).
  apply addItemToCart_store in Hadd as Hs1.
  destruct Hs1 as [->|(itemDoc & _ & _ & Hm)].
  { apply addItemToCart_cases in Hadd as [[_ Hne]|(? & c' & _ & _ & Hc & _ & Hits)];
      [by destruct (Hne body1)|].
    exfalso. rewrite Hcart in Hits. simpl in Hits. rewrite Hnone in Hits.
    destruct Hits as (n & _ & _ & Hits).
    apply (f_equal (fun m => items <$> m !! u)) in Hc.
    rewrite Hcart, lookup_insert_eq in Hc. simpl in Hc. injection Hc as Hc.
    rewrite Hits in Hc. apply (f_equal length) in Hc. rewrite length_app in Hc.
    simpl in Hc. lia. }
  rewrite Hcart in Hm. simpl in Hm. rewrite Hnone in Hm.
  destruct Hm as (n & _ & _ & ->).
  apply removeItemFromCart_cases in Hrem as [[_ Hne]|(c1 & i & ci & Hc1 & Hfind & ->)];
    [by destruct (Hne body2)|].
  unfold saved_with in Hc1. simpl in Hc1. rewrite lookup_insert_eq in Hc1.
  injection Hc1 as <-. simpl in Hfind.
  assert (i = length (items cart)) as ->.
  { apply list_find_Some in Hfind as (Hi & [_ Hitem] & Hmin).
    destruct (decide (i < length (items cart))%nat) as [Hlt|Hge].
    - exfalso. apply Hfresh. rewrite lookup_app_l in Hi by done. rewrite <- Hitem.
      apply list_elem_of_fmap_2. by eapply list_elem_of_lookup_2.
    - apply lookup_lt_Some in Hi. rewrite length_app in Hi. simpl in Hi. lia. }
  unfold saved_with. simpl.
  assert (delete (length (items cart)) (items cart ++
            [{| item := cast itemId; name := Item_name itemDoc;
                image := image_or_default (Item_image itemDoc);
                price := Item_price itemDoc; quantity := n |}]) = items cart)
    as ->.
  { clear. induction (items cart) as [|a l IH]; [done|]. simpl. by rewrite IH. }
  rewrite insert_insert_eq.
  change (preSave (set_items (items cart) _)) with (preSave cart).
  rewrite <- Htotals, insert_id by done. by destruct s.
Qed.

(** X13.  Clearing keeps the cart: a clear answered with 200 stores the
    cart of the user with no lines and both totals at 0, and touches no other
    cart and no item; the next view answers with the empty cart and writes
    nothing.  Without a cart the clear is answered with 404 and writes
    nothing. *)
Theorem clearCart_empties :
  (∀ f f' u (s : @Store Num) s',
     clearCart f u s = (Res 200 (Message "Cart cleared successfully"), s') →
     f' 0%nat = false →
     Carts s' = <[u := {| items := []; totalPrice := fromInt 0; totalItems := 0 |}]> (Carts s) ∧
     Items s' = Items s ∧
     getCart f' u s' = (Res 200 (CartBody [] 0 (fromInt 0)), s')) ∧
  (∀ f u (s : @Store Num),
     f 0%nat = false → Carts s !! u = None →
     clearCart f u s = (Res 404 (Message "Cart not found"), s)).
Proof.
  split.
  - intros f f' u s s' Hc Hf'.
    apply clearCart_cases in Hc as [[_ Hne]|(cart & Hc & -> & _)]; [done|].
    unfold saved_with. simpl. split; [done|]. split; [done|].
    unfold getCart. simpl. rewrite Hf', lookup_insert_eq. simpl.
    done.
  - intros f u s Hf Hc. unfold clearCart. by rewrite Hf, Hc.
Qed.

(** X14.  The model method [removeItemFromCart] is idempotent: it stores
    the cart without any line of the item, also when there was none, and
    called again on the result it stores the same cart and gives the same
    store. *)
Theorem Cart_removeItemFromCart_idempotent (u itemId : nat) (this this1 : @Cart Num)
    (s s1 : Store)
    (Hrem : Cart_removeItemFromCart false u itemId this s = Some (this1, s1)) :
  items this1 = filter (fun i => item i ≠ itemId) (items this) ∧
  (itemId ∉ item <$> items this1) ∧
  Carts s1 !! u = Some this1 ∧
  Cart_removeItemFromCart false u itemId this1 s1 = Some (this1, s1).
Proof.
  unfold Cart_removeItemFromCart, save in *. injection Hrem as <- <-. simpl.
  split; [done|]. split.
  { intros (l & Hl & [Hne _]%list_elem_of_filter)%list_elem_of_fmap. by apply Hne. }
  split; [apply lookup_insert_eq|].
  rewrite insert_insert_eq. unfold preSave, set_items. simpl.
  by rewrite !filter_filter_same.
Qed.

Lemma append_digits_shift n ds :
  0 <= n → ds ≠ Decimal.Nil → 10 * n <= append_digits n ds.
Proof.
  intros Hn Hds. destruct ds; [done|..]; simpl;
    (etrans; [|apply append_digits_le; lia]); lia.
Qed.

(** X22.  A quantity sent as a string is appended, not added.  The route
    takes a string of digits for an integer and hands it on as it is; on a
    cart that has a line of the item, an add answered with 201 stores the
    number written by the digits of the earlier quantity followed by the
    digits sent, which is at least ten times the earlier quantity.  The
    stock check is made on that number. *)
Theorem string_quantity_is_appended (f : Faults) (u : nat) (itemId : ItemId)
    (ds : Decimal.uint) (s s' : @Store Num) (body : Body) (cart : Cart) (i : nat)
    (ci : CartItem)
    (Hcart : Carts s !! u = Some cart)
    (Hline : findIndex itemId (items cart) = Some (i, ci))
    (Hsome : 0 <= quantity ci) (Hdigits : ds ≠ Decimal.Nil)
    (Hadd : addItemToCart f [] u itemId (Some (JString None ds)) s = (Res 201 body, s')) :
  ∃ itemDoc cart',
    Items s !! cast itemId = Some itemDoc ∧ Carts s' !! u = Some cart' ∧
    items cart' = <[i := set_quantity (append_digits (quantity ci) ds) ci]> (items cart) ∧
    10 * quantity ci <= append_digits (quantity ci) ds <= countInStock itemDoc.
Proof.
  apply addItemToCart_cases in Hadd
    as [[_ Hne]|(itemDoc & cart' & Hi & _ & Hc & _ & Hits)]; [by destruct (Hne body)|].
  rewrite Hcart in Hits. simpl in Hits. rewrite Hline in Hits.
  destruct Hits as (n & Hn & Hle & Hits).
  rewrite bool_decide_eq_false_2 in Hn by lia. injection Hn as <-.
  exists itemDoc, cart'. split; [done|]. split; [by rewrite Hc, lookup_insert_eq|].
  split; [done|]. split; [by apply append_digits_shift|done].
Qed.

(** X23.  An update that spells the id of its item in another case than
    lower case never finds the line: with the item in the catalog, the
    quantity within the stock and a cart for the user, it is answered with
    404 "Item not found in cart" and writes nothing, whether or not the cart
    has a line of the item. *)
Theorem updateCartItem_other_case (f : Faults) (u : nat) (itemId : ItemId) (q : Quantity)
    (s : @Store Num) (itemDoc : Item) (cart : Cart)
    (Hcase : lower_case itemId = false)
    (Hfind : f 0%nat = false) (Hload : f 1%nat = false)
    (Hitem : Items s !! cast itemId = Some itemDoc)
    (Hstock : less (Some (countInStock itemDoc)) (ToNumber q) = false)
    (Hcart : Carts s !! u = Some cart) :
  updateCartItem f [] u itemId q s = (Res 404 (Message "Item not found in cart"), s).
Proof.
  unfold updateCartItem. rewrite bool_decide_eq_true_2 by done. cbn [negb].
  rewrite Hfind, Hitem, Hstock, Hload, Hcart.
  by rewrite (findIndex_other_case _ _ Hcase).
Qed.
End SrcMore.

(** ** backend: orders and the inventory *)
Section V1More.
Import V1 V1Inv.
Context {Num : Type} `{Number Num}.
Variable orderPreSave : @Order Num → @Order Num.

Lemma dbItems_in_stock docs (s : @Store Num) ois r s' :
  dbItems docs s ois = (r, s') → in_stock (Products s) → in_stock (Products s').
Proof.
  revert docs s r s'. induction ois as [|req rest IH]; intros docs s r s'; simpl.
  - by intros [= _ <-].
  - destruct (docs !! product req) as [p|] eqn:Hp; [|by intros [= _ <-]].
    destruct (bool_decide _) eqn:Hlt; [by intros [= _ <-]|].
    apply bool_decide_eq_false in Hlt.
    destruct (dbItems _ _ rest) as [[e|lines] s''] eqn:Hrest; intros [= _ <-] Hok;
      (eapply IH; [exact Hrest|]); cbn [Products set_Products];
      intros id p' [[<- <-]|[_ Hp']]%lookup_insert_Some; simpl; try lia;
      by apply (Hok id).
Qed.

Lemma createOrder_in_stock f u body (s : @Store Num) :
  in_stock (Products s) → in_stock (Products (createOrder orderPreSave f u body s).2).
Proof.
  intros Hok. unfold createOrder. destruct (orderItems body) as [[|req rest]|]; [done| |done].
  destruct (f 0%nat); [done|].
  destruct (dbItems _ s (req :: rest)) as [[e|lines] s''] eqn:Hdb.
  - simpl. by eapply dbItems_in_stock.
  - destruct (f 1%nat); simpl; by eapply dbItems_in_stock.
Qed.

(** X15.  The Express order handler never leaves a negative inventory:
    over any history of order requests, whatever quantities they name and
    whether they are accepted, rejected half way or fail on storage, and of
    catalog replacements that put no negative inventory, every product keeps
    an inventory of at least 0. *)
Theorem inventory_never_negative (ops : list (@Op Num)) (s : @Store Num)
    (Hops : Forall restocks ops) (Hok : in_stock (Products s)) :
  in_stock (Products (run orderPreSave ops s)).
Proof.
  revert s Hok. induction Hops as [|op ops Hop _ IH]; intros s Hok; [done|].
  unfold run. simpl. apply IH. destruct op as [f u body|ps]; simpl.
  - by apply createOrder_in_stock.
  - exact Hop.
Qed.



(** X17.  Orders are private.  The order view answers a user who is not an
    administrator with an order only when it is the stored order of that id
    and belongs to that user; for a stored order of somebody else the answer
    is the 401 error.  The order history of a user holds exactly the stored
    orders of that user, in the order of the collection. *)
Theorem orders_are_private :
  (∀ f u id (s : @Store Num) o,
     getOrderById f u false id s = Res 200 (OrderBody o) →
     o ∈ Orders s ∧ _id o = id ∧ o_user o = u) ∧
  (∀ f u (s : @Store Num) o,
     stored o s → f 0%nat = false → o_user o ≠ u →
     getOrderById f u false (_id o) s
       = Next (ErrorResponse "Not authorized to view this order" 401)) ∧
  (∀ f u (s : @Store Num) os,
     getMyOrders f u s = Res 200 (OrdersBody os) →
     os `sublist_of` Orders s ∧ ∀ o, o ∈ os ↔ o ∈ Orders s ∧ o_user o = u).
Proof.
  split; [|split].
  - intros f u id s o. unfold getOrderById. destruct (f 0%nat); [done|].
    destruct (list_find _ _) as [[i o']|] eqn:Hfind; [|done].
    apply list_find_Some in Hfind as (Hi & Hid & _).
    destruct (bool_decide (o_user o' ≠ u)) eqn:Hu; simpl; [done|].
    apply bool_decide_eq_false in Hu. intros [= <-].
    split; [by eapply list_elem_of_lookup_2|]. split; [done|].
    by destruct (decide (o_user o' = u)).
  - intros f u s o Hst Hf Hu. unfold getOrderById. rewrite Hf.
    destruct (stored_find _ _ Hst) as [i ->].
    by rewrite bool_decide_eq_true_2.
  - intros f u s os. unfold getMyOrders. destruct (f 0%nat); [done|]. intros [= <-].
    split; [apply sublist_filter|]. intros o. rewrite list_elem_of_filter.
    clear. split; intros [? ?]; by split.
Qed.
End V1More.

(** ** The Go service: orders over histories *)
Section GoOrders.
Import Go GoCart GoInv.
Context {float64 : Type} `{Number float64}.

#[local] Instance created_at_desc_total : base.Total (@created_at_desc float64).
Proof. intros a b. unfold created_at_desc. lia. Qed.

#[local] Instance created_at_desc_trans : Transitive (@created_at_desc float64).
Proof. intros a b c. unfold created_at_desc. lia. Qed.

(** X18.  The order history of the Go service holds one entry for each
    order of the user and none for an order of anybody else, and it is
    sorted by creation time, newest first. *)
Theorem order_history_newest_first (f : Faults) (u : nat) (db : @DB float64)
    (os : list OrderData)
    (Hget : GetUserOrders f u db = JSON StatusOK (Orders os)) :
  (∃ rows, os = order_data db <$> rows ∧
           rows ≡ₚ filter (fun o => Order_UserID o = u) (orders db)) ∧
  length os = length (filter (fun o => Order_UserID o = u) (orders db)) ∧
  StronglySorted newest_first os.
Proof.
  unfold GetUserOrders in Hget. destruct (f 0%nat); [done|]. injection Hget as <-.
  split; [eexists; split; [done|apply merge_sort_Permutation]|].
  split; [by rewrite length_fmap, merge_sort_Permutation|].
  apply (StronglySorted_fmap _ created_at_desc); [done|].
  apply StronglySorted_merge_sort; apply _.
Qed.

Lemma AddToCart_orders f u req (db : @DB float64) :
  orders (AddToCart f u req db).2 = orders db ∧
  seq_orders (AddToCart f u req db).2 = seq_orders db ∧
  ∀ c, c ∈ carts db → c ∈ carts (AddToCart f u req db).2.
Proof.
  destruct (AddToCart_cases f u req db)
    as [(code & msg & ->)|(tx1 & cart & Hfc & Hcase)]; [done|].
  assert (orders tx1 = orders db ∧ seq_orders tx1 = seq_orders db ∧
          ∀ c, c ∈ carts db → c ∈ carts tx1) as (Ho & Hs & Hc).
  { revert Hfc. unfold FirstOrCreate_open_cart.
    destruct (open_cart db u); intros [= <- _]; [done|]. simpl.
    split; [done|]. split; [done|]. intros c Hc. apply elem_of_app. by left. }
  by destruct Hcase as [(ci & _ & ->)|(_ & ->)].
Qed.

Lemma AddToCart_orders_ok f u req (db : @DB float64) :
  orders_ok db → orders_ok (AddToCart f u req db).2.
Proof.
  intros (Hid & Hseq & Hcart & Hclosed).
  destruct (AddToCart_orders f u req db) as (Ho & Hs & Hc).
  unfold orders_ok. rewrite Ho, Hs. split; [done|]. split; [done|]. split; [done|].
  intros o Hin. destruct (Hclosed o Hin) as (c & Hcin & Hrest).
  exists c. split; [by apply Hc|done].
Qed.

Lemma CreateOrder_orders_ok f now u (db : @DB float64) :
  wf db → orders_ok db → orders_ok (CreateOrder f now u db).2.
Proof.
  intros Hwf (Hid & Hseq & Hcart & Hclosed).
  destruct (CreateOrder_cases f now u db)
    as [(code & msg & -> & _)|(cart & o & Hopen & _ & Ho & ->)]; [done|].
  apply open_cart_Some in Hopen as (Hin & Hu & Hco).
  unfold orders_ok. cbn [snd orders carts seq_orders set_carts set_orders].
  destruct (fresh_id_NoDup Order_ID (orders db) o (seq_orders db) Hid Hseq)
    as [Hid' Hseq']; [by rewrite Ho|].
  split; [done|]. split; [done|]. split.
  - rewrite fmap_app. apply NoDup_app. split; [done|]. split; [|apply NoDup_singleton].
    intros cid (o' & -> & Ho')%list_elem_of_fmap Heq. simpl in Heq.
    apply list_elem_of_singleton in Heq.
    destruct (Hclosed o' Ho') as (c & Hc & Hcid & _ & Hcc).
    apply (closed_cart_other db (Order_CartID o') c cart Hwf Hc Hcid Hcc Hin Hco).
    rewrite Heq, Ho. done.
  - intros o' [Ho'| ->%list_elem_of_singleton]%elem_of_app.
    + destruct (Hclosed o' Ho') as (c & Hc & Hcid & Hcu & Hcc).
      exists c. split; [|done]. apply list_elem_of_fmap. exists c. split; [|done].
      rewrite decide_False; [done|]. rewrite Hcid. intros Heq.
      apply (closed_cart_other db (Order_CartID o') c cart Hwf Hc Hcid Hcc Hin Hco).
      done.
    + exists (checked_out now cart). split.
      { by apply (overwrite_elem Cart_ID cart (checked_out now cart)). }
      rewrite Ho. simpl. done.
Qed.

(** X19.  No cart is ordered twice.  Over any history of adds, checkouts
    and catalog changes of the Go service, the orders keep distinct ids, no
    two orders are taken from one cart, and the cart of every order is a
    checked-out cart of the user of the order. *)
Theorem no_cart_ordered_twice (ops : list (@Op float64)) (db : @DB float64)
    (Hwf : wf db) (Hok : orders_ok db) :
  orders_ok (run ops db).
Proof.
  revert db Hwf Hok. induction ops as [|op ops IH]; intros db Hwf Hok; [done|].
  unfold run. simpl. apply IH; [by apply step_wf|].
  destruct op as [f u req|f now u|its]; simpl.
  - by apply AddToCart_orders_ok.
  - by apply CreateOrder_orders_ok.
  - exact Hok.
Qed.
End GoOrders.

(** ** backend/src: the pages of the item list *)
Section SrcPages.
Import SrcItems.
Context {Doc : Type}.
Variable skip_limit : Z → Z → list Doc → option (list Doc).

(** X20.  A page of the item list.  For a page number and a limit of at
    least 1, on a database that takes the query and does not fail, the
    answer holds the documents of that page, at most [limit] of them,
    counted; it offers a next page exactly when the following page has at
    least one document, and a previous page exactly when the page is not the
    first.  A page or limit that is missing, not a number or 0 counts as
    page 1 and limit 10. *)
Theorem getItems_page (f : Faults) (matching : list Doc) (p l : Z)
    (Hdb : in_range skip_limit)
    (Hcount : f 0%nat = false) (Hfind : f 1%nat = false)
    (Hp : 1 <= p) (Hl : 1 <= l) (Hsafe : safe_integer (p * l)) :
  let data := take (Z.to_nat l) (drop (Z.to_nat ((p - 1) * l)) matching) in
  ∃ pagination,
    getItems skip_limit f matching (Some p) (Some l)
      = Items (length data) pagination data ∧
    (length data <= Z.to_nat l)%nat ∧
    (next pagination = Some {| page := p + 1; limit := l |} ∨ next pagination = None) ∧
    (next pagination = None ↔ drop (Z.to_nat (p * l)) matching = []) ∧
    (prev pagination = Some {| page := p - 1; limit := l |} ∨ prev pagination = None) ∧
    (prev pagination = None ↔ p = 1) ∧
    (p = 1 → getItems skip_limit f matching None (Some l)
             = getItems skip_limit f matching (Some p) (Some l) ∧
             getItems skip_limit f matching (Some 0) (Some l)
             = getItems skip_limit f matching (Some p) (Some l)) ∧
    (l = 10 → getItems skip_limit f matching (Some p) None
              = getItems skip_limit f matching (Some p) (Some l) ∧
              getItems skip_limit f matching (Some p) (Some 0)
              = getItems skip_limit f matching (Some p) (Some l)).
Proof.
  intros data.
  assert (getItems skip_limit f matching (Some p) (Some l)
          = Items (length data)
              {| next := if bool_decide (p * l < Z.of_nat (length matching))
                         then Some {| page := p + 1; limit := l |} else None;
                 prev := if bool_decide (0 < (p - 1) * l)
                         then Some {| page := p - 1; limit := l |} else None |}
              data) as Hpage.
  { unfold getItems.
    assert (or_default (Some p) 1 = p) as -> by (destruct p; simpl; lia || done).
    assert (or_default (Some l) 10 = l) as -> by (destruct l; simpl; lia || done).
    by rewrite Hcount, Hfind, Hdb by nia. }
  eexists. split; [exact Hpage|]. clear Hpage. cbn [next prev].
  split; [subst data; rewrite length_take; lia|].
  split; [destruct (bool_decide _); auto|].
  split.
  { rewrite <- length_zero_iff_nil, length_drop.
    destruct (bool_decide (p * l < _)) eqn:Hb.
    - apply bool_decide_eq_true in Hb. split; [done|]. lia.
    - apply bool_decide_eq_false in Hb. split; [|done]. lia. }
  split; [destruct (bool_decide _); auto|].
  split.
  { destruct (bool_decide (0 < _)) eqn:Hb.
    - apply bool_decide_eq_true in Hb. split; [done|]. intros ->. lia.
    - apply bool_decide_eq_false in Hb. split; [|done]. nia. }
  split; intros ->; split; reflexivity.
Qed.

Lemma take_drop_app {A} (xs : list A) (i n : nat) :
  take n (drop i xs) ++ drop (i + n) xs = drop i xs.
Proof. by rewrite <- drop_drop, take_drop. Qed.

Lemma follow_next_from (n : nat) (f : Faults) (matching : list Doc) (p l : Z) :
  in_range skip_limit → f 0%nat = false → f 1%nat = false →
  1 <= p → 1 <= l →
  Z.of_nat (length matching) <= (p - 1 + Z.of_nat n) * l →
  follow_next skip_limit n f matching (Some p) (Some l)
    = drop (Z.to_nat ((p - 1) * l)) matching.
Proof.
  intros Hdb Hcount Hfind. revert p. induction n as [|n IH]; intros p Hp Hl Hn.
  - simpl. symmetry. apply drop_ge. rewrite Z.add_0_r in Hn. lia.
  - cbn [follow_next]. unfold getItems. rewrite Nat2Z.inj_succ in Hn.
    assert (or_default (Some p) 1 = p) as -> by (destruct p; simpl; lia || done).
    assert (or_default (Some l) 10 = l) as -> by (destruct l; simpl; lia || done).
    assert (0 <= (p - 1) * l) as Hk by nia.
    assert (p * l = (p - 1) * l + l) as Hpl by ring.
    rewrite Hcount, Hfind, Hdb by lia. cbn [next].
    destruct (bool_decide (p * l < _)) eqn:Hb.
    + apply bool_decide_eq_true in Hb. cbn [page limit].
      rewrite IH; [|lia|lia|];
        [|by replace (p + 1 - 1 + Z.of_nat n) with (p - 1 + Z.succ (Z.of_nat n)) by lia].
      replace (p + 1 - 1) with p by lia. rewrite Hpl, Z2Nat.inj_add by lia.
      apply take_drop_app.
    + apply bool_decide_eq_false in Hb. rewrite app_nil_r. apply take_ge.
      rewrite length_drop. lia.
Qed.

(** X21.  The pages cover the list.  A client that asks for the first page
    and follows the next pages it is offered receives every selected
    document exactly once, in order, and is offered no page after the last
    document; [n] requests are enough as soon as [n] pages hold the list.
    This holds for any limit of at least 1, the database taking the queries
    and not failing. *)
Theorem pages_cover_the_list (n : nat) (f : Faults) (matching : list Doc) (l : Z)
    (Hdb : in_range skip_limit)
    (Hcount : f 0%nat = false) (Hfind : f 1%nat = false)
    (Hl : 1 <= l) (Hsafe : safe_integer (Z.of_nat (length matching) + l))
    (Hn : Z.of_nat (length matching) <= Z.of_nat n * l) :
  follow_next skip_limit n f matching None (Some l) = matching.
Proof.
  assert (follow_next skip_limit n f matching None (Some l)
          = follow_next skip_limit n f matching (Some 1) (Some l)) as ->
    by (by destruct n).
  rewrite follow_next_from by (done || lia). done.
Qed.
End SrcPages.

(** * The further properties on concrete data *)
Section MoreConcrete.
Import Examples Scenarios.

Lemma go_empty_wf : Go.wf go_empty.
Proof. repeat split; simpl; (apply NoDup_nil_2 || constructor). Defined.

Lemma go_empty_one_open : GoCart.one_open_cart go_empty.
Proof. intros i j c1 c2 Hi. simpl in Hi. by rewrite lookup_nil in Hi. Defined.

Lemma go_cart_one_open : GoCart.one_open_cart go_cart.
Proof.
  intros i j c1 c2 Hi Hj _ _ _. apply lookup_lt_Some in Hi, Hj. simpl in Hi, Hj. lia.
Defined.

Lemma go_full_wf : Go.wf go_full.
Proof.
  repeat split; simpl.
  - apply NoDup_singleton.
  - repeat constructor.
  - apply NoDup_singleton.
  - repeat constructor.
Defined.

Lemma go_empty_orders_ok : GoInv.orders_ok go_empty.
Proof.
  repeat split; simpl; try (apply NoDup_nil_2 || constructor).
  intros o Ho. by apply elem_of_nil in Ho.
Defined.

(** X1 on the history [go_ops]. *)
Lemma one_open_cart_witness :
  Go.wf (Go.run go_ops go_empty) ∧ GoCart.one_open_cart (Go.run go_ops go_empty).
Proof. apply (one_open_cart_per_user go_ops go_empty go_empty_wf go_empty_one_open). Defined.

(** X2: an add of item 7, which the catalog does not have. *)
Lemma AddToCart_unknown_item_witness :
  Go.AddToCart no_faults 1 {| Go.req_ItemID := 7; Go.req_Quantity := 1 |} go_cart =
    (Go.JSON 404 (Go.Error "item not found"), go_cart).
Proof.
  apply (proj2 (proj2 (AddToCart_all_or_nothing no_faults 1%nat
                         {| Go.req_ItemID := 7; Go.req_Quantity := 1 |} go_cart)));
    reflexivity.
Defined.

(** X3 on [go_cart]: the view and the order both say 20.00. *)
Lemma cart_view_total_witness :
  ∃ its, GoCart.GetUserCart no_faults 1 go_cart = GoCart.CartView 1 its 20%Q ∧
         Go.Total <$> last (Go.orders go_ordered) = Some 20%Q.
Proof.
  destruct (cart_view_total_is_order_total no_faults no_faults 5%nat 1%nat go_cart go_ordered
              1%nat eq_refl eq_refl) as (o & its & Hlast & _ & Hview & _).
  injection Hlast as <-. exists its. split; [exact Hview|reflexivity].
Defined.

(** X4 on [go_cart]. *)
Lemma checkout_closes_witness :
  GoCart.GetUserCart no_faults 1 go_ordered = GoCart.NoCart ∧
  Go.CreateOrder no_faults 6%nat 1 go_ordered =
    (Go.JSON 400 (Go.Error "no active cart found"), go_ordered).
Proof.
  apply (checkout_closes_the_cart no_faults no_faults 5%nat 6%nat 1%nat go_cart go_ordered
           1%nat go_cart_one_open eq_refl eq_refl).
Defined.

(** X5: after the add of 3 more of item 42 to [go_cart] the view shows the
    lamp at 10.00 with quantity 5. *)
Lemma add_then_view_witness :
  ∃ its total line,
    GoCart.GetUserCart no_faults 1 (Go.AddToCart no_faults 1 (go_req 3) go_cart).2
      = GoCart.CartView 1 its total ∧
    line ∈ its ∧ Go.item_name line = "Lamp" ∧ Go.item_price line = 10%Q ∧
    Go.item_quantity line = 5.
Proof.
  destruct (add_then_view no_faults no_faults 1%nat (go_req 3) go_cart
              (Go.AddToCart no_faults 1 (go_req 3) go_cart).2 1%nat go_cart_wf eq_refl eq_refl)
    as (its & total & row & line & Hview & Hrow & Hin & _ & Hname & Hprice & Hq).
  injection Hrow as <-. exists its, total, line.
  split; [exact Hview|]. split; [exact Hin|]. split; [exact Hname|]. split; [exact Hprice|].
  exact Hq.
Defined.

(** X6: one more on a line that holds the largest [int] gives a negative
    quantity. *)
Lemma add_quantity_overflow_witness :
  ∃ i q, Go.Quantity <$> Go.cart_items (Go.AddToCart no_faults 1 (go_req 1) go_full).2 !! i
           = Some q ∧ q < 0.
Proof.
  destruct (add_quantity_bounds no_faults 1%nat (go_req 1) go_full
              (Go.AddToCart no_faults 1 (go_req 1) go_full).2 1%nat
              {| Go.CartItem_ID := 1; Go.CartID := 1; Go.ItemID := 42;
                 Go.Quantity := 2 ^ 63 - 1 |}
              go_full_wf ltac:(by vm_compute) eq_refl eq_refl)
    as (i & _ & _ & Hneg).
  exists i. apply Hneg. by vm_compute.
Defined.

Lemma src_empty_quantities_ok : SrcInv.quantities_ok src_empty.
Proof. intros u cart ci Hc. exfalso. cbn in Hc. by rewrite lookup_empty in Hc. Defined.

Lemma src_empty_unique_lines : SrcInv.unique_lines src_empty.
Proof. intros u cart Hc. exfalso. cbn in Hc. by rewrite lookup_empty in Hc. Defined.

Lemma src_ops_routed : Forall SrcInv.routed src_ops.
Proof. repeat constructor. Defined.

Lemma src_sold_out_unique_lines : SrcInv.unique_lines src_sold_out.
Proof.
  assert (Src.Carts src_sold_out =
          {[ 1%nat := {| Src.items := [src_line 42 10 2]; Src.totalPrice := 20%Q;
                         Src.totalItems := 2 |} ]}) as Hcarts by reflexivity.
  intros u cart Hc. rewrite Hcarts in Hc.
  apply lookup_singleton_Some in Hc as [_ <-]. apply NoDup_singleton.
Defined.

(** X7 on the history [src_ops]: the line of user 1 holds 4. *)
Lemma quantities_witness :
  SrcInv.quantities_ok (Src.run src_ops src_empty) ∧
  fmap Src.quantity <$> (Src.items <$> Src.Carts (Src.run src_ops src_empty) !! 1%nat)
    = Some [4].
Proof.
  split; [|reflexivity].
  apply (quantities_stay_positive src_ops src_empty src_ops_routed src_empty_quantities_ok).
Defined.

Lemma src_ops_lower_case : Forall SrcInv.lower_case_add src_ops.
Proof. repeat constructor. Defined.

Lemma src_cart_unique_lines : SrcInv.unique_lines src_cart.
Proof. exact src_sold_out_unique_lines. Defined.

(** X8 on the history [src_ops], and on an add to [src_cart] that spells
    the id of item 42 in capitals: the cart has two lines of item 42, of 2
    and of 3. *)
Lemma lines_unique_witness :
  SrcInv.unique_lines (Src.run src_ops src_empty) ∧
  ∃ cart',
    Src.Carts (Src.addItemToCart no_faults [] 1 (Src.other_case 42) (Some (Src.JNumber 3))
                 src_cart).2 !! 1%nat = Some cart' ∧
    (fun ci => (Src.item ci, Src.quantity ci)) <$> Src.items cart'
      = [(42%nat, 2); (42%nat, 3)] ∧
    ¬ NoDup (Src.item <$> Src.items cart').
Proof.
  split.
  - apply (proj1 lines_stay_unique src_ops src_empty src_ops_lower_case
             src_empty_unique_lines).
  - set (a := Src.addItemToCart no_faults [] 1 (Src.other_case 42) (Some (Src.JNumber 3))
                src_cart).
    assert (∃ body, a = (Src.Res 201 body, a.2)) as [body Ha]
      by (eexists; vm_compute; reflexivity).
    destruct (proj2 lines_stay_unique no_faults [] 1%nat (Src.other_case 42)
                (Some (Src.JNumber 3)) src_cart body a.2
                {| Src.items := [src_line 42 10 2]; Src.totalPrice := 20%Q;
                   Src.totalItems := 2 |}
                eq_refl eq_refl ltac:(apply list_elem_of_here) Ha)
      as (cart' & line & Hc & Hits & Hitem & Hdup).
    exists cart'. split; [exact Hc|]. split; [|exact Hdup].
    vm_compute in Hc. injection Hc as <-. reflexivity.
Defined.

(** X9: after 3 more of item 42 the cart of [src_cart] holds 5 of it, in
    one line; 11, of which the catalog has 10, are refused on add and on
    update. *)
Lemma over_stock_witness :
  (∃ cart',
     Src.Carts (Src.addItemToCart no_faults [] 1 (Src.toString 42) (Some (Src.JNumber 3))
                  src_cart).2 !! 1%nat = Some cart' ∧
     SrcInv.held 42 (Src.items cart') = 5) ∧
  Src.addItemToCart no_faults [] 1 (Src.toString 42) (Some (Src.JNumber 11)) src_cart
    = (Src.Res 400 (Src.OnlyInStock 10), src_cart) ∧
  Src.updateCartItem no_faults [] 1 (Src.toString 42) (Src.JNumber 11) src_cart
    = (Src.Res 400 (Src.OnlyInStock 10), src_cart).
Proof.
  split.
  - set (a := Src.addItemToCart no_faults [] 1 (Src.toString 42) (Some (Src.JNumber 3))
                src_cart).
    assert (∃ body, a = (Src.Res 201 body, a.2)) as [body Ha]
      by (eexists; vm_compute; reflexivity).
    destruct (proj1 stored_quantity_within_stock no_faults [] 1%nat (Src.toString 42)
                (Some (Src.JNumber 3)) src_cart body a.2 eq_refl src_cart_unique_lines Ha)
      as (itemDoc & cart' & line & _ & Hc & _ & _ & Hheld & Hq & _).
    exists cart'. split; [exact Hc|]. etrans; [exact Hheld|].
    vm_compute in Hq. injection Hq as Hq. symmetry. exact Hq.
  - apply (proj2 (proj2 stored_quantity_within_stock) no_faults 1%nat (Src.toString 42)
             (Src.JNumber 11) 11 src_cart (src_item 10 10) eq_refl eq_refl eq_refl).
    simpl. lia.
Defined.

(** X10 on [src_sold_out]: the first view prunes the line of item 42, the
    second writes nothing. *)
Lemma getCart_twice_witness :
  (Src.getCart no_faults 1 src_sold_out).2 ≠ src_sold_out ∧
  (Src.getCart no_faults 1 (Src.getCart no_faults 1 src_sold_out).2).2
    = (Src.getCart no_faults 1 src_sold_out).2.
Proof.
  split.
  - intros Heq. apply (f_equal (fun s => Src.items <$> Src.Carts s !! 1%nat)) in Heq.
    discriminate Heq.
  - apply (proj1 (getCart_writes_once no_faults no_faults 1%nat src_sold_out
                    eq_refl eq_refl)).
Defined.

(** X11 on [src_sold_out]: the remove of item 42 empties the cart of user 1,
    and the same remove again is answered with 404. *)
Lemma remove_twice_witness :
  Src.removeItemFromCart no_faults 1 (Src.toString 42)
    (Src.removeItemFromCart no_faults 1 (Src.toString 42) src_sold_out).2
  = (Src.Res 404 (Src.Message "Item not found in cart"),
     (Src.removeItemFromCart no_faults 1 (Src.toString 42) src_sold_out).2).
Proof.
  set (r := Src.removeItemFromCart no_faults 1 (Src.toString 42) src_sold_out).
  assert (∃ body, r = (Src.Res 200 body, r.2)) as [body Hr]
    by (eexists; vm_compute; reflexivity).
  apply (proj2 (proj2 removeItem_then_not_found no_faults no_faults 1%nat (Src.toString 42)
                  src_sold_out body r.2 src_sold_out_unique_lines eq_refl Hr)).
Defined.

(** X12 on [src_sold_out]: item 43 added to the cart of user 1 and removed
    again. *)
Lemma add_then_remove_witness :
  (Src.removeItemFromCart no_faults 1 (Src.toString 43)
     (Src.addItemToCart no_faults [] 1 (Src.toString 43) (Some (Src.JNumber 1))
        src_sold_out).2).2 = src_sold_out.
Proof.
  set (a := Src.addItemToCart no_faults [] 1 (Src.toString 43) (Some (Src.JNumber 1))
              src_sold_out).
  assert (∃ body, a = (Src.Res 201 body, a.2)) as [body1 Ha]
    by (eexists; vm_compute; reflexivity).
  set (r := Src.removeItemFromCart no_faults 1 (Src.toString 43) a.2).
  assert (∃ body, r = (Src.Res 200 body, r.2)) as [body2 Hr]
    by (eexists; vm_compute; reflexivity).
  apply (add_then_remove (H:=decimal) no_faults no_faults [] 1%nat (Src.toString 43)
           (Some (Src.JNumber 1)) src_sold_out a.2 r.2
           {| Src.items := [src_line 42 10 2]; Src.totalPrice := 20%Q; Src.totalItems := 2 |}
           body1 body2 eq_refl eq_refl); [|exact Ha|exact Hr].
  simpl. intros [Heq|Hin%elem_of_nil]%elem_of_cons; [discriminate Heq|done].
Defined.

(** X22: the route takes the string 3, and on the line of 2 of [src_cart],
    with 30 in stock, the add stores 23. *)
Lemma string_quantity_witness :
  Src.check_add (Some (Src.JString None (Decimal.D3 Decimal.Nil))) = [] ∧
  ∃ cart',
    Src.Carts (Src.addItemToCart no_faults [] 1 (Src.toString 42)
                 (Some (Src.JString None (Decimal.D3 Decimal.Nil))) src_stocked).2 !! 1%nat
      = Some cart' ∧
    Src.items cart' = [src_line 42 10 23].
Proof.
  split; [reflexivity|].
  set (a := Src.addItemToCart no_faults [] 1 (Src.toString 42)
              (Some (Src.JString None (Decimal.D3 Decimal.Nil))) src_stocked).
  assert (∃ body, a = (Src.Res 201 body, a.2)) as [body Ha]
    by (eexists; vm_compute; reflexivity).
  destruct (string_quantity_is_appended no_faults 1%nat (Src.toString 42)
              (Decimal.D3 Decimal.Nil) src_stocked a.2 body
              {| Src.items := [src_line 42 10 2]; Src.totalPrice := 20%Q;
                 Src.totalItems := 2 |} 0%nat (src_line 42 10 2)
              eq_refl eq_refl ltac:(simpl; lia) ltac:(discriminate) Ha)
    as (itemDoc & cart' & _ & Hc & Hits & _).
  exists cart'. split; [exact Hc|]. rewrite Hits. reflexivity.
Defined.

(** X23 on [src_cart]: the update of item 42 to 4, with the id in capitals,
    is answered with 404 although the cart has the line. *)
Lemma updateCartItem_other_case_witness :
  Src.item <$> Src.items (default Src.newCart (Src.Carts src_cart !! 1%nat)) = [42%nat] ∧
  Src.updateCartItem no_faults [] 1 (Src.other_case 42) (Src.JNumber 4) src_cart
    = (Src.Res 404 (Src.Message "Item not found in cart"), src_cart).
Proof.
  split; [reflexivity|].
  apply (updateCartItem_other_case no_faults 1%nat (Src.other_case 42) (Src.JNumber 4) src_cart
           (src_item 10 10)
           {| Src.items := [src_line 42 10 2]; Src.totalPrice := 20%Q; Src.totalItems := 2 |}
           eq_refl eq_refl eq_refl eq_refl eq_refl eq_refl).
Defined.

(** X13 on [src_cart]: the clear leaves user 1 with an empty cart, which
    the view shows. *)
Lemma clearCart_witness :
  Src.getCart no_faults 1 (Src.clearCart no_faults 1 src_cart).2
    = (Src.Res 200 (Src.CartBody [] 0 0%Q), (Src.clearCart no_faults 1 src_cart).2) ∧
  Src.clearCart no_faults 2 src_cart = (Src.Res 404 (Src.Message "Cart not found"), src_cart).
Proof.
  split.
  - apply (proj1 (clearCart_empties (H:=decimal)) no_faults no_faults 1%nat src_cart
             (Src.clearCart no_faults 1 src_cart).2 eq_refl eq_refl).
  - apply (proj2 clearCart_empties no_faults 2%nat src_cart eq_refl eq_refl).
Defined.

(** X14 on the cart of [src_cart]. *)
Lemma Cart_removeItemFromCart_witness :
  ∃ this1 s1,
    Src.Cart_removeItemFromCart false 1 42
      {| Src.items := [src_line 42 10 2]; Src.totalPrice := 20%Q; Src.totalItems := 2 |}
      src_cart = Some (this1, s1) ∧
    Src.items this1 = [] ∧
    Src.Cart_removeItemFromCart false 1 42 this1 s1 = Some (this1, s1).
Proof.
  eexists _, _. split; [reflexivity|].
  destruct (Cart_removeItemFromCart_idempotent 1%nat 42%nat
              {| Src.items := [src_line 42 10 2]; Src.totalPrice := 20%Q; Src.totalItems := 2 |}
              _ src_cart _ eq_refl) as (Hits & _ & _ & Hagain).
  split; [exact Hits|exact Hagain].
Defined.

Lemma v1_store_in_stock : V1Inv.in_stock (V1.Products v1_store).
Proof.
  intros id p Hp. unfold v1_store in Hp. cbn [V1.Products] in Hp.
  apply lookup_singleton_Some in Hp as [_ <-]. simpl. lia.
Defined.

Lemma v1_ops_restocks : Forall V1Inv.restocks v1_ops.
Proof.
  repeat constructor. intros id p Hp.
  apply lookup_singleton_Some in Hp as [_ <-]. simpl. lia.
Defined.

(** X15 on the history [v1_ops]: 13 left after the first order, a restock
    to 1, an order of 2 that is refused, and one more that is refused. *)
Lemma inventory_witness :
  V1Inv.in_stock (V1.Products (V1.run (fun o => o) v1_ops v1_store)) ∧
  V1.inventory <$> V1.Products (V1.run (fun o => o) v1_ops v1_store) !! 42%nat = Some 1.
Proof.
  split; [|reflexivity].
  apply (inventory_never_negative (fun o => o) v1_ops v1_store v1_ops_restocks
           v1_store_in_stock).
Defined.


(** X17: user 2 is refused the order of user 1 and finds it in no
    history. *)
Lemma orders_private_witness :
  ∃ o s', V1.createOrder (fun o => o) no_faults 1 (v1_body v1_two_lamps) v1_store
            = (V1.Res 201 (V1.OrderBody o), s') ∧
          V1.getOrderById no_faults 2 false (V1._id o) s'
            = V1.Next (V1.ErrorResponse "Not authorized to view this order" 401) ∧
          V1.getMyOrders no_faults 2 s' = V1.Res 200 (V1.OrdersBody []).
Proof.
  eexists _, _. split; [reflexivity|]. split; [|reflexivity].
  apply (proj1 (proj2 (orders_are_private (Num:=Q))) no_faults 2%nat).
  - eexists [], []. split; [reflexivity|]. apply not_elem_of_nil.
  - reflexivity.
  - discriminate.
Defined.

(** X18 on the history [go_ops]: the two orders of user 1, the later one
    first. *)
Lemma order_history_witness :
  ∃ os, Go.GetUserOrders no_faults 1 (Go.run go_ops go_empty) = Go.JSON 200 (Go.Orders os) ∧
        Go.order_created_at <$> os = [6%nat; 5%nat] ∧
        StronglySorted GoInv.newest_first os.
Proof.
  eexists. split; [reflexivity|]. split; [reflexivity|].
  apply (order_history_newest_first no_faults 1%nat (Go.run go_ops go_empty) _ eq_refl).
Defined.

(** X19 on the history [go_ops]. *)
Lemma orders_ok_witness :
  GoInv.orders_ok (Go.run go_ops go_empty) ∧
  Go.Order_CartID <$> Go.orders (Go.run go_ops go_empty) = [1%nat; 2%nat].
Proof.
  split; [|reflexivity].
  apply (no_cart_ordered_twice go_ops go_empty go_empty_wf go_empty_orders_ok).
Defined.

Lemma database_in_range : SrcItems.in_range database.
Proof.
  intros skip limit docs Hs Hl. unfold database. by rewrite bool_decide_eq_true_2.
Defined.

(** X20: page 3 of 25 documents by 10 holds the last 5, with a previous
    page and no next page. *)
Lemma getItems_page_witness :
  ∃ pagination,
    SrcItems.getItems database no_faults docs25 (Some 3) (Some 10)
      = SrcItems.Items 5 pagination [20; 21; 22; 23; 24]%nat ∧
    SrcItems.next pagination = None ∧
    SrcItems.prev pagination = Some {| SrcItems.page := 2; SrcItems.limit := 10 |}.
Proof.
  destruct (getItems_page database no_faults docs25 3 10 database_in_range eq_refl eq_refl
              ltac:(lia) ltac:(lia) ltac:(by vm_compute))
    as (pagination & Hpage & _ & _ & Hnext & Hprev & Hfirst & _).
  exists pagination. split; [exact Hpage|]. split; [by apply Hnext|].
  destruct Hprev as [Hp|Hp]; [exact Hp|]. apply Hfirst in Hp. discriminate Hp.
Defined.

(** X21: three requests bring the 25 documents, page by page. *)
Lemma pages_cover_witness :
  SrcItems.follow_next database 3 no_faults docs25 None (Some 10) = docs25.
Proof.
  apply (pages_cover_the_list database 3 no_faults docs25 10 database_in_range
           eq_refl eq_refl ltac:(lia) ltac:(by vm_compute) ltac:(by vm_compute)).
Defined.
End MoreConcrete.
